(** * main.js: the page's visual effects, as a model of the browser event loop

    The script is one [DOMContentLoaded] handler that registers listeners,
    timers, animation-frame callbacks and promise reactions.  The model keeps
    the handler's closure variables, the browser's queues and the part of the
    page the script reads or writes in one record, [World]; every function of
    the script is a function on [World], and the browser is a list of events
    run by [handle].

    JavaScript numbers are modelled as real numbers: the rounding of binary64
    arithmetic is not part of the model, and neither are NaN and infinities,
    which the values read here (scroll offsets, lengths, pointer coordinates)
    never are.  Time is a count of milliseconds and a timer fires at its
    deadline. *)

From Stdlib Require Import Reals Lra Lia ZArith List Ascii String Bool.
From Stdlib Require Import DecimalString.
From stdpp Require Import base gmap strings.

(** ** Numbers *)

Section Numbers.
Local Open Scope R_scope.

(** [const clamp = (v, min, max) => Math.min(max, Math.max(min, v))] *)
Definition clamp (v min max : R) : R := Rmin max (Rmax min v).

(** [Math.pow(base, exponent)] for [base >= 0] and [exponent > 0], the only
    way the script calls it: a zero base gives zero, any other base the
    real power. *)
Definition Math_pow (base exponent : R) : R :=
  if Req_dec_T base 0 then 0 else Rpower base exponent.

(** The integer [n] for which [n - x] is as close to zero as possible, the
    larger one when two are equally close ([Number.prototype.toFixed],
    step "let n be an integer for which ..."). *)
Definition nearest (x : R) : Z := Int_part (x + / 2).

(** The result of [toFixed]: a sign, the integer [n] of the digits and the
    number of digits after the point. *)
Record Fixed := mkFixed { fx_neg : bool; fx_n : Z; fx_frac : nat }.

(** [x.toFixed(f)] for [|x| < 10^21]. *)
Definition toFixed (x : R) (f : nat) : Fixed :=
  if Rlt_dec x 0
  then mkFixed true (nearest (- x * 10 ^ f)) f
  else mkFixed false (nearest (x * 10 ^ f)) f.

(** The number a [Fixed] denotes. *)
Definition Fixed_value (d : Fixed) : R :=
  (if fx_neg d then - IZR (fx_n d) else IZR (fx_n d)) / 10 ^ fx_frac d.
End Numbers.



(** ** The page *)

(** An element of the page, by identity. *)
Definition node := nat.

(** What the script assigns to a style property. *)
Inductive css_value :=
  | CssFixed (d : Fixed)        (* the string [x.toFixed(3)] *)
  | CssNumber (x : R)           (* a number, converted by the setter *)
  | CssTranslate3d (y : R)      (* [`translate3d(0, ${y}px, 0)`] *)
  | CssPx (x : R)               (* [`${x}px`] *)
  | CssText (s : string).       (* a string literal *)

(** A write to the page. *)
Inductive mutation :=
  | SetStyle (el : node) (prop : string) (v : css_value)
  | AddClass (el : node) (c : string)
  | RemoveNode (el : node).

(** [getBoundingClientRect()], the two sides the script reads. *)
Record DOMRect := mkRect { rect_left : R; rect_top : R }.

Record MouseEvent := mkMouse { clientX : R; clientY : R }.

(** An [IntersectionObserverEntry]. *)
Record Entry := mkEntry { target : node; isIntersecting : bool }.

(** What the handler finds in the document when it runs: the results of its
    queries and the values it reads then. *)
Record Document := mkDocument {
  titleEl : option node;        (* querySelector('.hero .title') *)
  titleText : option node;      (* querySelector('.title .title-text') *)
  pageLoader : option node;     (* getElementById('page-loader') *)
  bgImgs : list node;           (* querySelectorAll('#bg-layer .bg-image') *)
  sunrise : option node;        (* querySelector('.bg-sunrise') *)
  sunset : option node;         (* querySelector('.bg-sunset') *)
  bgOverlay : option node;      (* querySelector('.bg-overlay') *)
  revealTargets : list node;    (* querySelectorAll('[data-animate]') *)
  orbs : list node;             (* querySelectorAll('.orb') *)
  pointer_fine : bool;          (* matchMedia('(pointer:fine)').matches *)
  img_complete : node -> bool;  (* img.complete *)
  load_classes : gmap node (list string);
  load_scrollY : R;             (* window.scrollY *)
  load_scrollHeight : R;        (* document.documentElement.scrollHeight *)
  load_innerHeight : R          (* window.innerHeight *)
}.

(** ** The script's state and the browser's queues *)

(** [const state = { scrollY, docHeight, ticking }] *)
Record State := mkState { scrollY : R; docHeight : R; ticking : bool }.

(** The callbacks the script hands to [requestAnimationFrame] and
    [setTimeout]. *)
Inductive task :=
  | TTitleVisible               (* () => titleEl.classList.add('visible') *)
  | TShimmer                    (* the 400ms callback *)
  | TFloaty                     (* () => titleText.classList.add('floaty') *)
  | TRemoveOverlay              (* () => pageLoader.remove() *)
  | TRaceTimeout                (* resolve of the 1500ms promise *)
  | TUpdateVisuals              (* updateVisuals *)
  | TMoveOrbs (e : MouseEvent). (* () => moveOrbs(e) *)

Inductive listener := OnResize | OnScroll | OnMouseMove.

Inductive promise := Pending | Fulfilled.

(** Calls of the two frame functions, with what they read on entry; kept
    beside the state to count them. *)
Inductive call :=
  | CallUpdateVisuals (scrollY docHeight : R)
  | CallMoveOrbs (e : MouseEvent).

#[global] Instance listener_eq_dec : EqDecision listener.
Proof. solve_decision. Defined.

#[global] Instance promise_eq_dec : EqDecision promise.
Proof. solve_decision. Defined.

Record World := mkWorld {
  (* the page *)
  classes : gmap node (list string);   (* classList of each element *)
  detached : gset node;                (* elements taken out by remove() *)
  window_scrollY : R;
  scrollHeight : R;
  innerHeight : R;
  boundingRect : node -> DOMRect;
  (* variables of the handler *)
  state : State;
  mouseTicking : bool;
  observed : option (list node);       (* the observer and its targets *)
  signals : list (node * promise);     (* one promise per image *)
  timeoutP : promise;                  (* the 1500ms promise *)
  raceP : option promise;              (* Promise.race([...]) *)
  (* the browser's registrations *)
  listeners : list listener;
  now : nat;
  timers : list (nat * task);          (* deadline, callback *)
  raf : list task;
  (* what happened, oldest first, with the time *)
  log : list (nat * mutation);
  calls : list (nat * call)
}.

Definition set_classes (v : gmap node (list string)) (w : World) : World :=
  mkWorld v (w.(detached)) (w.(window_scrollY)) (w.(scrollHeight))
    (w.(innerHeight)) (w.(boundingRect)) (w.(state)) (w.(mouseTicking))
    (w.(observed)) (w.(signals)) (w.(timeoutP)) (w.(raceP)) (w.(listeners))
    (w.(now)) (w.(timers)) (w.(raf)) (w.(log)) (w.(calls)).

Definition set_detached (v : gset node) (w : World) : World :=
  mkWorld (w.(classes)) v (w.(window_scrollY)) (w.(scrollHeight))
    (w.(innerHeight)) (w.(boundingRect)) (w.(state)) (w.(mouseTicking))
    (w.(observed)) (w.(signals)) (w.(timeoutP)) (w.(raceP)) (w.(listeners))
    (w.(now)) (w.(timers)) (w.(raf)) (w.(log)) (w.(calls)).

Definition set_window_scrollY (v : R) (w : World) : World :=
  mkWorld (w.(classes)) (w.(detached)) v (w.(scrollHeight))
    (w.(innerHeight)) (w.(boundingRect)) (w.(state)) (w.(mouseTicking))
    (w.(observed)) (w.(signals)) (w.(timeoutP)) (w.(raceP)) (w.(listeners))
    (w.(now)) (w.(timers)) (w.(raf)) (w.(log)) (w.(calls)).

Definition set_scrollHeight (v : R) (w : World) : World :=
  mkWorld (w.(classes)) (w.(detached)) (w.(window_scrollY)) v
    (w.(innerHeight)) (w.(boundingRect)) (w.(state)) (w.(mouseTicking))
    (w.(observed)) (w.(signals)) (w.(timeoutP)) (w.(raceP)) (w.(listeners))
    (w.(now)) (w.(timers)) (w.(raf)) (w.(log)) (w.(calls)).

Definition set_innerHeight (v : R) (w : World) : World :=
  mkWorld (w.(classes)) (w.(detached)) (w.(window_scrollY))
    (w.(scrollHeight)) v (w.(boundingRect)) (w.(state)) (w.(mouseTicking))
    (w.(observed)) (w.(signals)) (w.(timeoutP)) (w.(raceP)) (w.(listeners))
    (w.(now)) (w.(timers)) (w.(raf)) (w.(log)) (w.(calls)).

Definition set_boundingRect (v : node -> DOMRect) (w : World) : World :=
  mkWorld (w.(classes)) (w.(detached)) (w.(window_scrollY))
    (w.(scrollHeight)) (w.(innerHeight)) v (w.(state)) (w.(mouseTicking))
    (w.(observed)) (w.(signals)) (w.(timeoutP)) (w.(raceP)) (w.(listeners))
    (w.(now)) (w.(timers)) (w.(raf)) (w.(log)) (w.(calls)).

Definition set_state (v : State) (w : World) : World :=
  mkWorld (w.(classes)) (w.(detached)) (w.(window_scrollY))
    (w.(scrollHeight)) (w.(innerHeight)) (w.(boundingRect)) v
    (w.(mouseTicking)) (w.(observed)) (w.(signals)) (w.(timeoutP))
    (w.(raceP)) (w.(listeners)) (w.(now)) (w.(timers)) (w.(raf)) (w.(log))
    (w.(calls)).

Definition set_mouseTicking (v : bool) (w : World) : World :=
  mkWorld (w.(classes)) (w.(detached)) (w.(window_scrollY))
    (w.(scrollHeight)) (w.(innerHeight)) (w.(boundingRect)) (w.(state)) v
    (w.(observed)) (w.(signals)) (w.(timeoutP)) (w.(raceP)) (w.(listeners))
    (w.(now)) (w.(timers)) (w.(raf)) (w.(log)) (w.(calls)).

Definition set_observed (v : option (list node)) (w : World) : World :=
  mkWorld (w.(classes)) (w.(detached)) (w.(window_scrollY))
    (w.(scrollHeight)) (w.(innerHeight)) (w.(boundingRect)) (w.(state))
    (w.(mouseTicking)) v (w.(signals)) (w.(timeoutP)) (w.(raceP))
    (w.(listeners)) (w.(now)) (w.(timers)) (w.(raf)) (w.(log)) (w.(calls)).

Definition set_signals (v : list (node * promise)) (w : World) : World :=
  mkWorld (w.(classes)) (w.(detached)) (w.(window_scrollY))
    (w.(scrollHeight)) (w.(innerHeight)) (w.(boundingRect)) (w.(state))
    (w.(mouseTicking)) (w.(observed)) v (w.(timeoutP)) (w.(raceP))
    (w.(listeners)) (w.(now)) (w.(timers)) (w.(raf)) (w.(log)) (w.(calls)).

Definition set_timeoutP (v : promise) (w : World) : World :=
  mkWorld (w.(classes)) (w.(detached)) (w.(window_scrollY))
    (w.(scrollHeight)) (w.(innerHeight)) (w.(boundingRect)) (w.(state))
    (w.(mouseTicking)) (w.(observed)) (w.(signals)) v (w.(raceP))
    (w.(listeners)) (w.(now)) (w.(timers)) (w.(raf)) (w.(log)) (w.(calls)).

Definition set_raceP (v : option promise) (w : World) : World :=
  mkWorld (w.(classes)) (w.(detached)) (w.(window_scrollY))
    (w.(scrollHeight)) (w.(innerHeight)) (w.(boundingRect)) (w.(state))
    (w.(mouseTicking)) (w.(observed)) (w.(signals)) (w.(timeoutP)) v
    (w.(listeners)) (w.(now)) (w.(timers)) (w.(raf)) (w.(log)) (w.(calls)).

Definition set_listeners (v : list listener) (w : World) : World :=
  mkWorld (w.(classes)) (w.(detached)) (w.(window_scrollY))
    (w.(scrollHeight)) (w.(innerHeight)) (w.(boundingRect)) (w.(state))
    (w.(mouseTicking)) (w.(observed)) (w.(signals)) (w.(timeoutP))
    (w.(raceP)) v (w.(now)) (w.(timers)) (w.(raf)) (w.(log)) (w.(calls)).

Definition set_now (v : nat) (w : World) : World :=
  mkWorld (w.(classes)) (w.(detached)) (w.(window_scrollY))
    (w.(scrollHeight)) (w.(innerHeight)) (w.(boundingRect)) (w.(state))
    (w.(mouseTicking)) (w.(observed)) (w.(signals)) (w.(timeoutP))
    (w.(raceP)) (w.(listeners)) v (w.(timers)) (w.(raf)) (w.(log))
    (w.(calls)).

Definition set_timers (v : list (nat * task)) (w : World) : World :=
  mkWorld (w.(classes)) (w.(detached)) (w.(window_scrollY))
    (w.(scrollHeight)) (w.(innerHeight)) (w.(boundingRect)) (w.(state))
    (w.(mouseTicking)) (w.(observed)) (w.(signals)) (w.(timeoutP))
    (w.(raceP)) (w.(listeners)) (w.(now)) v (w.(raf)) (w.(log)) (w.(calls)).

Definition set_raf (v : list task) (w : World) : World :=
  mkWorld (w.(classes)) (w.(detached)) (w.(window_scrollY))
    (w.(scrollHeight)) (w.(innerHeight)) (w.(boundingRect)) (w.(state))
    (w.(mouseTicking)) (w.(observed)) (w.(signals)) (w.(timeoutP))
    (w.(raceP)) (w.(listeners)) (w.(now)) (w.(timers)) v (w.(log))
    (w.(calls)).

Definition set_log (v : list (nat * mutation)) (w : World) : World :=
  mkWorld (w.(classes)) (w.(detached)) (w.(window_scrollY))
    (w.(scrollHeight)) (w.(innerHeight)) (w.(boundingRect)) (w.(state))
    (w.(mouseTicking)) (w.(observed)) (w.(signals)) (w.(timeoutP))
    (w.(raceP)) (w.(listeners)) (w.(now)) (w.(timers)) (w.(raf)) v
    (w.(calls)).

Definition set_calls (v : list (nat * call)) (w : World) : World :=
  mkWorld (w.(classes)) (w.(detached)) (w.(window_scrollY))
    (w.(scrollHeight)) (w.(innerHeight)) (w.(boundingRect)) (w.(state))
    (w.(mouseTicking)) (w.(observed)) (w.(signals)) (w.(timeoutP))
    (w.(raceP)) (w.(listeners)) (w.(now)) (w.(timers)) (w.(raf)) (w.(log)) v.

(** Assignments to the fields of [state]. *)
Definition set_scrollY (v : R) (w : World) : World :=
  set_state (mkState v (docHeight (state w)) (ticking (state w))) w.

Definition set_docHeight (v : R) (w : World) : World :=
  set_state (mkState (scrollY (state w)) v (ticking (state w))) w.

Definition set_ticking (v : bool) (w : World) : World :=
  set_state (mkState (scrollY (state w)) (docHeight (state w)) v) w.

(** ** Browser operations *)

Definition mutate (m : mutation) (w : World) : World :=
  set_log (log w ++ [(now w, m)]) w.

Definition record_call (c : call) (w : World) : World :=
  set_calls (calls w ++ [(now w, c)]) w.

Definition classList_of (el : node) (w : World) : list string :=
  default [] (classes w !! el).

(** [el.classList.contains(c)] *)
Definition classList_contains (el : node) (c : string) (w : World) : bool :=
  bool_decide (c ∈ classList_of el w).

(** [el.classList.add(c)]: a token list holds a token once. *)
Definition classList_add (el : node) (c : string) (w : World) : World :=
  let l := classList_of el w in
  let l' := if bool_decide (c ∈ l) then l else l ++ [c] in
  mutate (AddClass el c) (set_classes (<[el := l']> (classes w)) w).

(** [el.style.prop = v] and [el.style.setProperty(prop, v)] *)
Definition style_set (el : node) (prop : string) (v : css_value)
    (w : World) : World :=
  mutate (SetStyle el prop v) w.

(** [el.remove()] *)
Definition node_remove (el : node) (w : World) : World :=
  mutate (RemoveNode el) (set_detached ({[el]} ∪ detached w) w).

Definition addEventListener (l : listener) (w : World) : World :=
  set_listeners (listeners w ++ [l]) w.

Definition attached (l : listener) (w : World) : bool :=
  bool_decide (l ∈ listeners w).

Definition requestAnimationFrame (t : task) (w : World) : World :=
  set_raf (raf w ++ [t]) w.

Definition setTimeout (t : task) (delay : nat) (w : World) : World :=
  set_timers (timers w ++ [(now w + delay, t)]) w.

(** [observer.unobserve(el)] *)
Definition unobserve (el : node) (w : World) : World :=
  match observed w with
  | Some l => set_observed (Some (filter (λ x, x ≠ el) l)) w
  | None => w
  end.

(** [observer.observe(el)] *)
Definition observe (el : node) (w : World) : World :=
  match observed w with
  | Some l => if bool_decide (el ∈ l) then w else set_observed (Some (l ++ [el])) w
  | None => w
  end.

(** The timer to fire next, and the timers left: the earliest deadline, and
    among equal deadlines the one registered first. *)
Fixpoint pick (ts : list (nat * task)) : option ((nat * task) * list (nat * task)) :=
  match ts with
  | [] => None
  | x :: r =>
      match pick r with
      | None => Some (x, [])
      | Some (y, r') => if fst y <? fst x then Some (y, x :: r') else Some (x, r)
      end
  end.

(** Statements in source order: [w |> f |> g] is [g (f w)]. *)
Notation "w |> f" := (f w) (at level 68, left associativity, only parsing).

(** What the browser does to the page. *)
Inductive event :=
  | EvScroll (y : R)                  (* a scroll event; the new window.scrollY *)
  | EvResize (sh ih : R)              (* a resize; the new scrollHeight, innerHeight *)
  | EvMouseMove (e : MouseEvent)
  | EvFrame (rects : node -> DOMRect) (* an animation frame; the layout then *)
  | EvTimer                           (* the next timer fires *)
  | EvWait (t : nat)                  (* time passes until [t], no timer being due before *)
  | EvImgLoad (img : node)
  | EvImgError (img : node)
  | EvIntersect (entries : list Entry).

(** ** The script *)

Section Script.
Variable doc : Document.

(** *** 3. Page loader *)

Definition removeLoader (w : World) : World :=
  match pageLoader doc with
  | None => w
  | Some el =>
      if classList_contains el "hidden" w then w
      else w |> classList_add el "hidden"
             |> setTimeout TRemoveOverlay 900
  end.

(** [bgImgs.map(img => ...)]: a promise per image, settled at once for an
    image that is complete. *)
Definition image_promises : list (node * promise) :=
  map (λ img, (img, if img_complete doc img then Fulfilled else Pending))
    (bgImgs doc).

(** [img.onload = resolve; img.onerror = resolve]: both settle the promise
    of the image ([querySelectorAll] lists an element once, so the
    handlers on an image are those of its own promise). *)
Definition resolve_image (img : node) (w : World) : World :=
  set_signals
    (map (λ s, if bool_decide (fst s = img) then (fst s, Fulfilled) else s)
       (signals w)) w.

(** [Promise.all(promises)] is fulfilled. *)
Definition all_fulfilled (w : World) : bool :=
  forallb (λ s, bool_decide (snd s = Fulfilled)) (signals w).

(** The promise reactions, run when the current task ends:
    [Promise.race([Promise.all(promises), timeout]).then(removeLoader)]
    settles with the first of its two inputs and calls [removeLoader]
    then, once. *)
Definition promise_jobs (w : World) : World :=
  match raceP w with
  | Some Pending =>
      if all_fulfilled w || bool_decide (timeoutP w = Fulfilled)
      then w |> set_raceP (Some Fulfilled) |> removeLoader
      else w
  | _ => w
  end.

Definition loader_section (w : World) : World :=
  match bgImgs doc with
  | [] => removeLoader w
  | _ :: _ =>
      w |> set_signals image_promises
        |> setTimeout TRaceTimeout 1500
        |> set_raceP (Some Pending)
  end.

(** *** 4. Scroll blending *)

Definition updateVisuals (w : World) : World :=
  let w := record_call
             (CallUpdateVisuals (scrollY (state w)) (docHeight (state w))) w in
  if Rle_dec (docHeight (state w)) 0 then set_ticking false w
  else
    let progress := (scrollY (state w) / docHeight (state w))%R in
    let gamma := Math_pow (clamp progress 0 1) 1.1 in
    let w :=
      match sunrise doc, sunset doc with
      | Some a, Some b =>
          w |> style_set a "opacity" (CssFixed (toFixed (1 - gamma) 3))
            |> style_set b "opacity" (CssFixed (toFixed gamma 3))
            |> style_set a "transform" (CssTranslate3d (- (gamma * 8)))
            |> style_set b "transform" (CssTranslate3d (- (gamma * 12)))
      | _, _ => w
      end in
    let w :=
      match bgOverlay doc with
      | Some o => style_set o "opacity" (CssNumber (0.08 + gamma * 0.18)) w
      | None => w
      end in
    set_ticking false w.

Definition onScroll (w : World) : World :=
  let w := set_scrollY (window_scrollY w) w in
  if negb (ticking (state w))
  then w |> requestAnimationFrame TUpdateVisuals |> set_ticking true
  else w.

Definition scroll_section (w : World) : World :=
  match sunrise doc, sunset doc with
  | Some _, Some _ => w |> addEventListener OnScroll |> updateVisuals
  | _, _ => w
  end.

(** *** 1. Cached state *)

Definition onResize (w : World) : World :=
  set_docHeight (scrollHeight w - innerHeight w) w.

Definition state_section (w : World) : World :=
  w |> set_state (mkState (window_scrollY w)
                    (scrollHeight w - innerHeight w) false)
    |> addEventListener OnResize.

(** *** 2. Hero shimmer *)

Definition hero_section (w : World) : World :=
  match titleEl doc, titleText doc with
  | Some _, Some _ =>
      w |> requestAnimationFrame TTitleVisible |> setTimeout TShimmer 400
  | _, _ => w
  end.

(** *** 5. Intersection observer *)

Definition observer_callback (entries : list Entry) (w : World) : World :=
  fold_left
    (λ w entry,
       if isIntersecting entry
       then w |> classList_add (target entry) "visible"
              |> unobserve (target entry)
       else w)
    entries w.

Definition reveal_section (w : World) : World :=
  match revealTargets doc with
  | [] => w
  | _ :: _ =>
      fold_left (λ w t, observe t w) (revealTargets doc)
        (set_observed (Some []) w)
  end.

(** *** 6. Mouse follower *)

Definition moveOrbs (e : MouseEvent) (w : World) : World :=
  let w := record_call (CallMoveOrbs e) w in
  let w :=
    fold_left
      (λ w btn,
         let rect := boundingRect w btn in
         let x := (clientX e - rect_left rect)%R in
         let y := (clientY e - rect_top rect)%R in
         w |> style_set btn "--mx" (CssPx x)
           |> style_set btn "--my" (CssPx y))
      (orbs doc) w in
  set_mouseTicking false w.

Definition onMouseMove (e : MouseEvent) (w : World) : World :=
  if negb (mouseTicking w)
  then w |> requestAnimationFrame (TMoveOrbs e) |> set_mouseTicking true
  else w.

Definition pointer_section (w : World) : World :=
  if pointer_fine doc && negb (bool_decide (orbs doc = []))
  then w |> set_mouseTicking false |> addEventListener OnMouseMove
  else w.

(** *** The callbacks *)

Definition run_task (t : task) (w : World) : World :=
  match t with
  | TTitleVisible =>
      match titleEl doc with
      | Some el => classList_add el "visible" w
      | None => w
      end
  | TShimmer =>
      match titleText doc with
      | Some el =>
          w |> style_set el "backgroundPosition" (CssText "120% 0")
            |> setTimeout TFloaty 1600
      | None => w
      end
  | TFloaty =>
      match titleText doc with
      | Some el => classList_add el "floaty" w
      | None => w
      end
  | TRemoveOverlay =>
      match pageLoader doc with
      | Some el => node_remove el w
      | None => w
      end
  | TRaceTimeout => set_timeoutP Fulfilled w
  | TUpdateVisuals => updateVisuals w
  | TMoveOrbs e => moveOrbs e w
  end.

(** *** The handler and the page at load *)

Definition boot : World :=
  {| classes := load_classes doc; detached := ∅;
     window_scrollY := load_scrollY doc;
     scrollHeight := load_scrollHeight doc;
     innerHeight := load_innerHeight doc;
     boundingRect := λ _, mkRect 0 0;
     state := mkState 0 0 false; mouseTicking := false;
     observed := None; signals := []; timeoutP := Pending; raceP := None;
     listeners := []; now := 0; timers := []; raf := [];
     log := []; calls := [] |}.

Definition DOMContentLoaded (w : World) : World :=
  w |> state_section |> hero_section |> loader_section
    |> scroll_section |> reveal_section |> pointer_section.

Definition init : World := promise_jobs (DOMContentLoaded boot).

(** *** The event loop *)

(** An animation frame runs the callbacks requested before it, in order. *)
Definition animation_frame (rects : node -> DOMRect) (w : World) : World :=
  fold_left (λ w t, run_task t w) (raf w)
    (w |> set_boundingRect rects |> set_raf []).

Definition fire_timer (w : World) : World :=
  match pick (timers w) with
  | None => w
  | Some ((d, t), rest) =>
      w |> set_timers rest |> set_now (Nat.max (now w) d) |> run_task t
  end.

Definition wait (t : nat) (w : World) : World :=
  if (now w <=? t) && forallb (λ x, t <=? fst x) (timers w)
  then set_now t w else w.

(** The browser reports intersections of the observed targets only. *)
Definition deliver (entries : list Entry) (w : World) : World :=
  match observed w with
  | Some l =>
      observer_callback
        (filter (λ entry, bool_decide (target entry ∈ l)) entries) w
  | None => w
  end.

Definition dispatch (e : event) (w : World) : World :=
  match e with
  | EvScroll y =>
      let w := set_window_scrollY y w in
      if attached OnScroll w then onScroll w else w
  | EvResize sh ih =>
      let w := w |> set_scrollHeight sh |> set_innerHeight ih in
      if attached OnResize w then onResize w else w
  | EvMouseMove e => if attached OnMouseMove w then onMouseMove e w else w
  | EvFrame rects => animation_frame rects w
  | EvTimer => fire_timer w
  | EvWait t => wait t w
  | EvImgLoad img => resolve_image img w
  | EvImgError img => resolve_image img w
  | EvIntersect entries => deliver entries w
  end.

(** A task, then the promise reactions it made ready. *)
Definition handle (e : event) (w : World) : World :=
  promise_jobs (dispatch e w).

Definition run (evs : list event) (w : World) : World :=
  fold_left (λ w e, handle e w) evs w.
End Script.

(** ** Observations *)

(** The recomputations of the scroll engine so far: the time of each call of
    [updateVisuals] and the offset and height it read. *)
Definition recomputations (w : World) : list (nat * (R * R)) :=
  omap (λ c, match snd c with
             | CallUpdateVisuals y h => Some (fst c, (y, h))
             | CallMoveOrbs _ => None
             end) (calls w).

(** The batched updates of the pointer follower so far, with the event each
    one used. *)
Definition orb_updates (w : World) : list (nat * MouseEvent) :=
  omap (λ c, match snd c with
             | CallMoveOrbs e => Some (fst c, e)
             | CallUpdateVisuals _ _ => None
             end) (calls w).

(** The three conditions under which the handler starts a component. *)
Definition hero_present (doc : Document) : bool :=
  match titleEl doc, titleText doc with Some _, Some _ => true | _, _ => false end.

Definition layers_present (doc : Document) : bool :=
  match sunrise doc, sunset doc with Some _, Some _ => true | _, _ => false end.

Definition pointer_present (doc : Document) : bool :=
  pointer_fine doc && negb (bool_decide (orbs doc = [])).

(** The event a frame callback of the pointer follower was made with. *)
Definition move_event (t : task) : option MouseEvent :=
  match t with TMoveOrbs e => Some e | _ => None end.

(** What one pass of [moveOrbs] writes for an orb: the pointer's position
    relative to the orb's box. *)
Definition orb_writes (e : MouseEvent) (rects : node -> DOMRect) (t : nat)
    (btn : node) : list (nat * mutation) :=
  [(t, SetStyle btn "--mx" (CssPx (clientX e - rect_left (rects btn))));
   (t, SetStyle btn "--my" (CssPx (clientY e - rect_top (rects btn))))].



(** The writes of the pointer follower so far: those of [--mx] and [--my]. *)
Definition is_orb_write (m : mutation) : bool :=
  match m with
  | SetStyle _ p _ => String.eqb p "--mx" || String.eqb p "--my"
  | _ => false
  end.

Definition orb_log (w : World) : list (nat * mutation) :=
  List.filter (λ x, is_orb_write (snd x)) (log w).

(** The writes of the scroll engine so far: those of an opacity or a
    transform. *)
Definition is_blend_write (m : mutation) : bool :=
  match m with
  | SetStyle _ p _ => String.eqb p "opacity" || String.eqb p "transform"
  | _ => false
  end.

Definition blend_log (w : World) : list (nat * mutation) :=
  List.filter (λ x, is_blend_write (snd x)) (log w).


(** The styles written to an element, in order. *)
Definition style_writes (el : node) (w : World) : list (string * css_value) :=
  omap (λ x, match snd x with
             | SetStyle el' p v =>
                 if bool_decide (el' = el) then Some (p, v) else None
             | _ => None
             end) (log w).

Definition is_update (t : task) : bool :=
  match t with TUpdateVisuals => true | _ => false end.

Definition is_move (t : task) : bool :=
  match t with TMoveOrbs _ => true | _ => false end.

Definition is_intro (t : task) : bool :=
  match t with TTitleVisible | TShimmer | TFloaty => true | _ => false end.

Definition is_race (t : task) : bool :=
  match t with TRaceTimeout => true | _ => false end.

Definition is_remove (t : task) : bool :=
  match t with TRemoveOverlay => true | _ => false end.

Definition is_shimmer (t : task) : bool :=
  match t with TShimmer => true | _ => false end.

Definition is_floaty (t : task) : bool :=
  match t with TFloaty => true | _ => false end.

Definition is_title (t : task) : bool :=
  match t with TTitleVisible => true | _ => false end.

(** The writes of the loader and of the intro. *)
Definition is_hide (m : mutation) : bool :=
  match m with AddClass _ c => bool_decide (c = "hidden") | _ => false end.

Definition is_removal (m : mutation) : bool :=
  match m with RemoveNode _ => true | _ => false end.

Definition is_sweep (m : mutation) : bool :=
  match m with
  | SetStyle _ p _ => bool_decide (p = "backgroundPosition")
  | _ => false
  end.

Definition is_float (m : mutation) : bool :=
  match m with AddClass _ c => bool_decide (c = "floaty") | _ => false end.

(** The writes of the frame callbacks and of the observer: the class
    [visible] and the styles of the layers and the orbs. *)
Definition untracked (m : mutation) : bool :=
  match m with
  | AddClass _ c => bool_decide (c = "visible")
  | SetStyle _ p _ =>
      bool_decide (p ∈ ["opacity"; "transform"; "--mx"; "--my"])
  | RemoveNode _ => false
  end.

(** The callbacks a page can have: those of the components the handler
    starts on it. *)
Definition task_enabled (doc : Document) (t : task) : bool :=
  match t with
  | TTitleVisible | TShimmer | TFloaty => hero_present doc
  | TUpdateVisuals => layers_present doc
  | TMoveOrbs _ => pointer_present doc
  | TRemoveOverlay | TRaceTimeout => true
  end.

(** The writes of the script, by component: the intro adds [visible] to the
    title and writes the background position of the title text and adds
    [floaty] to it; the loader gets [hidden] and is removed; the scroll
    engine writes the opacity and the transform of the two layers and the
    opacity of the overlay; the observer adds [visible] to reveal targets;
    the pointer follower writes [--mx] and [--my] of the orbs.  Each
    component writes only on a page on which the handler starts it. *)
Definition owned (doc : Document) (m : mutation) : bool :=
  match m with
  | AddClass el c =>
      (bool_decide (c = "visible")
       && ((hero_present doc && bool_decide (titleEl doc = Some el))
           || bool_decide (el ∈ revealTargets doc)))
      || (bool_decide (c = "floaty") && hero_present doc
          && bool_decide (titleText doc = Some el))
      || (bool_decide (c = "hidden") && bool_decide (pageLoader doc = Some el))
  | SetStyle el p _ =>
      (bool_decide (p = "backgroundPosition") && hero_present doc
       && bool_decide (titleText doc = Some el))
      || (layers_present doc
          && ((bool_decide (p ∈ ["opacity"; "transform"])
               && (bool_decide (sunrise doc = Some el)
                   || bool_decide (sunset doc = Some el)))
              || (bool_decide (p = "opacity")
                  && bool_decide (bgOverlay doc = Some el))))
      || (bool_decide (p ∈ ["--mx"; "--my"]) && pointer_present doc
          && bool_decide (el ∈ orbs doc))
  | RemoveNode el => bool_decide (pageLoader doc = Some el)
  end.

(** The element a write is made to, and the writes to an element. *)
Definition written (m : mutation) : node :=
  match m with SetStyle e _ _ | AddClass e _ | RemoveNode e => e end.

Definition writes_to (el : node) (w : World) : list (nat * mutation) :=
  filter (λ x, written (snd x) = el) (log w).

(** The elements under observation. *)
Definition observing (el : node) (w : World) : Prop :=
  exists l, observed w = Some l /\ el ∈ l.

(** An image event for [img]. *)
Definition settles (img : node) (e : event) : bool :=
  match e with
  | EvImgLoad n | EvImgError n => bool_decide (n = img)
  | _ => false
  end.

Definition is_mouse (e : event) : bool :=
  match e with EvMouseMove _ => true | _ => false end.

Definition is_resize (e : event) : bool :=
  match e with EvResize _ _ => true | _ => false end.

Definition is_frame (e : event) : bool :=
  match e with EvFrame _ => true | _ => false end.

(** The tasks of a kind among the pending timers. *)
Definition pending (k : task -> bool) (w : World) : list (nat * task) :=
  filter (λ x, k (snd x) = true) (timers w).

(** The times at which a write to the page was made. *)
Definition times_of (k : mutation -> bool) (w : World) : list nat :=
  map fst (filter (λ x, k (snd x) = true) (log w)).

(** A page with every element the script looks for: a hero title, a loader,
    two background images of which one is complete, the two layers and the
    overlay, two reveal targets and two orbs. *)
Definition sample_page : Document :=
  {| titleEl := Some 1; titleText := Some 2; pageLoader := Some 3;
     bgImgs := [4; 5]; sunrise := Some 6; sunset := Some 7;
     bgOverlay := Some 8; revealTargets := [9; 10]; orbs := [11; 12];
     pointer_fine := true; img_complete := λ n, n =? 4;
     load_classes := ∅; load_scrollY := 0%R;
     load_scrollHeight := 3000%R; load_innerHeight := 1000%R |}.

(** The same page with no background image and no sunset layer. *)
Definition bare_page : Document :=
  {| titleEl := None; titleText := Some 2; pageLoader := Some 3;
     bgImgs := []; sunrise := Some 6; sunset := None;
     bgOverlay := Some 8; revealTargets := []; orbs := [11];
     pointer_fine := true; img_complete := λ _, false;
     load_classes := ∅; load_scrollY := 0%R;
     load_scrollHeight := 3000%R; load_innerHeight := 1000%R |}.

(** A page with none of the elements the script looks for. *)
Definition empty_page : Document :=
  {| titleEl := None; titleText := None; pageLoader := None;
     bgImgs := []; sunrise := None; sunset := None;
     bgOverlay := None; revealTargets := []; orbs := [];
     pointer_fine := true; img_complete := λ _, false;
     load_classes := ∅; load_scrollY := 0%R;
     load_scrollHeight := 500%R; load_innerHeight := 800%R |}.

(** The sample page on a device without a precise pointer. *)
Definition touch_page : Document :=
  {| titleEl := Some 1; titleText := Some 2; pageLoader := Some 3;
     bgImgs := [4; 5]; sunrise := Some 6; sunset := Some 7;
     bgOverlay := Some 8; revealTargets := [9; 10]; orbs := [11; 12];
     pointer_fine := false; img_complete := λ n, n =? 4;
     load_classes := ∅; load_scrollY := 0%R;
     load_scrollHeight := 3000%R; load_innerHeight := 1000%R |}.


(** ** Runs and their invariants *)

Definition is_scroll (e : event) : bool :=
  match e with EvScroll _ => true | _ => false end.

(** What a callback may change: the classes, the detached elements, [state],
    [mouseTicking], the timeout promise, the timers, and the two records. *)
Definition task_shape (w w' : World) : Prop :=
  exists C D S M P T L K,
    w' = w |> set_classes C |> set_detached D |> set_state S
           |> set_mouseTicking M |> set_timeoutP P |> set_timers T
           |> set_log L |> set_calls K.

(** The scroll engine between tasks: a frame callback is pending exactly when
    [ticking] is set, and no timer runs [updateVisuals]. *)
Definition scroll_inv (w : World) : Prop :=
  length (List.filter is_update (raf w)) = (if ticking (state w) then 1 else 0)
  /\ Forall (λ x, is_update (snd x) = false) (timers w).

(** The callbacks given to [requestAnimationFrame]. *)
Definition is_frame_task (t : task) : bool :=
  match t with
  | TTitleVisible | TUpdateVisuals | TMoveOrbs _ => true
  | _ => false
  end.

(** The queues between tasks: no timer is overdue, and the frame queue holds
    frame callbacks only. *)
Definition queues_ok (w : World) : Prop :=
  Forall (λ x, now w <= fst x) (timers w)
  /\ Forall (λ t, is_frame_task t = true) (raf w).

(** From [w] to [w'] every class list keeps its classes, and gains classes of
    [cs] only. *)
Definition classes_grow (cs : list string) (w w' : World) : Prop :=
  forall el c,
    (c ∈ classList_of el w -> c ∈ classList_of el w')
    /\ (c ∈ classList_of el w' -> c ∈ classList_of el w \/ c ∈ cs).

(** A step that leaves the timers, the clock, the promises and the detached
    elements alone and writes nothing but untracked writes. *)
Definition quiet (w w' : World) : Prop :=
  timers w' = timers w /\ now w' = now w /\ timeoutP w' = timeoutP w
  /\ raceP w' = raceP w /\ signals w' = signals w
  /\ detached w' = detached w
  /\ exists new, log w' = log w ++ new
       /\ Forall (λ x, untracked (snd x) = true) new.

(** Two worlds that agree on what the loader and the intro depend on. *)
Definition same_tracked (w w' : World) : Prop :=
  timers w' = timers w /\ now w' = now w /\ timeoutP w' = timeoutP w
  /\ raceP w' = raceP w /\ signals w' = signals w
  /\ detached w' = detached w
  /\ times_of is_hide w' = times_of is_hide w
  /\ times_of is_removal w' = times_of is_removal w
  /\ times_of is_sweep w' = times_of is_sweep w
  /\ times_of is_float w' = times_of is_float w.

(** The loader is on the page and not hidden when the handler runs. *)
Definition loader_shown (doc : Document) : bool :=
  match pageLoader doc with
  | Some el => negb (bool_decide ("hidden" ∈ default [] (load_classes doc !! el)))
  | None => false
  end.

(** Every background image is complete when the handler runs. *)
Definition images_ready (doc : Document) : bool :=
  forallb (img_complete doc) (bgImgs doc).

(** The race has a winner: every image promise is fulfilled, or the timeout
    promise is. *)
Definition race_won (w : World) : bool :=
  all_fulfilled w || bool_decide (timeoutP w = Fulfilled).

(** The loader gate of a page with background images, between tasks: the
    race is settled exactly when it has a winner, and the 1500ms timer is
    pending until it fires, at 1500. *)
Definition gate_inv (w : World) : Prop :=
  raceP w = Some (if race_won w then Fulfilled else Pending)
  /\ ((timeoutP w = Pending /\ pending is_race w = [(1500, TRaceTimeout)])
      \/ (timeoutP w = Fulfilled /\ pending is_race w = [] /\ 1500 <= now w)).

(** The intro along a run: the sweep is pending for 400 and nothing is
    written; or the sweep was written at 400 and the float is pending for
    2000; or the sweep was written at 400 and the float at 2000. *)
Definition intro_inv (w : World) : Prop :=
  (pending is_shimmer w = [(400, TShimmer)] /\ pending is_floaty w = []
   /\ times_of is_sweep w = [] /\ times_of is_float w = [])
  \/ (pending is_shimmer w = [] /\ pending is_floaty w = [(2000, TFloaty)]
      /\ times_of is_sweep w = [400] /\ times_of is_float w = [])
  \/ (pending is_shimmer w = [] /\ pending is_floaty w = []
      /\ times_of is_sweep w = [400] /\ times_of is_float w = [2000]).

(** A page without the intro. *)
Definition no_intro (w : World) : Prop :=
  pending is_shimmer w = [] /\ pending is_floaty w = []
  /\ times_of is_sweep w = [] /\ times_of is_float w = [].

(** A page without background images has no race and no 1500ms timer. *)
Definition no_gate (w : World) : Prop :=
  raceP w = None /\ timeoutP w = Pending /\ pending is_race w = [].

(** The pointer follower between tasks: a frame callback is pending exactly
    when [mouseTicking] is set, and no timer runs [moveOrbs]. *)
Definition pointer_inv (w : World) : Prop :=
  length (List.filter is_move (raf w)) = (if mouseTicking w then 1 else 0)
  /\ Forall (λ x, is_move (snd x) = false) (timers w).

(** A step that adds writes of the page's components only. *)
Definition writes_owned (doc : Document) (w w' : World) : Prop :=
  exists new, log w' = log w ++ new
    /\ Forall (λ x, owned doc (snd x) = true) new.

(** What the script has set up, between tasks: every write so far is a
    component's own, every callback in the frame queue and every timer is of
    a component the page has, the observer observes reveal targets only, and
    the scroll and mousemove listeners are attached only on a page with the
    layers, or with a precise pointer and an orb. *)
Definition components_inv (doc : Document) (w : World) : Prop :=
  Forall (λ x, owned doc (snd x) = true) (log w)
  /\ Forall (λ t, task_enabled doc t = true) (raf w)
  /\ Forall (λ x, task_enabled doc (snd x) = true) (timers w)
  /\ (forall l el, observed w = Some l -> el ∈ l -> el ∈ revealTargets doc)
  /\ (attached OnScroll w = true -> layers_present doc = true)
  /\ (attached OnMouseMove w = true -> pointer_present doc = true).

(** A page without the scroll engine. *)
Definition no_engine (w : World) : Prop :=
  scroll_inv w /\ attached OnScroll w = false
  /\ ticking (state w) = false /\ recomputations w = [].

Section Results.
Variable doc : Document.

(** The writes of a timer callback. *)
Definition task_writes (t : task) : list mutation :=
  match t with
  | TShimmer =>
      match titleText doc with
      | Some el => [SetStyle el "backgroundPosition" (CssText "120% 0")]
      | None => []
      end
  | TFloaty =>
      match titleText doc with
      | Some el => [AddClass el "floaty"]
      | None => []
      end
  | TRemoveOverlay =>
      match pageLoader doc with
      | Some el => [RemoveNode el]
      | None => []
      end
  | _ => []
  end.

(** The loader along a run: not dismissed yet; or hidden at some time [t]
    with the removal pending for [t + 900]; or hidden at [t] and removed at
    [t + 900]. *)
Definition removal_inv (w : World) : Prop :=
  (times_of is_hide w = [] /\ pending is_remove w = []
   /\ times_of is_removal w = [] /\ detached w = ∅)
  \/ exists t el,
       pageLoader doc = Some el /\ times_of is_hide w = [t]
       /\ "hidden" ∈ classList_of el w
       /\ ((pending is_remove w = [(t + 900, TRemoveOverlay)]
            /\ times_of is_removal w = [] /\ detached w = ∅)
           \/ (pending is_remove w = []
               /\ times_of is_removal w = [t + 900]
               /\ detached w = {[el]})).

(** The timers a callback starts. *)
Definition spawned (t : task) (w : World) : list (nat * task) :=
  match t, titleText doc with
  | TShimmer, Some _ => [(now w + 1600, TFloaty)]
  | _, _ => []
  end.

(** What the promise reactions did. *)
Inductive jobs_result (w : World) : World -> Prop :=
  | jobs_idle :
      (raceP w <> Some Pending \/
       (all_fulfilled w = false /\ timeoutP w <> Fulfilled)) ->
      jobs_result w w
  | jobs_settled :
      raceP w = Some Pending ->
      (all_fulfilled w = true \/ timeoutP w = Fulfilled) ->
      (pageLoader doc = None \/
       exists el, pageLoader doc = Some el /\ "hidden" ∈ classList_of el w) ->
      jobs_result w (set_raceP (Some Fulfilled) w)
  | jobs_dismissed el :
      raceP w = Some Pending ->
      (all_fulfilled w = true \/ timeoutP w = Fulfilled) ->
      pageLoader doc = Some el -> "hidden" ∉ classList_of el w ->
      jobs_result w
        (w |> set_raceP (Some Fulfilled) |> classList_add el "hidden"
           |> setTimeout TRemoveOverlay 900).

End Results.

Ltac wsimpl :=
  cbn [classes detached window_scrollY scrollHeight innerHeight boundingRect
       state mouseTicking observed signals timeoutP raceP listeners now timers
       raf log calls scrollY docHeight ticking
       set_classes set_detached set_window_scrollY set_scrollHeight
       set_innerHeight set_boundingRect set_state set_mouseTicking
       set_observed set_signals set_timeoutP set_raceP set_listeners set_now
       set_timers set_raf set_log set_calls set_scrollY set_docHeight
       set_ticking mutate record_call classList_add style_set node_remove
       addEventListener requestAnimationFrame setTimeout fst snd] in *.


(** [Forall P [x1; ...; xn]] for a list written out. *)
Ltac forall_list :=
  repeat (apply List.Forall_cons; [solve [auto 6 | cbn; lia] |]);
  apply List.Forall_nil.

(** Membership and inclusion in a list of class names written out. *)
Ltac in_classes :=
  first
    [ apply list_elem_of_In; cbn; solve [auto 6]
    | let x := fresh in
      let Hx := fresh in
      intros x Hx; apply list_elem_of_In in Hx; apply list_elem_of_In;
      cbn in *; intuition ].
(** * Properties *)

(** ** Numbers *)

Section NumberFacts.
Local Open Scope R_scope.

Lemma clamp_range v : 0 <= clamp v 0 1 <= 1.
Proof.
  unfold clamp, Rmin, Rmax.
  destruct (Rle_dec 0 v); destruct (Rle_dec 1 _); lra.
Qed.

Lemma clamp_mono v1 v2 : v1 <= v2 -> clamp v1 0 1 <= clamp v2 0 1.
Proof.
  intros H. unfold clamp, Rmin, Rmax.
  destruct (Rle_dec 0 v1); destruct (Rle_dec 0 v2);
    repeat match goal with |- context [Rle_dec ?a ?b] => destruct (Rle_dec a b) end;
    lra.
Qed.



Lemma Math_pow_zero e : Math_pow 0 e = 0.
Proof. unfold Math_pow. destruct (Req_dec_T 0 0); [reflexivity | lra]. Qed.

Lemma Math_pow_one e : Math_pow 1 e = 1.
Proof.
  unfold Math_pow. destruct (Req_dec_T 1 0); [lra |].
  unfold Rpower. rewrite ln_1, Rmult_0_r. apply exp_0.
Qed.

Lemma Math_pow_mono c1 c2 e :
  0 <= e -> 0 <= c1 <= c2 -> Math_pow c1 e <= Math_pow c2 e.
Proof.
  intros He [H0 H]. unfold Math_pow.
  destruct (Req_dec_T c1 0) as [-> | N1]; destruct (Req_dec_T c2 0) as [E2 | N2].
  - lra.
  - left. apply exp_pos.
  - lra.
  - apply Rle_Rpower_l; lra.
Qed.

Lemma Math_pow_range c e : 0 <= e -> 0 <= c <= 1 -> 0 <= Math_pow c e <= 1.
Proof.
  intros He [H0 H1]. split.
  - rewrite <- (Math_pow_zero e). apply Math_pow_mono; lra.
  - rewrite <- (Math_pow_one e). apply Math_pow_mono; lra.
Qed.

Lemma nearest_bounds x : IZR (nearest x) - / 2 <= x < IZR (nearest x) + / 2.
Proof.
  unfold nearest. destruct (base_Int_part (x + / 2)) as [H1 H2]. lra.
Qed.

Lemma nearest_mono x y : x <= y -> (nearest x <= nearest y)%Z.
Proof.
  intros H. pose proof (nearest_bounds x) as Hx.
  pose proof (nearest_bounds y) as Hy.
  assert (IZR (nearest x) < IZR (nearest y) + 1) as Hlt by lra.
  rewrite <- plus_IZR in Hlt. apply lt_IZR in Hlt. lia.
Qed.





(** On non-negative numbers [toFixed(3)] is monotone. *)
Lemma toFixed3_mono x y :
  0 <= x <= y -> Fixed_value (toFixed x 3) <= Fixed_value (toFixed y 3).
Proof.
  intros [H0 H]. unfold toFixed.
  destruct (Rlt_dec x 0); [lra |]. destruct (Rlt_dec y 0); [lra |].
  unfold Fixed_value; cbn [fx_neg fx_n fx_frac].
  assert (nearest (x * 10 ^ 3) <= nearest (y * 10 ^ 3))%Z as Hn
    by (apply nearest_mono; simpl; lra).
  apply IZR_le in Hn. simpl in *. lra.
Qed.

(** The blend progress of the engine: [gamma] as [updateVisuals] computes it
    from an offset [y] and a height [h]. *)
Lemma gamma_range y h :
  0 <= Math_pow (clamp (y / h) 0 1) 1.1 <= 1.
Proof. apply Math_pow_range; [lra | apply clamp_range]. Qed.

Lemma gamma_mono y1 y2 h :
  0 < h -> y1 <= y2 ->
  Math_pow (clamp (y1 / h) 0 1) 1.1 <= Math_pow (clamp (y2 / h) 0 1) 1.1.
Proof.
  intros Hh Hy. apply Math_pow_mono; [lra |]. split.
  - apply clamp_range.
  - apply clamp_mono. unfold Rdiv. apply Rmult_le_compat_r; [| exact Hy].
    left. apply Rinv_0_lt_compat. exact Hh.
Qed.



End NumberFacts.

(** ** The scroll engine: one recomputation *)

Section Recomputation.
Local Open Scope R_scope.
Variable doc : Document.

(** The writes of one recomputation when the height is positive and both
    layers are there, in source order. *)
Lemma updateVisuals_log (w : World) (a b : node) :
  sunrise doc = Some a -> sunset doc = Some b ->
  0 < docHeight (state w) ->
  let gamma := Math_pow (clamp (scrollY (state w) / docHeight (state w)) 0 1) 1.1 in
  log (updateVisuals doc w) =
    (log w ++
     [(now w, SetStyle a "opacity" (CssFixed (toFixed (1 - gamma) 3)));
      (now w, SetStyle b "opacity" (CssFixed (toFixed gamma 3)));
      (now w, SetStyle a "transform" (CssTranslate3d (- (gamma * 8))));
      (now w, SetStyle b "transform" (CssTranslate3d (- (gamma * 12))))] ++
     match bgOverlay doc with
     | Some o => [(now w, SetStyle o "opacity" (CssNumber (0.08 + gamma * 0.18)))]
     | None => []
     end)%list.
Proof.
  intros Ha Hb Hh gamma. unfold updateVisuals. rewrite Ha, Hb.
  cbn [state record_call set_calls].
  destruct (Rle_dec (docHeight (state w)) 0) as [Hle | _]; [lra |].
  destruct (bgOverlay doc); cbn; rewrite <- ?app_assoc; reflexivity.
Qed.


(** C3.  With a scrollable height of zero or less, a recomputation writes
    nothing to the page and clears [ticking]; nothing else of the state
    changes (the call itself is counted). *)
Theorem updateVisuals_degenerate (w : World) :
  docHeight (state w) <= 0 ->
  let w' := updateVisuals doc w in
  log w' = log w
  /\ ticking (state w') = false
  /\ scrollY (state w') = scrollY (state w)
  /\ docHeight (state w') = docHeight (state w)
  /\ classes w' = classes w /\ detached w' = detached w
  /\ timers w' = timers w /\ raf w' = raf w /\ now w' = now w
  /\ listeners w' = listeners w /\ mouseTicking w' = mouseTicking w
  /\ observed w' = observed w /\ signals w' = signals w
  /\ timeoutP w' = timeoutP w /\ raceP w' = raceP w
  /\ window_scrollY w' = window_scrollY w
  /\ scrollHeight w' = scrollHeight w /\ innerHeight w' = innerHeight w
  /\ boundingRect w' = boundingRect w.
Proof.
  intros Hh w'. subst w'. unfold updateVisuals.
  cbn [state record_call set_calls].
  destruct (Rle_dec (docHeight (state w)) 0) as [_ | Hn]; [| lra].
  repeat split.
Qed.

(** C10.  For a fixed positive height the values one recomputation writes are
    monotone in the offset: from an offset [y1] to a larger one [y2] the
    sunrise opacity does not grow, the sunset opacity and the overlay opacity
    do not shrink, and the two translations, which are never positive, do not
    grow: they move further from zero. *)
Theorem updateVisuals_monotone (w : World) (a b : node) (y1 y2 : R) :
  sunrise doc = Some a -> sunset doc = Some b ->
  0 < docHeight (state w) -> y1 <= y2 ->
  exists A1 B1 ta1 tb1 ov1 A2 B2 ta2 tb2 ov2,
    log (updateVisuals doc (set_scrollY y1 w)) =
      (log w ++
       [(now w, SetStyle a "opacity" (CssFixed A1));
        (now w, SetStyle b "opacity" (CssFixed B1));
        (now w, SetStyle a "transform" (CssTranslate3d ta1));
        (now w, SetStyle b "transform" (CssTranslate3d tb1))] ++
       match bgOverlay doc with
       | Some o => [(now w, SetStyle o "opacity" (CssNumber ov1))]
       | None => []
       end)%list
    /\ log (updateVisuals doc (set_scrollY y2 w)) =
      (log w ++
       [(now w, SetStyle a "opacity" (CssFixed A2));
        (now w, SetStyle b "opacity" (CssFixed B2));
        (now w, SetStyle a "transform" (CssTranslate3d ta2));
        (now w, SetStyle b "transform" (CssTranslate3d tb2))] ++
       match bgOverlay doc with
       | Some o => [(now w, SetStyle o "opacity" (CssNumber ov2))]
       | None => []
       end)%list
    /\ Fixed_value A2 <= Fixed_value A1
    /\ Fixed_value B1 <= Fixed_value B2
    /\ ov1 <= ov2
    /\ ta2 <= ta1 <= 0
    /\ tb2 <= tb1 <= 0.
Proof.
  intros Ha Hb Hh Hy.
  set (h := docHeight (state w)) in *.
  set (g1 := Math_pow (clamp (y1 / h) 0 1) 1.1).
  set (g2 := Math_pow (clamp (y2 / h) 0 1) 1.1).
  assert (g1 <= g2) as Hg by (apply gamma_mono; assumption).
  pose proof (gamma_range y1 h) as R1. pose proof (gamma_range y2 h) as R2.
  fold g1 in R1. fold g2 in R2.
  exists (toFixed (1 - g1) 3), (toFixed g1 3), (- (g1 * 8)), (- (g1 * 12)),
    (0.08 + g1 * 0.18),
    (toFixed (1 - g2) 3), (toFixed g2 3), (- (g2 * 8)), (- (g2 * 12)),
    (0.08 + g2 * 0.18).
  split; [exact (updateVisuals_log (set_scrollY y1 w) a b Ha Hb Hh) |].
  split; [exact (updateVisuals_log (set_scrollY y2 w) a b Ha Hb Hh) |].
  split; [apply toFixed3_mono; lra |].
  split; [apply toFixed3_mono; lra |].
  repeat split; lra.
Qed.

End Recomputation.


Lemma updateVisuals_degenerate_witness :
  let w := set_state (mkState 40 (-300) true) (boot sample_page) in
  log (updateVisuals sample_page w) = [] /\
  ticking (state (updateVisuals sample_page w)) = false.
Proof.
  intros w.
  assert (docHeight (state w) <= 0)%R as Hh by (cbn; lra).
  destruct (updateVisuals_degenerate sample_page w Hh) as (Hlog & Ht & _).
  split; [exact Hlog | exact Ht].
Defined.

Lemma updateVisuals_monotone_witness :
  let w := set_state (mkState 0 2000 true) (boot sample_page) in
  exists A1 A2 r1 r2,
    log (updateVisuals sample_page (set_scrollY 100 w)) =
      (0%nat, SetStyle 6%nat "opacity" (CssFixed A1)) :: r1
    /\ log (updateVisuals sample_page (set_scrollY 900 w)) =
      (0%nat, SetStyle 6%nat "opacity" (CssFixed A2)) :: r2
    /\ (Fixed_value A2 <= Fixed_value A1)%R.
Proof.
  intros w.
  assert (0 < docHeight (state w))%R as Hh by (cbn; lra).
  assert (100 <= 900)%R as Hy by lra.
  destruct (updateVisuals_monotone sample_page w 6%nat 7%nat 100%R 900%R
              eq_refl eq_refl Hh Hy)
    as (A1 & B1 & ta1 & tb1 & ov1 & A2 & B2 & ta2 & tb2 & ov2 &
        H1 & H2 & HA & _).
  exists A1, A2. eexists _, _. split; [exact H1 |]. split; [exact H2 | exact HA].
Defined.

(** ** The event loop *)

Lemma fold_left_inv {A} (P : World -> Prop) (g : World -> A -> World) l w :
  P w -> (forall w a, P w -> P (g w a)) -> P (fold_left g l w).
Proof.
  intros H0 Hs. revert w H0.
  induction l as [| a l IH]; intros w H0; cbn; auto.
Qed.

(** The timer picked is one of the timers and no other is due before it. *)
Lemma pick_spec ts x rest :
  pick ts = Some (x, rest) ->
  Permutation ts (x :: rest) /\ Forall (fun y => fst x <= fst y) ts.
Proof.
  revert x rest.
  induction ts as [| a ts IH]; intros x rest H; cbn [pick] in H; [discriminate |].
  destruct (pick ts) as [[y r'] |] eqn:E.
  - destruct (IH y r' eq_refl) as [Hp Hf].
    destruct (fst y <? fst a) eqn:Hlt; inversion H; subst; clear H.
    + apply Nat.ltb_lt in Hlt. split.
      * rewrite Hp. apply perm_swap.
      * constructor; [lia | exact Hf].
    + apply Nat.ltb_ge in Hlt. split; [reflexivity |].
      constructor; [lia |]. eapply Forall_impl; [exact Hf |]. cbn; intros; lia.
  - inversion H; subst; clear H.
    destruct ts;
      [| cbn [pick] in E; destruct (pick ts) as [[? ?]|];
         [destruct (_ <? _)|]; discriminate].
    split; [reflexivity | constructor; [lia | constructor]].
Qed.

Lemma pick_none ts : pick ts = None -> ts = [].
Proof.
  destruct ts as [| a ts]; [reflexivity |]. cbn [pick].
  destruct (pick ts) as [[? ?]|]; [destruct (_ <? _)|]; discriminate.
Qed.

Lemma run_snoc doc evs e w :
  run doc (evs ++ [e]) w = handle doc e (run doc evs w).
Proof. unfold run. rewrite fold_left_app. reflexivity. Qed.

Lemma run_app doc evs1 evs2 w :
  run doc (evs1 ++ evs2) w = run doc evs2 (run doc evs1 w).
Proof. unfold run. apply fold_left_app. Qed.

(** A property of the page at load that every event keeps holds along every
    run. *)
Lemma run_invariant doc (P : World -> Prop) w :
  P w -> (forall e w, P w -> P (handle doc e w)) ->
  forall evs, P (run doc evs w).
Proof.
  intros H0 Hs evs. unfold run. apply fold_left_inv; [exact H0 |].
  intros w' e. apply Hs.
Qed.

Section Loop.
Variable doc : Document.

Lemma observer_callback_shape es w :
  exists C O L,
    observer_callback es w = w |> set_classes C |> set_observed O |> set_log L.
Proof.
  unfold observer_callback.
  apply (fold_left_inv (fun w' => exists C O L,
           w' = w |> set_classes C |> set_observed O |> set_log L)).
  - exists (classes w), (observed w), (log w). destruct w; reflexivity.
  - intros w' e (C & O & L & ->).
    match goal with |- exists C O L, ?X = _ =>
      exists (classes X), (observed X), (log X) end.
    destruct (isIntersecting e); [| reflexivity].
    unfold unobserve. destruct O; reflexivity.
Qed.

Lemma moveOrbs_shape e w :
  exists L, moveOrbs doc e w =
    w |> record_call (CallMoveOrbs e) |> set_log L |> set_mouseTicking false.
Proof.
  unfold moveOrbs. cbv zeta.
  match goal with |- context [fold_left ?g ?l ?w0] =>
    assert (exists L, fold_left g l w0 = set_log L w0) as (L & ->) end.
  - match goal with |- context [fold_left ?g ?l ?w0] =>
      apply (fold_left_inv (fun w' => exists L, w' = set_log L w0)) end.
    + exists (log w). destruct w; reflexivity.
    + intros w' btn (L & ->).
      match goal with |- exists L, ?X = _ => exists (log X) end. reflexivity.
  - exists L. reflexivity.
Qed.

Lemma promise_jobs_result w : jobs_result doc w (promise_jobs doc w).
Proof.
  unfold promise_jobs.
  destruct (raceP w) as [[|]|] eqn:Hr; try (constructor; left; congruence).
  destruct (all_fulfilled w) eqn:Ha; cbn [orb].
  - unfold removeLoader. destruct (pageLoader doc) as [el|] eqn:Hp.
    + unfold classList_contains. case_bool_decide as Hc.
      * apply jobs_settled; eauto.
      * apply jobs_dismissed; auto.
    + apply jobs_settled; auto.
  - case_bool_decide as Ht.
    + unfold removeLoader. destruct (pageLoader doc) as [el|] eqn:Hp.
      * unfold classList_contains. case_bool_decide as Hc.
        -- apply jobs_settled; eauto.
        -- apply jobs_dismissed; auto.
      * apply jobs_settled; auto.
    + constructor. right. auto.
Qed.

Lemma task_shape_refl w : task_shape w w.
Proof.
  exists (classes w), (detached w), (state w), (mouseTicking w), (timeoutP w),
    (timers w), (log w), (calls w). destruct w; reflexivity.
Qed.

Lemma task_shape_here w w' :
  w' = w |> set_classes (classes w') |> set_detached (detached w')
         |> set_state (state w') |> set_mouseTicking (mouseTicking w')
         |> set_timeoutP (timeoutP w') |> set_timers (timers w')
         |> set_log (log w') |> set_calls (calls w') ->
  task_shape w w'.
Proof. intros H. unfold task_shape. eauto 10. Qed.

Lemma task_shape_trans w1 w2 w3 :
  task_shape w1 w2 -> task_shape w2 w3 -> task_shape w1 w3.
Proof.
  intros (C & D & S & M & P & T & L & K & ->)
         (C' & D' & S' & M' & P' & T' & L' & K' & ->).
  exists C', D', S', M', P', T', L', K'. reflexivity.
Qed.

Lemma task_shape_step w w1 w2 :
  task_shape w w1 -> task_shape w1 w2 -> task_shape w w2.
Proof. apply task_shape_trans. Qed.

Lemma style_set_shape el p v w : task_shape w (style_set el p v w).
Proof. apply task_shape_here. destruct w; reflexivity. Qed.

Lemma classList_add_shape el c w : task_shape w (classList_add el c w).
Proof. apply task_shape_here. destruct w; reflexivity. Qed.

Lemma node_remove_shape el w : task_shape w (node_remove el w).
Proof. apply task_shape_here. destruct w; reflexivity. Qed.

Lemma record_call_shape c w : task_shape w (record_call c w).
Proof. apply task_shape_here. destruct w; reflexivity. Qed.

Lemma set_ticking_shape b w : task_shape w (set_ticking b w).
Proof. apply task_shape_here. destruct w; reflexivity. Qed.

Lemma setTimeout_shape t d w : task_shape w (setTimeout t d w).
Proof. apply task_shape_here. destruct w; reflexivity. Qed.

Lemma set_timeoutP_shape p w : task_shape w (set_timeoutP p w).
Proof. apply task_shape_here. destruct w; reflexivity. Qed.

Lemma set_mouseTicking_shape b w : task_shape w (set_mouseTicking b w).
Proof. apply task_shape_here. destruct w; reflexivity. Qed.

Lemma set_log_shape l w : task_shape w (set_log l w).
Proof. apply task_shape_here. destruct w; reflexivity. Qed.

(** [task_shape w (f1 (f2 (... w)))], one operation at a time. *)
Ltac shape :=
  lazymatch goal with
  | |- task_shape ?w ?w => apply task_shape_refl
  | |- task_shape _ (style_set _ _ _ _) =>
      eapply task_shape_step; [| apply style_set_shape]; shape
  | |- task_shape _ (classList_add _ _ _) =>
      eapply task_shape_step; [| apply classList_add_shape]; shape
  | |- task_shape _ (node_remove _ _) =>
      eapply task_shape_step; [| apply node_remove_shape]; shape
  | |- task_shape _ (record_call _ _) =>
      eapply task_shape_step; [| apply record_call_shape]; shape
  | |- task_shape _ (set_ticking _ _) =>
      eapply task_shape_step; [| apply set_ticking_shape]; shape
  | |- task_shape _ (setTimeout _ _ _) =>
      eapply task_shape_step; [| apply setTimeout_shape]; shape
  | |- task_shape _ (set_timeoutP _ _) =>
      eapply task_shape_step; [| apply set_timeoutP_shape]; shape
  | |- task_shape _ (set_mouseTicking _ _) =>
      eapply task_shape_step; [| apply set_mouseTicking_shape]; shape
  | |- task_shape _ (set_log _ _) =>
      eapply task_shape_step; [| apply set_log_shape]; shape
  end.

Lemma updateVisuals_shape w : task_shape w (updateVisuals doc w).
Proof.
  unfold updateVisuals. cbv zeta.
  destruct (Rle_dec _ _); [shape |].
  destruct (sunrise doc), (sunset doc), (bgOverlay doc); shape.
Qed.

Lemma run_task_shape t w : task_shape w (run_task doc t w).
Proof.
  destruct t as [| | | | | | e]; cbn [run_task].
  - destruct (titleEl doc); shape.
  - destruct (titleText doc); shape.
  - destruct (titleText doc); shape.
  - destruct (pageLoader doc); shape.
  - shape.
  - apply updateVisuals_shape.
  - destruct (moveOrbs_shape e w) as (L & ->). shape.
Qed.

Lemma run_tasks_shape l w :
  task_shape w (fold_left (λ w t, run_task doc t w) l w).
Proof.
  apply (fold_left_inv (task_shape w)); [apply task_shape_refl |].
  intros w' t H. eapply task_shape_trans; [exact H | apply run_task_shape].
Qed.

End Loop.

(** ** The scroll engine along a run *)

Section ScrollEngine.
Variable doc : Document.

Lemma recomputations_calls w w' :
  calls w' = calls w -> recomputations w' = recomputations w.
Proof. unfold recomputations. intros ->. reflexivity. Qed.

Lemma jobs_scroll_fields w :
  let w' := promise_jobs doc w in
  state w' = state w /\ raf w' = raf w /\ calls w' = calls w
  /\ now w' = now w /\ listeners w' = listeners w
  /\ (timers w' = timers w \/
      timers w' = timers w ++ [(now w + 900, TRemoveOverlay)]).
Proof.
  intros w'. subst w'. destruct (promise_jobs_result doc w); wsimpl; auto 10.
Qed.

Lemma updateVisuals_fields w :
  let w' := updateVisuals doc w in
  state w' = mkState (scrollY (state w)) (docHeight (state w)) false
  /\ timers w' = timers w
  /\ recomputations w' =
       recomputations w ++ [(now w, (scrollY (state w), docHeight (state w)))].
Proof.
  intros w'. subst w'. unfold updateVisuals, recomputations. cbv zeta.
  repeat case_match; wsimpl; rewrite omap_app; auto.
Qed.

Lemma run_task_timers t w :
  timers (run_task doc t w) = timers w ++ spawned doc t w.
Proof.
  destruct t as [| | | | | | e]; unfold spawned; cbn [run_task].
  - destruct (titleEl doc), (titleText doc); wsimpl; rewrite ?app_nil_r; reflexivity.
  - destruct (titleText doc); wsimpl; rewrite ?app_nil_r; reflexivity.
  - destruct (titleText doc); wsimpl; rewrite ?app_nil_r; reflexivity.
  - destruct (pageLoader doc), (titleText doc); wsimpl; rewrite ?app_nil_r; reflexivity.
  - destruct (titleText doc); wsimpl; rewrite ?app_nil_r; reflexivity.
  - destruct (updateVisuals_fields w) as (_ & -> & _).
    destruct (titleText doc); rewrite app_nil_r; reflexivity.
  - destruct (moveOrbs_shape doc e w) as (L & ->).
    destruct (titleText doc); wsimpl; rewrite app_nil_r; reflexivity.
Qed.

Lemma spawned_not_update t w :
  Forall (λ x, is_update (snd x) = false) (spawned doc t w).
Proof.
  unfold spawned. destruct t, (titleText doc); repeat constructor.
Qed.

Lemma run_task_idle t w :
  is_update t = false ->
  state (run_task doc t w) = state w
  /\ recomputations (run_task doc t w) = recomputations w.
Proof.
  intros Ht. destruct t as [| | | | | | e]; try discriminate; cbn [run_task].
  - destruct (titleEl doc); wsimpl; auto.
  - destruct (titleText doc); wsimpl; auto.
  - destruct (titleText doc); wsimpl; auto.
  - destruct (pageLoader doc); wsimpl; auto.
  - wsimpl; auto.
  - destruct (moveOrbs_shape doc e w) as (L & ->). wsimpl. split; [reflexivity |].
    unfold recomputations. wsimpl. rewrite omap_app. cbn. apply app_nil_r.
Qed.

Lemma run_task_now t w : now (run_task doc t w) = now w.
Proof.
  destruct (run_task_shape doc t w) as (C & D & S & M & P & T & L & K & ->).
  reflexivity.
Qed.

Lemma run_task_raf t w : raf (run_task doc t w) = raf w.
Proof.
  destruct (run_task_shape doc t w) as (C & D & S & M & P & T & L & K & ->).
  reflexivity.
Qed.

Lemma run_task_listeners t w : listeners (run_task doc t w) = listeners w.
Proof.
  destruct (run_task_shape doc t w) as (C & D & S & M & P & T & L & K & ->).
  reflexivity.
Qed.

(** A frame runs [updateVisuals] once for each of its callbacks in the
    queue, each time with the offset and the height cached before the
    frame. *)
Lemma run_tasks_scroll l w :
  Forall (λ x, is_update (snd x) = false) (timers w) ->
  let w' := fold_left (λ w t, run_task doc t w) l w in
  Forall (λ x, is_update (snd x) = false) (timers w')
  /\ scrollY (state w') = scrollY (state w)
  /\ docHeight (state w') = docHeight (state w)
  /\ ticking (state w') =
       (if existsb is_update l then false else ticking (state w))
  /\ recomputations w' =
       recomputations w ++
       repeat (now w, (scrollY (state w), docHeight (state w)))
         (length (List.filter is_update l)).
Proof.
  revert w. induction l as [| t l IH]; intros w Hw; cbn [fold_left].
  - cbn. rewrite app_nil_r. auto.
  - assert (Forall (λ x, is_update (snd x) = false)
              (timers (run_task doc t w))) as Hw'.
    { rewrite run_task_timers. apply Forall_app. split;
        [exact Hw | apply spawned_not_update]. }
    destruct (IH _ Hw') as (I1 & I2 & I3 & I4 & I5). clear IH.
    rewrite run_task_now in I5.
    split; [exact I1 |]. cbn [existsb List.filter].
    destruct (is_update t) eqn:Ht.
    + destruct t; try discriminate. cbn [run_task] in *.
      destruct (updateVisuals_fields w) as (Es & _ & Er).
      rewrite Es in I2, I3, I4, I5. rewrite Er in I5. cbn in I2, I3, I4, I5.
      cbn [orb length repeat]. rewrite I2, I3, I5, <- app_assoc.
      repeat split; try reflexivity. destruct (existsb is_update l); auto.
    + destruct (run_task_idle t w Ht) as (Es & Er).
      rewrite Es in I2, I3, I4, I5. rewrite Er in I5. cbn [orb]. auto.
Qed.

Lemma fire_timer_cases w :
  fire_timer doc w = w \/
  exists d t rest,
    Permutation (timers w) ((d, t) :: rest)
    /\ Forall (λ x, d <= fst x) (timers w)
    /\ fire_timer doc w =
         run_task doc t (w |> set_timers rest |> set_now (Nat.max (now w) d)).
Proof.
  unfold fire_timer. destruct (pick (timers w)) as [[[d t] rest]|] eqn:E; [| auto].
  right. destruct (pick_spec _ _ _ E) as [Hp Hf]. eauto 10.
Qed.

Lemma dispatch_listeners e w : listeners (dispatch doc e w) = listeners w.
Proof.
  destruct e; unfold dispatch.
  - unfold onScroll. cbv zeta. repeat case_match; reflexivity.
  - repeat case_match; reflexivity.
  - unfold onMouseMove. repeat case_match; reflexivity.
  - unfold animation_frame.
    match goal with |- context [fold_left ?g ?l ?w0] =>
      destruct (run_tasks_shape doc l w0)
        as (C & D & S & M & P & T & L & K & ->) end.
    reflexivity.
  - destruct (fire_timer_cases w) as [-> | (d & t & rest & _ & _ & ->)];
      [reflexivity | rewrite run_task_listeners; reflexivity].
  - unfold wait. case_match; reflexivity.
  - reflexivity.
  - reflexivity.
  - unfold deliver. destruct (observed w); [| reflexivity].
    match goal with |- context [observer_callback ?es ?w0] =>
      destruct (observer_callback_shape es w0) as (C & O & L & ->) end.
    reflexivity.
Qed.

Lemma handle_listeners e w : listeners (handle doc e w) = listeners w.
Proof.
  unfold handle. destruct (jobs_scroll_fields (dispatch doc e w))
    as (_ & _ & _ & _ & -> & _). apply dispatch_listeners.
Qed.

Lemma run_listeners evs w : listeners (run doc evs w) = listeners w.
Proof.
  apply (run_invariant doc (λ w', listeners w' = listeners w)); [reflexivity |].
  intros e w' <-. apply handle_listeners.
Qed.

End ScrollEngine.

(** ** The page after the handler *)

Section Init.
Variable doc : Document.

Lemma reveal_section_shape w :
  exists O, reveal_section doc w = set_observed O w.
Proof.
  unfold reveal_section. destruct (revealTargets doc) as [| t l].
  - exists (observed w). destruct w; reflexivity.
  - match goal with |- context [fold_left ?g ?l ?w0] =>
      apply (fold_left_inv (fun w' => exists O, w' = set_observed O w)) end.
    + eexists. reflexivity.
    + intros w' x (O & ->). unfold observe. wsimpl.
      destruct O as [l' |]; [| eexists; reflexivity].
      case_bool_decide; eexists; reflexivity.
Qed.

(** [removeLoader] either does nothing or hides the loader and starts the
    900ms timer. *)
Lemma removeLoader_cases w :
  removeLoader doc w = w \/
  exists el, pageLoader doc = Some el /\ ("hidden" ∉ classList_of el w)
    /\ removeLoader doc w =
         (w |> classList_add el "hidden" |> setTimeout TRemoveOverlay 900).
Proof.
  unfold removeLoader. destruct (pageLoader doc) as [el |]; [| auto].
  unfold classList_contains. case_bool_decide; [auto |]. right. eauto.
Qed.

(** The effect of each section of the handler on the queues, the listeners,
    the cached state and the calls. *)
Lemma state_section_loop w :
  let w' := state_section w in
  now w' = now w /\ raf w' = raf w /\ timers w' = timers w
  /\ calls w' = calls w
  /\ state w' = mkState (window_scrollY w) (scrollHeight w - innerHeight w) false
  /\ listeners w' = listeners w ++ [OnResize].
Proof. cbv zeta. unfold state_section. wsimpl. auto 10. Qed.

Lemma hero_section_loop w :
  let w' := hero_section doc w in
  now w' = now w
  /\ raf w' = raf w ++ (if hero_present doc then [TTitleVisible] else [])
  /\ timers w' =
       timers w ++ (if hero_present doc then [(now w + 400, TShimmer)] else [])
  /\ calls w' = calls w /\ state w' = state w /\ listeners w' = listeners w.
Proof.
  cbv zeta. unfold hero_section, hero_present.
  destruct (titleEl doc), (titleText doc); wsimpl; rewrite ?app_nil_r; auto 10.
Qed.

Lemma loader_section_loop w :
  let w' := loader_section doc w in
  now w' = now w /\ raf w' = raf w
  /\ (exists extra, timers w' = timers w ++ extra /\
        Forall (λ x, x = (now w + 1500, TRaceTimeout)
                     \/ x = (now w + 900, TRemoveOverlay)) extra)
  /\ calls w' = calls w /\ state w' = state w /\ listeners w' = listeners w.
Proof.
  cbv zeta. unfold loader_section. destruct (bgImgs doc).
  - destruct (removeLoader_cases w) as [-> | (el & _ & _ & ->)]; wsimpl.
    + split; [reflexivity |]. split; [reflexivity |].
      split; [| auto]. exists []. rewrite app_nil_r. auto.
    + split; [reflexivity |]. split; [reflexivity |].
      split; [| auto]. eexists. split; [reflexivity |].
      forall_list.
  - wsimpl. split; [reflexivity |]. split; [reflexivity |].
    split; [| auto]. eexists. split; [reflexivity |].
    forall_list.
Qed.

Lemma scroll_section_loop w :
  let w' := scroll_section doc w in
  now w' = now w /\ raf w' = raf w /\ timers w' = timers w
  /\ recomputations w' =
       recomputations w ++
       (if layers_present doc
        then [(now w, (scrollY (state w), docHeight (state w)))] else [])
  /\ state w' =
       (if layers_present doc
        then mkState (scrollY (state w)) (docHeight (state w)) false
        else state w)
  /\ listeners w' =
       listeners w ++ (if layers_present doc then [OnScroll] else []).
Proof.
  cbv zeta. unfold scroll_section, layers_present.
  destruct (sunrise doc), (sunset doc); rewrite ?app_nil_r; auto 10.
  set (w0 := addEventListener OnScroll w).
  destruct (updateVisuals_fields doc w0) as (Es & Et & Er).
  destruct (updateVisuals_shape doc w0) as (C & D & S & M & P & T & L & K & E).
  rewrite Es, Et, Er. rewrite E. subst w0. wsimpl. auto 10.
Qed.

Lemma pointer_section_loop w :
  let w' := pointer_section doc w in
  now w' = now w /\ raf w' = raf w /\ timers w' = timers w
  /\ calls w' = calls w /\ state w' = state w
  /\ listeners w' =
       listeners w ++ (if pointer_present doc then [OnMouseMove] else []).
Proof.
  cbv zeta. unfold pointer_section, pointer_present.
  destruct (pointer_fine doc && negb (bool_decide (orbs doc = [])));
    wsimpl; rewrite ?app_nil_r; auto 10.
Qed.

(** The queues, the listeners and the cached state when the handler and its
    promise reactions are done. *)
Lemma init_fields :
  let w := init doc in
  now w = 0
  /\ raf w = (if hero_present doc then [TTitleVisible] else [])
  /\ Forall (λ x, x = (400, TShimmer) \/ x = (1500, TRaceTimeout)
                  \/ x = (900, TRemoveOverlay)) (timers w)
  /\ state w = mkState (load_scrollY doc)
                 (load_scrollHeight doc - load_innerHeight doc) false
  /\ listeners w =
       [OnResize]
       ++ (if layers_present doc then [OnScroll] else [])
       ++ (if pointer_present doc then [OnMouseMove] else [])
  /\ recomputations w =
       (if layers_present doc
        then [(0, (load_scrollY doc,
                   (load_scrollHeight doc - load_innerHeight doc)%R))]
        else []).
Proof.
  cbv zeta. unfold init, DOMContentLoaded.
  set (w1 := state_section (boot doc)).
  set (w2 := hero_section doc w1).
  set (w3 := loader_section doc w2).
  set (w4 := scroll_section doc w3).
  set (w5 := reveal_section doc w4).
  set (w6 := pointer_section doc w5).
  destruct (state_section_loop (boot doc)) as (N1 & R1 & T1 & C1 & S1 & L1).
  destruct (hero_section_loop w1) as (N2 & R2 & T2 & C2 & S2 & L2).
  destruct (loader_section_loop w2) as (N3 & R3 & (ex & T3 & F3) & C3 & S3 & L3).
  destruct (scroll_section_loop w3) as (N4 & R4 & T4 & C4 & S4 & L4).
  destruct (reveal_section_shape w4) as (O & E5).
  destruct (pointer_section_loop w5) as (N6 & R6 & T6 & C6 & S6 & L6).
  fold w1 in N1, R1, T1, C1, S1, L1. fold w2 in N2, R2, T2, C2, S2, L2.
  fold w3 in N3, R3, T3, C3, S3, L3. fold w4 in N4, R4, T4, C4, S4, L4, E5.
  fold w5 in E5, N6, R6, T6, C6, S6, L6. fold w6 in N6, R6, T6, C6, S6, L6.
  assert (now w5 = now w4 /\ raf w5 = raf w4 /\ timers w5 = timers w4
          /\ calls w5 = calls w4 /\ state w5 = state w4
          /\ listeners w5 = listeners w4) as (N5 & R5 & T5 & C5 & S5 & L5)
    by (rewrite E5; auto 10).
  assert (now w3 = 0) as Hn3 by (rewrite N3, N2, N1; reflexivity).
  assert (now w2 = 0) as Hn2 by (rewrite N2, N1; reflexivity).
  assert (now w1 = 0) as Hn1 by (rewrite N1; reflexivity).
  destruct (jobs_scroll_fields doc w6) as (Sj & Rj & Cj & Nj & Lj & Tj).
  split; [rewrite Nj, N6, N5, N4; exact Hn3 |].
  split; [rewrite Rj, R6, R5, R4, R3, R2, R1; reflexivity |].
  split.
  { assert (Forall (λ x, x = (400, TShimmer) \/ x = (1500, TRaceTimeout)
                         \/ x = (900, TRemoveOverlay)) (timers w6)) as Hw6.
    { rewrite Hn2 in F3. rewrite T6, T5, T4, T3, T2, T1, Hn1.
      cbn [boot timers app].
      apply Forall_app. split.
      - destruct (hero_present doc); forall_list.
      - eapply Forall_impl; [exact F3 |]. cbn. intros x [-> | ->]; auto. }
    destruct Tj as [-> | ->]; [exact Hw6 |].
    apply Forall_app. split; [exact Hw6 |].
    rewrite N6, N5, N4, Hn3. forall_list. }
  split.
  { rewrite Sj, S6, S5, S4, S3, S2, S1. cbn [boot window_scrollY scrollHeight
      innerHeight scrollY docHeight]. destruct (layers_present doc); reflexivity. }
  split; [rewrite Lj, L6, L5, L4, L3, L2, L1, <- !app_assoc; reflexivity |].
  rewrite (recomputations_calls _ _ Cj), (recomputations_calls _ _ C6),
    (recomputations_calls _ _ C5), C4, (recomputations_calls _ _ C3),
    (recomputations_calls _ _ C2), (recomputations_calls _ _ C1), Hn3, S3, S2, S1.
  reflexivity.
Qed.

End Init.

Section ScrollTheorems.
Variable doc : Document.

Lemma scroll_inv_init : scroll_inv (init doc).
Proof.
  destruct (init_fields doc) as (_ & Hr & Ht & Hs & _).
  split.
  - rewrite Hr, Hs. destruct (hero_present doc); reflexivity.
  - eapply Forall_impl; [exact Ht |].
    intros x [-> | [-> | ->]]; reflexivity.
Qed.

Lemma scroll_inv_handle e w : scroll_inv w -> scroll_inv (handle doc e w).
Proof.
  intros [H1 H2]. unfold handle.
  enough (scroll_inv (dispatch doc e w)) as [J1 J2].
  { destruct (jobs_scroll_fields doc (dispatch doc e w))
      as (Es & Er & _ & _ & _ & Et).
    split; [rewrite Es, Er; exact J1 |].
    destruct Et as [-> | ->]; [exact J2 |].
    apply Forall_app. split; [exact J2 | repeat constructor]. }
  destruct e; unfold dispatch.
  - unfold onScroll. cbv zeta. wsimpl.
    destruct (attached OnScroll _); [| split; assumption].
    destruct (ticking (state w)) eqn:Ht; unfold scroll_inv;
      cbn [negb]; wsimpl.
    + rewrite Ht. auto.
    + rewrite List.filter_app, List.length_app, H1. auto.
  - destruct (attached OnResize _); unfold onResize, scroll_inv; wsimpl; auto.
  - unfold onMouseMove, scroll_inv.
    destruct (attached OnMouseMove w); [| auto].
    destruct (mouseTicking w); cbn [negb]; wsimpl; [auto |].
    rewrite List.filter_app, List.length_app, H1. cbn. rewrite Nat.add_0_r. auto.
  - unfold animation_frame.
    match goal with |- context [fold_left ?g ?l ?w0] =>
      destruct (run_tasks_scroll doc l w0) as (F1 & _ & _ & F4 & _);
        [exact H2 |];
      destruct (run_tasks_shape doc l w0)
        as (C & D & S & M & P & T & L & K & E) end.
    split; [| exact F1]. rewrite F4. rewrite E. wsimpl.
    destruct (existsb is_update (raf w)) eqn:Hex; [reflexivity |].
    destruct (ticking (state w)); [| reflexivity]. exfalso.
    destruct (List.filter is_update (raf w)) as [| t l] eqn:Hf; [discriminate |].
    assert (In t (List.filter is_update (raf w))) as Hin by (rewrite Hf; left; auto).
    apply List.filter_In in Hin. destruct Hin as [Hin Hu].
    assert (existsb is_update (raf w) = true) as Hex'
      by (apply existsb_exists; eauto).
    congruence.
  - destruct (fire_timer_cases doc w) as [-> | (d & t & rest & Hp & _ & ->)];
      [split; assumption |].
    assert (is_update t = false /\ Forall (λ x, is_update (snd x) = false) rest)
      as [Hu Hrest].
    { rewrite Hp in H2. inversion H2; subst. auto. }
    destruct (run_task_idle doc t (w |> set_timers rest
                                     |> set_now (Nat.max (now w) d)) Hu)
      as (Es & _).
    split.
    + rewrite Es, run_task_raf. exact H1.
    + rewrite run_task_timers. apply Forall_app.
      split; [exact Hrest | apply spawned_not_update].
  - unfold wait. destruct (_ && _); (split; [exact H1 | exact H2]).
  - split; [exact H1 | exact H2].
  - split; [exact H1 | exact H2].
  - unfold deliver. destruct (observed w); [| split; assumption].
    match goal with |- context [observer_callback ?es ?w0] =>
      destruct (observer_callback_shape es w0) as (C & O & L & ->) end.
    split; [exact H1 | exact H2].
Qed.

Lemma scroll_inv_run evs : scroll_inv (run doc evs (init doc)).
Proof. apply run_invariant; [apply scroll_inv_init | apply scroll_inv_handle]. Qed.

(** An event that is neither a frame nor a scroll the engine hears leaves the
    cached offset, [ticking] and the recomputations as they are. *)
Lemma handle_state_other e w :
  scroll_inv w -> is_frame e = false ->
  is_scroll e = false \/ attached OnScroll w = false ->
  scrollY (state (handle doc e w)) = scrollY (state w)
  /\ ticking (state (handle doc e w)) = ticking (state w)
  /\ recomputations (handle doc e w) = recomputations w.
Proof.
  intros [H1 H2] Hf Hs. unfold handle.
  destruct (jobs_scroll_fields doc (dispatch doc e w))
    as (Es & _ & Ec & _ & _ & _).
  rewrite Es, (recomputations_calls _ _ Ec). clear Es Ec.
  destruct e; try discriminate; unfold dispatch.
  - destruct Hs as [Hs | Hs]; [discriminate |].
    unfold attached in *. wsimpl. rewrite Hs. auto.
  - destruct (attached OnResize _); unfold onResize; wsimpl; auto.
  - unfold onMouseMove. destruct (attached OnMouseMove w); [| auto].
    destruct (mouseTicking w); cbn [negb]; wsimpl; auto.
  - destruct (fire_timer_cases doc w) as [-> | (d & t & rest & Hp & _ & ->)];
      [auto |].
    assert (is_update t = false) as Hu.
    { rewrite Hp in H2. inversion H2; subst. auto. }
    destruct (run_task_idle doc t (w |> set_timers rest
                                     |> set_now (Nat.max (now w) d)) Hu)
      as (-> & ->). auto.
  - unfold wait. destruct (_ && _); auto.
  - auto.
  - auto.
  - unfold deliver. destruct (observed w); [| auto].
    match goal with |- context [observer_callback ?es ?w0] =>
      destruct (observer_callback_shape es w0) as (C & O & L & ->) end.
    auto.
Qed.

(** A frame recomputes once if a callback is pending, with the cached
    offset and height, and not at all otherwise. *)
Lemma handle_frame_scroll rects w :
  scroll_inv w ->
  let w' := handle doc (EvFrame rects) w in
  recomputations w' =
    recomputations w ++
    (if ticking (state w)
     then [(now w, (scrollY (state w), docHeight (state w)))] else [])
  /\ ticking (state w') = false
  /\ scrollY (state w') = scrollY (state w).
Proof.
  intros [H1 H2] w'. subst w'. unfold handle.
  destruct (jobs_scroll_fields doc (dispatch doc (EvFrame rects) w))
    as (Es & _ & Ec & _ & _ & _).
  rewrite Es, (recomputations_calls _ _ Ec). clear Es Ec.
  unfold dispatch, animation_frame.
  match goal with |- context [fold_left ?g ?l ?w0] =>
    destruct (run_tasks_scroll doc l w0) as (_ & F2 & _ & F4 & F5);
      [exact H2 |] end.
  rewrite F2, F4, F5. wsimpl. clear F2 F4 F5.
  destruct (ticking (state w)).
  - destruct (List.filter is_update (raf w)) as [| t [| t' l]] eqn:Hfl;
      try discriminate.
    assert (In t (List.filter is_update (raf w))) as Hin
      by (rewrite Hfl; left; reflexivity).
    apply List.filter_In in Hin. destruct Hin as [Hin Hu].
    replace (existsb is_update (raf w)) with true
      by (symmetry; apply existsb_exists; eauto).
    auto.
  - destruct (List.filter is_update (raf w)); [| discriminate].
    destruct (existsb is_update (raf w)); auto.
Qed.

Lemma attached_run l evs :
  attached l (run doc evs (init doc)) = attached l (init doc).
Proof. unfold attached. rewrite run_listeners. reflexivity. Qed.

Lemma attached_scroll_init :
  attached OnScroll (init doc) = layers_present doc.
Proof.
  unfold attached. destruct (init_fields doc) as (_ & _ & _ & _ & -> & _).
  destruct (layers_present doc), (pointer_present doc); reflexivity.
Qed.

(** After a scroll event the engine hears, the offset is cached and a frame
    callback is pending. *)
Lemma handle_scroll y w :
  attached OnScroll w = true ->
  scrollY (state (handle doc (EvScroll y) w)) = y
  /\ ticking (state (handle doc (EvScroll y) w)) = true.
Proof.
  intros Ha. unfold handle.
  destruct (jobs_scroll_fields doc (dispatch doc (EvScroll y) w))
    as (-> & _). unfold dispatch. unfold attached in *. wsimpl. rewrite Ha.
  unfold onScroll. cbv zeta. wsimpl.
  destruct (ticking (state w)) eqn:Ht; cbn [negb]; wsimpl; auto.
Qed.

Lemma no_engine_init : layers_present doc = false -> no_engine (init doc).
Proof.
  intros Hl. split; [apply scroll_inv_init |].
  rewrite attached_scroll_init.
  destruct (init_fields doc) as (_ & _ & _ & -> & _ & ->).
  rewrite Hl. auto.
Qed.

Lemma no_engine_handle e w : no_engine w -> no_engine (handle doc e w).
Proof.
  intros (Hinv & Ha & Ht & Hr).
  split; [apply scroll_inv_handle; exact Hinv |].
  split; [unfold attached in *; rewrite handle_listeners; exact Ha |].
  destruct (is_frame e) eqn:Hf.
  - destruct e; try discriminate.
    destruct (handle_frame_scroll rects w Hinv) as (Er & Et' & _).
    rewrite Er, Ht, Hr. auto.
  - destruct (handle_state_other e w Hinv Hf (or_intror Ha)) as (_ & -> & ->).
    auto.
Qed.

End ScrollTheorems.

(** C2.  However many scroll events arrive before a frame, the frame performs
    exactly one recomputation, and with the offset of the last of them: in
    any run, after scroll events with offsets [ys] and then [y], and other
    events that are neither scrolls nor frames, the offset [y] is cached, one
    frame callback is pending, and the next frame adds one recomputation,
    which reads [y]. *)
Theorem scroll_coalescing (doc : Document) (a b : node) (evs : list event)
    (ys : list R) (y : R) (others : list event) (rects : node -> DOMRect) :
  sunrise doc = Some a -> sunset doc = Some b ->
  Forall (λ e, is_frame e = false /\ is_scroll e = false) others ->
  let w0 := run doc evs (init doc) in
  let w1 := run doc (map EvScroll ys ++ [EvScroll y] ++ others) w0 in
  let w2 := handle doc (EvFrame rects) w1 in
  scrollY (state w1) = y
  /\ List.filter is_update (raf w1) = [TUpdateVisuals]
  /\ recomputations w2 =
       recomputations w1 ++ [(now w1, (y, docHeight (state w1)))].
Proof.
  intros Ha Hb Ho w0 w1 w2.
  assert (layers_present doc = true) as Hl
    by (unfold layers_present; rewrite Ha, Hb; reflexivity).
  set (w := run doc (evs ++ map EvScroll ys) (init doc)).
  assert (w1 = run doc others (handle doc (EvScroll y) w)) as E1.
  { subst w1 w0 w. rewrite !run_app. reflexivity. }
  assert (scroll_inv w) as Hw by apply scroll_inv_run.
  assert (attached OnScroll w = true) as Hat
    by (subst w; rewrite attached_run, attached_scroll_init; exact Hl).
  destruct (handle_scroll doc y w Hat) as (Hy & Ht).
  assert (scroll_inv (handle doc (EvScroll y) w)) as Hw'
    by (apply scroll_inv_handle; exact Hw).
  assert (scroll_inv w1 /\ scrollY (state w1) = y
          /\ ticking (state w1) = true) as (Hi1 & Hy1 & Ht1).
  { rewrite E1. clear E1. revert Hy Ht Hw'.
    generalize (handle doc (EvScroll y) w). clear -Ho.
    induction Ho as [| e l [Hf Hs] _ IH]; intros w Hy Ht Hw; [auto |].
    cbn [run fold_left]. apply IH.
    - destruct (handle_state_other doc e w Hw Hf (or_introl Hs)) as (-> & _).
      exact Hy.
    - destruct (handle_state_other doc e w Hw Hf (or_introl Hs))
        as (_ & -> & _). exact Ht.
    - apply scroll_inv_handle. exact Hw. }
  split; [exact Hy1 |]. split.
  - destruct Hi1 as [Hc _]. rewrite Ht1 in Hc.
    destruct (List.filter is_update (raf w1)) as [| t [| t' l]] eqn:Hfl;
      try discriminate.
    assert (In t (List.filter is_update (raf w1))) as Hin
      by (rewrite Hfl; left; reflexivity).
    apply List.filter_In in Hin. destruct Hin as [_ Hu].
    destruct t; try discriminate. reflexivity.
  - destruct (handle_frame_scroll doc rects w1 Hi1) as (Er & _).
    subst w2. rewrite Er, Ht1, Hy1. reflexivity.
Qed.

(** C7.  With both layers on the page the handler attaches the scroll
    listener and runs one recomputation itself, with the scroll position and
    the height of the page at load; with a layer missing the listener is
    never attached and no recomputation ever runs. *)
Theorem scroll_engine_start (doc : Document) :
  (forall a b, sunrise doc = Some a -> sunset doc = Some b ->
     attached OnScroll (init doc) = true
     /\ recomputations (init doc) =
          [(0, (load_scrollY doc,
                (load_scrollHeight doc - load_innerHeight doc)%R))])
  /\ (sunrise doc = None \/ sunset doc = None ->
      forall evs,
        attached OnScroll (run doc evs (init doc)) = false
        /\ recomputations (run doc evs (init doc)) = []).
Proof.
  split.
  - intros a b Ha Hb.
    assert (layers_present doc = true) as Hl
      by (unfold layers_present; rewrite Ha, Hb; reflexivity).
    rewrite attached_scroll_init.
    destruct (init_fields doc) as (_ & _ & _ & _ & _ & ->).
    rewrite Hl. auto.
  - intros Hn evs.
    assert (layers_present doc = false) as Hl.
    { unfold layers_present. destruct Hn as [-> | ->];
        [| destruct (sunrise doc)]; reflexivity. }
    assert (no_engine (run doc evs (init doc))) as (_ & Ha & _ & Hr).
    { apply run_invariant;
        [apply no_engine_init; exact Hl | apply no_engine_handle]. }
    auto.
Qed.

Lemma scroll_coalescing_witness :
  let w1 := run sample_page
              (map EvScroll [10%R; 20%R] ++ [EvScroll 30%R] ++ [EvWait 5])
              (run sample_page [] (init sample_page)) in
  scrollY (state w1) = 30%R
  /\ List.filter is_update (raf w1) = [TUpdateVisuals].
Proof.
  intros w1.
  assert (Forall (λ e, is_frame e = false /\ is_scroll e = false) [EvWait 5])
    as Ho by (repeat constructor).
  destruct (scroll_coalescing sample_page 6 7 [] [10%R; 20%R] 30%R [EvWait 5]
              (λ _, mkRect 0 0) eq_refl eq_refl Ho) as (H1 & H2 & _).
  split; [exact H1 | exact H2].
Defined.

Lemma scroll_engine_start_witness :
  attached OnScroll (init sample_page) = true
  /\ recomputations (run bare_page [EvScroll 40%R; EvFrame (λ _, mkRect 0 0)]
                       (init bare_page)) = [].
Proof.
  destruct (scroll_engine_start sample_page) as (H1 & _).
  destruct (scroll_engine_start bare_page) as (_ & H2).
  destruct (H1 6 7 eq_refl eq_refl) as (Ha & _).
  destruct (H2 (or_intror eq_refl)
              [EvScroll 40%R; EvFrame (λ _, mkRect 0 0)]) as (_ & Hr).
  split; [exact Ha | exact Hr].
Defined.


(** ** The queues along a run *)

Section Queues.
Variable doc : Document.

Lemma jobs_queues w : queues_ok w -> queues_ok (promise_jobs doc w).
Proof.
  intros [H1 H2]. destruct (promise_jobs_result doc w); unfold queues_ok; wsimpl.
  - split; assumption.
  - split; assumption.
  - split; [| exact H2]. apply Forall_app. split; [exact H1 |].
    forall_list.
Qed.

Lemma spawned_future t w : Forall (λ x, now w <= fst x) (spawned doc t w).
Proof.
  unfold spawned. destruct t, (titleText doc); forall_list.
Qed.

Lemma run_task_queues t w : queues_ok w -> queues_ok (run_task doc t w).
Proof.
  intros [H1 H2]. split.
  - rewrite run_task_timers, run_task_now. apply Forall_app.
    split; [exact H1 | apply spawned_future].
  - rewrite run_task_raf. exact H2.
Qed.

Lemma dispatch_queues e w : queues_ok w -> queues_ok (dispatch doc e w).
Proof.
  intros [H1 H2]. destruct e; unfold dispatch, queues_ok.
  - unfold onScroll. cbv zeta. destruct (attached OnScroll _);
      [| split; assumption].
    wsimpl. destruct (ticking (state w)); cbn [negb]; wsimpl;
      (split; [exact H1 |]); [exact H2 |].
    apply Forall_app. split; [exact H2 | forall_list].
  - destruct (attached OnResize _); unfold onResize; wsimpl; split; assumption.
  - unfold onMouseMove. destruct (attached OnMouseMove w); [| split; assumption].
    destruct (mouseTicking w); cbn [negb]; wsimpl;
      (split; [exact H1 |]); [exact H2 |].
    apply Forall_app. split; [exact H2 | forall_list].
  - unfold animation_frame.
    apply (fold_left_inv queues_ok); fold (queues_ok w).
    + split; [exact H1 | apply List.Forall_nil].
    + intros w' t. apply run_task_queues.
  - destruct (fire_timer_cases doc w) as [-> | (d & t & rest & Hp & Hd & ->)];
      [split; assumption |].
    apply run_task_queues. wsimpl. split; [| exact H2].
    assert (Forall (λ x, now w <= fst x /\ d <= fst x) rest) as Hr.
    { assert (Forall (λ x, now w <= fst x /\ d <= fst x) (timers w)) as Hb.
      { apply Forall_and. split; assumption. }
      rewrite Hp in Hb. inversion Hb; assumption. }
    eapply Forall_impl; [exact Hr |]. cbn. intros x [? ?]. lia.
  - unfold wait.
    destruct (now w <=? t) eqn:Hn; cbn [andb]; [| split; assumption].
    destruct (forallb _ _) eqn:Hall; [| split; assumption].
    wsimpl. split; [| exact H2].
    apply Forall_forall. intros x Hx. rewrite forallb_forall in Hall.
    apply Nat.leb_le. apply Hall. apply list_elem_of_In. exact Hx.
  - split; assumption.
  - split; assumption.
  - unfold deliver. destruct (observed w); [| split; assumption].
    match goal with |- context [observer_callback ?es ?w0] =>
      destruct (observer_callback_shape es w0) as (C & O & L & ->) end.
    split; assumption.
Qed.

Lemma queues_ok_run evs : queues_ok (run doc evs (init doc)).
Proof.
  apply run_invariant.
  - destruct (init_fields doc) as (Hn & Hr & Ht & _). split.
    + rewrite Hn. apply Forall_forall. intros. lia.
    + rewrite Hr. destruct (hero_present doc); forall_list.
  - intros e w H. apply jobs_queues, dispatch_queues, H.
Qed.

End Queues.

(** ** Class lists along a run *)

Section Classes.
Variable doc : Document.

Lemma classes_grow_refl cs w : classes_grow cs w w.
Proof. intros el c. auto. Qed.

Lemma classes_grow_trans cs w1 w2 w3 :
  classes_grow cs w1 w2 -> classes_grow cs w2 w3 -> classes_grow cs w1 w3.
Proof.
  intros H12 H23 el c. destruct (H12 el c) as [A1 B1].
  destruct (H23 el c) as [A2 B2]. split; [auto |].
  intros H. destruct (B2 H); auto.
Qed.

Lemma classes_grow_same cs w w' : classes w' = classes w -> classes_grow cs w w'.
Proof. intros E el c. unfold classList_of. rewrite E. auto. Qed.

Lemma classes_grow_weaken cs cs' w w' :
  cs ⊆ cs' -> classes_grow cs w w' -> classes_grow cs' w w'.
Proof.
  intros Hs H el c. destruct (H el c) as [A B]. split; [exact A |].
  intros Hc. destruct (B Hc); auto.
Qed.

Lemma classList_of_add el el0 c0 w :
  classList_of el (classList_add el0 c0 w) =
    if decide (el0 = el)
    then (if bool_decide (c0 ∈ classList_of el0 w)
          then classList_of el0 w else classList_of el0 w ++ [c0])
    else classList_of el w.
Proof.
  unfold classList_of at 1. wsimpl. rewrite lookup_insert.
  destruct (decide (el0 = el)); reflexivity.
Qed.

Lemma classList_add_grow cs el0 c0 w :
  c0 ∈ cs -> classes_grow cs w (classList_add el0 c0 w).
Proof.
  intros Hc el c. rewrite classList_of_add.
  destruct (decide (el0 = el)) as [-> | _]; [| auto].
  case_bool_decide; [auto |]. rewrite elem_of_app, list_elem_of_singleton.
  split; [auto |]. intros [? | ->]; auto.
Qed.

Lemma classList_add_has el c w : c ∈ classList_of el (classList_add el c w).
Proof.
  rewrite classList_of_add. destruct (decide (el = el)); [| congruence].
  case_bool_decide; [assumption |].
  apply elem_of_app. right. apply list_elem_of_singleton. reflexivity.
Qed.

Lemma run_task_grow t w :
  classes_grow ["visible"; "floaty"] w (run_task doc t w).
Proof.
  destruct t as [| | | | | | e]; cbn [run_task].
  - destruct (titleEl doc); [| apply classes_grow_refl].
    apply classList_add_grow. in_classes.
  - destruct (titleText doc); apply classes_grow_same; reflexivity.
  - destruct (titleText doc); [| apply classes_grow_refl].
    apply classList_add_grow. in_classes.
  - destruct (pageLoader doc); apply classes_grow_same; reflexivity.
  - apply classes_grow_same. reflexivity.
  - apply classes_grow_same.
    unfold updateVisuals. cbv zeta. destruct (Rle_dec _ _); [reflexivity |].
    destruct (sunrise doc), (sunset doc), (bgOverlay doc); reflexivity.
  - apply classes_grow_same.
    destruct (moveOrbs_shape doc e w) as (L & ->). reflexivity.
Qed.

Lemma observer_callback_grow es w :
  classes_grow ["visible"] w (observer_callback es w).
Proof.
  unfold observer_callback.
  apply (fold_left_inv (classes_grow ["visible"] w));
    [apply classes_grow_refl |].
  intros w' e H. eapply classes_grow_trans; [exact H |].
  destruct (isIntersecting e); [| apply classes_grow_refl].
  eapply classes_grow_trans;
    [apply (classList_add_grow _ (target e) "visible"); in_classes |].
  apply classes_grow_same. unfold unobserve.
  destruct (observed _); reflexivity.
Qed.

Lemma dispatch_grow e w :
  classes_grow ["visible"; "floaty"] w (dispatch doc e w).
Proof.
  destruct e; unfold dispatch.
  - apply classes_grow_same. unfold onScroll. cbv zeta.
    destruct (attached OnScroll _); [| reflexivity].
    destruct (negb _); reflexivity.
  - apply classes_grow_same. destruct (attached OnResize _); reflexivity.
  - apply classes_grow_same. unfold onMouseMove.
    destruct (attached OnMouseMove w); [| reflexivity].
    destruct (negb _); reflexivity.
  - unfold animation_frame.
    eapply classes_grow_trans;
      [apply (classes_grow_same _ w (w |> set_boundingRect rects |> set_raf []));
       reflexivity |].
    match goal with |- context [fold_left ?g ?l ?w0] =>
      apply (fold_left_inv (classes_grow ["visible"; "floaty"] w0)) end;
      [apply classes_grow_refl |].
    intros w' t H. eapply classes_grow_trans; [exact H | apply run_task_grow].
  - destruct (fire_timer_cases doc w) as [-> | (d & t & rest & _ & _ & ->)];
      [apply classes_grow_refl |].
    eapply classes_grow_trans; [| apply run_task_grow].
    apply classes_grow_same. reflexivity.
  - apply classes_grow_same. unfold wait. destruct (_ && _); reflexivity.
  - apply classes_grow_same. reflexivity.
  - apply classes_grow_same. reflexivity.
  - unfold deliver. destruct (observed w); [| apply classes_grow_refl].
    eapply classes_grow_weaken; [| apply observer_callback_grow]. in_classes.
Qed.

Lemma jobs_grow w : classes_grow ["hidden"] w (promise_jobs doc w).
Proof.
  destruct (promise_jobs_result doc w).
  - apply classes_grow_refl.
  - apply classes_grow_same. reflexivity.
  - eapply classes_grow_trans;
      [| apply (classes_grow_same _ (classList_add el "hidden"
                                      (set_raceP (Some Fulfilled) w)));
         reflexivity].
    eapply classes_grow_trans;
      [apply (classes_grow_same _ w (set_raceP (Some Fulfilled) w));
       reflexivity |].
    apply classList_add_grow. in_classes.
Qed.

(** No event takes a class off an element. *)
Lemma handle_grow e w :
  classes_grow ["visible"; "floaty"; "hidden"] w (handle doc e w).
Proof.
  unfold handle. eapply classes_grow_trans.
  - eapply classes_grow_weaken; [| apply dispatch_grow]. in_classes.
  - eapply classes_grow_weaken; [| apply jobs_grow]. in_classes.
Qed.

Lemma run_grow evs w :
  classes_grow ["visible"; "floaty"; "hidden"] w (run doc evs w).
Proof.
  apply (run_invariant doc (classes_grow _ w)); [apply classes_grow_refl |].
  intros e w' H. eapply classes_grow_trans; [exact H | apply handle_grow].
Qed.

(** Only the promise reactions add the class [hidden]. *)
Lemma dispatch_hidden e w el :
  "hidden" ∈ classList_of el (dispatch doc e w) <->
  "hidden" ∈ classList_of el w.
Proof.
  destruct (dispatch_grow e w el "hidden") as [A B]. split; [| exact A].
  intros H. destruct (B H) as [? | Hin]; [assumption |].
  exfalso. apply list_elem_of_In in Hin. cbn in Hin. intuition discriminate.
Qed.

End Classes.

(** ** What each event changes *)

Section Effects.
Variable doc : Document.

(** The timers left after a pick are the timers without the one picked, in
    their order. *)
Lemma pick_split ts x rest :
  pick ts = Some (x, rest) ->
  exists l1 l2, ts = l1 ++ x :: l2 /\ rest = l1 ++ l2.
Proof.
  revert x rest.
  induction ts as [| a ts IH]; intros x rest H; cbn [pick] in H; [discriminate |].
  destruct (pick ts) as [[y r'] |] eqn:E.
  - destruct (IH y r' eq_refl) as (l1 & l2 & -> & ->).
    destruct (fst y <? fst a); inversion H; subst; clear H.
    + exists (a :: l1), l2. auto.
    + eexists [], _. split; reflexivity.
  - inversion H; subst; clear H. rewrite (pick_none _ E).
    exists [], []. split; reflexivity.
Qed.

Lemma quiet_refl w : quiet w w.
Proof.
  unfold quiet. repeat (split; [reflexivity |]).
  exists []. rewrite app_nil_r. split; [reflexivity | apply List.Forall_nil].
Qed.

Lemma quiet_trans w1 w2 w3 : quiet w1 w2 -> quiet w2 w3 -> quiet w1 w3.
Proof.
  intros (T1 & N1 & P1 & R1 & S1 & D1 & n1 & L1 & F1)
         (T2 & N2 & P2 & R2 & S2 & D2 & n2 & L2 & F2).
  unfold quiet. rewrite T2, N2, P2, R2, S2, D2, L2, L1.
  repeat (split; [assumption |]).
  exists (n1 ++ n2). rewrite app_assoc. split; [reflexivity |].
  apply Forall_app. auto.
Qed.

(** A step that changes fields out of the loader's and the intro's sight. *)
Lemma quiet_same w w' :
  timers w' = timers w -> now w' = now w -> timeoutP w' = timeoutP w ->
  raceP w' = raceP w -> signals w' = signals w -> detached w' = detached w ->
  log w' = log w -> quiet w w'.
Proof.
  intros T N P R S D L. unfold quiet. rewrite T, N, P, R, S, D, L.
  repeat (split; [reflexivity |]).
  exists []. rewrite app_nil_r. split; [reflexivity | apply List.Forall_nil].
Qed.

Lemma style_set_quiet el p v w :
  p ∈ ["opacity"; "transform"; "--mx"; "--my"] -> quiet w (style_set el p v w).
Proof.
  intros Hp. unfold quiet. wsimpl. repeat (split; [reflexivity |]).
  eexists. split; [reflexivity |]. apply List.Forall_cons; [| apply List.Forall_nil].
  cbn. apply bool_decide_eq_true. exact Hp.
Qed.

Lemma add_visible_quiet el w : quiet w (classList_add el "visible" w).
Proof.
  unfold quiet. wsimpl. repeat (split; [reflexivity |]).
  eexists. split; [reflexivity |]. forall_list.
Qed.

Lemma record_call_quiet c w : quiet w (record_call c w).
Proof. apply quiet_same; reflexivity. Qed.

Lemma set_ticking_quiet b w : quiet w (set_ticking b w).
Proof. apply quiet_same; reflexivity. Qed.

Lemma set_mouseTicking_quiet b w : quiet w (set_mouseTicking b w).
Proof. apply quiet_same; reflexivity. Qed.

(** [quiet w (f1 (f2 (... w)))], one operation at a time. *)
Ltac quiet_ops :=
  lazymatch goal with
  | |- quiet ?w ?w => apply quiet_refl
  | |- quiet _ (style_set _ _ _ _) =>
      eapply quiet_trans; [| apply style_set_quiet; in_classes]; quiet_ops
  | |- quiet _ (record_call _ _) =>
      eapply quiet_trans; [| apply record_call_quiet]; quiet_ops
  | |- quiet _ (set_ticking _ _) =>
      eapply quiet_trans; [| apply set_ticking_quiet]; quiet_ops
  | |- quiet _ (set_mouseTicking _ _) =>
      eapply quiet_trans; [| apply set_mouseTicking_quiet]; quiet_ops
  | |- quiet _ (classList_add _ "visible" _) =>
      eapply quiet_trans; [| apply add_visible_quiet]; quiet_ops
  end.

Lemma updateVisuals_quiet w : quiet w (updateVisuals doc w).
Proof.
  unfold updateVisuals. cbv zeta.
  destruct (Rle_dec _ _); [quiet_ops |].
  destruct (sunrise doc), (sunset doc), (bgOverlay doc); quiet_ops.
Qed.

Lemma moveOrbs_quiet e w : quiet w (moveOrbs doc e w).
Proof.
  unfold moveOrbs. cbv zeta.
  eapply quiet_trans; [| apply set_mouseTicking_quiet].
  eapply quiet_trans; [apply (record_call_quiet (CallMoveOrbs e)) |].
  match goal with |- context [fold_left ?g ?l ?w0] =>
    apply (fold_left_inv (quiet w0)) end; [apply quiet_refl |].
  intros w' btn H. eapply quiet_trans; [exact H |]. quiet_ops.
Qed.

Lemma frame_task_quiet t w :
  is_frame_task t = true -> quiet w (run_task doc t w).
Proof.
  destruct t; try discriminate; intros _; cbn [run_task].
  - destruct (titleEl doc); [apply add_visible_quiet | apply quiet_refl].
  - apply updateVisuals_quiet.
  - apply moveOrbs_quiet.
Qed.

Lemma frame_tasks_quiet l w :
  Forall (λ t, is_frame_task t = true) l ->
  quiet w (fold_left (λ w t, run_task doc t w) l w).
Proof.
  intros Hl. revert w. induction Hl as [| t l Ht _ IH]; intros w; cbn [fold_left].
  - apply quiet_refl.
  - eapply quiet_trans; [apply frame_task_quiet; exact Ht | apply IH].
Qed.

Lemma observer_callback_quiet es w : quiet w (observer_callback es w).
Proof.
  unfold observer_callback.
  apply (fold_left_inv (quiet w)); [apply quiet_refl |].
  intros w' e H. eapply quiet_trans; [exact H |].
  destruct (isIntersecting e); [| apply quiet_refl].
  eapply quiet_trans; [apply add_visible_quiet |].
  apply quiet_same; unfold unobserve; destruct (observed _); reflexivity.
Qed.

(** Scroll, resize, pointer, frame and intersection events are quiet. *)
Lemma dispatch_quiet e w :
  queues_ok w ->
  match e with
  | EvTimer | EvWait _ | EvImgLoad _ | EvImgError _ => True
  | _ => quiet w (dispatch doc e w)
  end.
Proof.
  intros [_ Hraf]. destruct e; try exact I; unfold dispatch.
  - apply quiet_same; unfold onScroll; cbv zeta;
      destruct (attached OnScroll _); try reflexivity;
      destruct (negb _); reflexivity.
  - apply quiet_same; destruct (attached OnResize _); reflexivity.
  - apply quiet_same; unfold onMouseMove;
      destruct (attached OnMouseMove w); try reflexivity;
      destruct (negb _); reflexivity.
  - unfold animation_frame.
    eapply quiet_trans; [| apply frame_tasks_quiet; exact Hraf].
    apply quiet_same; reflexivity.
  - unfold deliver. destruct (observed w); [| apply quiet_refl].
    apply observer_callback_quiet.
Qed.

(** The next timer: nothing is pending, or the earliest timer leaves the
    queue, the clock moves to its deadline and its callback runs. *)
Lemma fire_timer_split w :
  queues_ok w ->
  (timers w = [] /\ fire_timer doc w = w) \/
  exists d t l1 l2,
    timers w = l1 ++ (d, t) :: l2
    /\ Forall (λ x, d <= fst x) (timers w)
    /\ now w <= d
    /\ fire_timer doc w =
         run_task doc t (w |> set_timers (l1 ++ l2) |> set_now d).
Proof.
  intros [Hfut _]. unfold fire_timer.
  destruct (pick (timers w)) as [[[d t] rest]|] eqn:E.
  - right. destruct (pick_spec _ _ _ E) as [_ Hf].
    destruct (pick_split _ _ _ E) as (l1 & l2 & Hts & ->).
    assert (now w <= d) as Hd.
    { rewrite Hts in Hfut. apply Forall_app in Hfut. destruct Hfut as [_ H].
      inversion H; subst. assumption. }
    exists d, t, l1, l2. repeat (split; [assumption |]).
    replace (Nat.max (now w) d) with d by lia. reflexivity.
  - left. split; [apply pick_none; exact E | reflexivity].
Qed.

(** [times_of] and [pending] over the changes a step makes. *)
Lemma times_of_untracked k w w' new :
  (forall m, untracked m = true -> k m = false) ->
  log w' = log w ++ new -> Forall (λ x, untracked (snd x) = true) new ->
  times_of k w' = times_of k w.
Proof.
  intros Hk Hl Hnew. unfold times_of. rewrite Hl, filter_app, map_app.
  replace (filter (λ x, k (snd x) = true) new) with (@nil (nat * mutation));
    [apply app_nil_r |].
  symmetry. clear Hl. induction Hnew as [| x l Hx _ IH]; [reflexivity |].
  rewrite filter_cons. destruct (decide (k (snd x) = true)) as [E | _];
    [| exact IH].
  rewrite (Hk _ Hx) in E. discriminate.
Qed.

Lemma quiet_times_of k w w' :
  (forall m, untracked m = true -> k m = false) ->
  quiet w w' -> times_of k w' = times_of k w.
Proof.
  intros Hk (_ & _ & _ & _ & _ & _ & new & Hl & Hn).
  eapply times_of_untracked; eassumption.
Qed.

Lemma times_of_same k w w' : log w' = log w -> times_of k w' = times_of k w.
Proof. unfold times_of. intros ->. reflexivity. Qed.

Lemma times_of_snoc k w w' t m :
  log w' = log w ++ [(t, m)] ->
  times_of k w' = times_of k w ++ (if k m then [t] else []).
Proof.
  intros Hl. unfold times_of. rewrite Hl, filter_app, map_app. f_equal.
  rewrite filter_cons, filter_nil. cbn [snd].
  destruct (k m); destruct (decide _); try congruence; reflexivity.
Qed.

Lemma pending_same k w w' : timers w' = timers w -> pending k w' = pending k w.
Proof. unfold pending. intros ->. reflexivity. Qed.

Lemma pending_snoc k w w' d t :
  timers w' = timers w ++ [(d, t)] ->
  pending k w' = pending k w ++ (if k t then [(d, t)] else []).
Proof.
  intros Hl. unfold pending. rewrite Hl, filter_app. f_equal.
  rewrite filter_cons, filter_nil. cbn [snd].
  destruct (k t); destruct (decide _); try congruence; reflexivity.
Qed.

Lemma untracked_not_hide m : untracked m = true -> is_hide m = false.
Proof.
  destruct m; cbn; try reflexivity; try discriminate.
  intros H. apply bool_decide_eq_true in H. subst. reflexivity.
Qed.

Lemma untracked_not_removal m : untracked m = true -> is_removal m = false.
Proof. destruct m; cbn; try reflexivity; discriminate. Qed.

Lemma untracked_not_sweep m : untracked m = true -> is_sweep m = false.
Proof.
  destruct m; cbn; try reflexivity; try discriminate.
  intros H. apply bool_decide_eq_true in H.
  apply bool_decide_eq_false. intros ->.
  apply list_elem_of_In in H. cbn in H. intuition discriminate.
Qed.

Lemma untracked_not_float m : untracked m = true -> is_float m = false.
Proof.
  destruct m; cbn; try reflexivity; try discriminate.
  intros H. apply bool_decide_eq_true in H. subst. reflexivity.
Qed.

End Effects.

Section Tracked.
Variable doc : Document.

Lemma quiet_tracked w w' : quiet w w' -> same_tracked w w'.
Proof.
  intros H. pose proof H as (T & N & P & R & S & D & _).
  unfold same_tracked. repeat (split; [assumption |]).
  split; [apply quiet_times_of; [apply untracked_not_hide | exact H] |].
  split; [apply quiet_times_of; [apply untracked_not_removal | exact H] |].
  split; [apply quiet_times_of; [apply untracked_not_sweep | exact H] |].
  apply quiet_times_of; [apply untracked_not_float | exact H].
Qed.

Lemma same_tracked_pending k w w' :
  same_tracked w w' -> pending k w' = pending k w.
Proof. intros (T & _). apply pending_same. exact T. Qed.

(** The pending timers of a kind when a timer [(d, t)] has left the queue and
    the timers [extra] have joined it. *)
Lemma pending_fired k w w' d t l1 l2 extra :
  timers w = l1 ++ (d, t) :: l2 -> timers w' = (l1 ++ l2) ++ extra ->
  (k t = false ->
     pending k w' = pending k w ++ filter (λ x, k (snd x) = true) extra)
  /\ (k t = true -> forall x, pending k w = [x] ->
        x = (d, t) /\ pending k w' = filter (λ x, k (snd x) = true) extra)
  /\ (k t = true -> pending k w <> []).
Proof.
  intros Hw Hw'. unfold pending. rewrite Hw, Hw'.
  rewrite !filter_app, filter_cons. cbn [snd].
  destruct (decide (k t = true)) as [Ht | Ht].
  - split; [intros E; congruence |]. split.
    + intros _ x Hx.
      destruct (filter (λ x, k (snd x) = true) l1) as [| a l1'] eqn:E1.
      * cbn in Hx. inversion Hx as [[Ex E2]]. rewrite E2. auto.
      * cbn in Hx. inversion Hx as [[Ex E2]].
        destruct l1'; discriminate.
    + intros _ E. destruct (filter _ l1); discriminate.
  - split; [intros _; reflexivity |].
    split; intros E; congruence.
Qed.

End Tracked.

(** ** The loader gate *)

Section LoaderInit.
Variable doc : Document.

Lemma state_section_quiet w : quiet w (state_section w).
Proof. apply quiet_same; reflexivity. Qed.

Lemma scroll_section_quiet w : quiet w (scroll_section doc w).
Proof.
  unfold scroll_section. destruct (sunrise doc), (sunset doc);
    try apply quiet_refl.
  eapply quiet_trans; [| apply updateVisuals_quiet].
  apply quiet_same; reflexivity.
Qed.

Lemma reveal_section_quiet w : quiet w (reveal_section doc w).
Proof.
  destruct (reveal_section_shape doc w) as (O & ->).
  apply quiet_same; reflexivity.
Qed.

Lemma pointer_section_quiet w : quiet w (pointer_section doc w).
Proof.
  unfold pointer_section. destruct (_ && _); [| apply quiet_refl].
  apply quiet_same; reflexivity.
Qed.

Lemma updateVisuals_classes w : classes (updateVisuals doc w) = classes w.
Proof.
  unfold updateVisuals. cbv zeta. destruct (Rle_dec _ _); [reflexivity |].
  destruct (sunrise doc), (sunset doc), (bgOverlay doc); reflexivity.
Qed.

Lemma scroll_section_classes w : classes (scroll_section doc w) = classes w.
Proof.
  unfold scroll_section. destruct (sunrise doc), (sunset doc); try reflexivity.
  rewrite updateVisuals_classes. reflexivity.
Qed.

Lemma reveal_section_classes w : classes (reveal_section doc w) = classes w.
Proof. destruct (reveal_section_shape doc w) as (O & ->). reflexivity. Qed.

Lemma pointer_section_classes w : classes (pointer_section doc w) = classes w.
Proof. unfold pointer_section. destruct (_ && _); reflexivity. Qed.

Lemma hero_section_classes w : classes (hero_section doc w) = classes w.
Proof.
  unfold hero_section. destruct (titleEl doc), (titleText doc); reflexivity.
Qed.

(** The page after the first two sections. *)
Lemma hero_state_fields :
  let w := hero_section doc (state_section (boot doc)) in
  now w = 0 /\ classes w = load_classes doc /\ log w = []
  /\ timers w = (if hero_present doc then [(400, TShimmer)] else [])
  /\ signals w = [] /\ timeoutP w = Pending /\ raceP w = None
  /\ detached w = ∅.
Proof.
  cbv zeta. unfold hero_section, state_section, hero_present.
  destruct (titleEl doc), (titleText doc); wsimpl; cbn; auto 10.
Qed.

Lemma all_fulfilled_promises w :
  signals w = image_promises doc -> all_fulfilled w = images_ready doc.
Proof.
  unfold all_fulfilled, images_ready, image_promises. intros ->.
  induction (bgImgs doc) as [| img l IH]; [reflexivity |].
  cbn [map forallb snd]. rewrite IH.
  destruct (img_complete doc img); reflexivity.
Qed.

Lemma classList_of_boot el :
  classList_of el (boot doc) = default [] (load_classes doc !! el).
Proof. reflexivity. Qed.


End LoaderInit.

Section Gate.
Variable doc : Document.

Lemma run_task_promises t w :
  signals (run_task doc t w) = signals w /\ raceP (run_task doc t w) = raceP w
  /\ timeoutP (run_task doc t w) = (if is_race t then Fulfilled else timeoutP w).
Proof.
  destruct (run_task_shape doc t w) as (C & D & S & M & P & T & L & K & E).
  split; [rewrite E; reflexivity |]. split; [rewrite E; reflexivity |].
  clear E. destruct t as [| | | | | | e]; cbn [run_task is_race].
  - destruct (titleEl doc); reflexivity.
  - destruct (titleText doc); reflexivity.
  - destruct (titleText doc); reflexivity.
  - destruct (pageLoader doc); reflexivity.
  - reflexivity.
  - destruct (updateVisuals_quiet doc w) as (_ & _ & -> & _). reflexivity.
  - destruct (moveOrbs_quiet doc e w) as (_ & _ & -> & _). reflexivity.
Qed.

Lemma spawned_pending k t w :
  k TFloaty = false -> filter (λ x, k (snd x) = true) (spawned doc t w) = [].
Proof.
  intros Hk. unfold spawned. destruct t, (titleText doc); try reflexivity.
  rewrite filter_cons. cbn [snd]. rewrite Hk.
  destruct (decide _); [discriminate | reflexivity].
Qed.

Lemma all_fulfilled_resolve img w :
  all_fulfilled w = true -> all_fulfilled (resolve_image img w) = true.
Proof.
  unfold all_fulfilled, resolve_image. wsimpl.
  induction (signals w) as [| s l IH]; [reflexivity |].
  cbn [map forallb]. intros H. apply andb_true_iff in H. destruct H as [H1 H2].
  rewrite (IH H2), andb_true_r.
  destruct (bool_decide (fst s = img)); [reflexivity | exact H1].
Qed.

Lemma race_won_same w w' :
  signals w' = signals w -> timeoutP w' = timeoutP w ->
  race_won w' = race_won w.
Proof.
  unfold race_won, all_fulfilled. intros -> ->. reflexivity.
Qed.

(** The timeout part of the gate through a task of the browser. *)
Lemma dispatch_gate e w :
  queues_ok w ->
  ((timeoutP w = Pending /\ pending is_race w = [(1500, TRaceTimeout)])
   \/ (timeoutP w = Fulfilled /\ pending is_race w = [] /\ 1500 <= now w)) ->
  let w' := dispatch doc e w in
  raceP w' = raceP w
  /\ (race_won w = true -> race_won w' = true)
  /\ ((timeoutP w' = Pending /\ pending is_race w' = [(1500, TRaceTimeout)])
      \/ (timeoutP w' = Fulfilled /\ pending is_race w' = []
          /\ 1500 <= now w')).
Proof.
  intros Hq Hg w'. subst w'.
  pose proof (dispatch_quiet doc e w Hq) as Hquiet.
  assert (forall w', same_tracked w w' ->
            raceP w' = raceP w
            /\ (race_won w = true -> race_won w' = true)
            /\ ((timeoutP w' = Pending
                 /\ pending is_race w' = [(1500, TRaceTimeout)])
                \/ (timeoutP w' = Fulfilled /\ pending is_race w' = []
                    /\ 1500 <= now w'))) as Hsame.
  { intros w' Hs. pose proof (same_tracked_pending is_race _ _ Hs) as Hp.
    destruct Hs as (_ & N & P & R & S & _).
    rewrite R, N, P, Hp, (race_won_same _ _ S P). auto. }
  destruct e; try (apply Hsame, quiet_tracked, Hquiet); clear Hquiet;
    unfold dispatch.
  - (* the next timer *)
    destruct (fire_timer_split doc w Hq)
      as [[_ ->] | (d & t & l1 & l2 & Hts & _ & Hd & ->)];
      [apply Hsame, quiet_tracked, quiet_refl |].
    set (w1 := w |> set_timers (l1 ++ l2) |> set_now d).
    destruct (run_task_promises t w1) as (Es & Er & Et).
    assert (timers (run_task doc t w1) = (l1 ++ l2) ++ spawned doc t w1) as Ht'
      by (rewrite run_task_timers; reflexivity).
    destruct (pending_fired is_race w (run_task doc t w1) d t l1 l2 _ Hts Ht')
      as (Pn & Py & Pne).
    rewrite spawned_pending in Pn, Py by reflexivity.
    split; [rewrite Er; reflexivity |]. split.
    { unfold race_won, all_fulfilled. rewrite Es, Et. subst w1. wsimpl.
      destruct (is_race t); [intros _; apply orb_true_r | auto]. }
    rewrite Et, run_task_now. subst w1. wsimpl.
    destruct (is_race t) eqn:Hr.
    + right. destruct Hg as [[_ Hp] | [_ [Hp _]]].
      * destruct (Py eq_refl _ Hp) as (Ex & ->). inversion Ex. auto.
      * exfalso. apply (Pne eq_refl). exact Hp.
    + rewrite (Pn eq_refl), app_nil_r.
      destruct Hg as [Hg | (? & ? & ?)]; [left; exact Hg | right].
      repeat split; try assumption. lia.
  - (* time passes *)
    unfold wait. destruct (now w <=? t) eqn:Hn; cbn [andb];
      [| apply Hsame, quiet_tracked, quiet_refl].
    destruct (forallb _ _); [| apply Hsame, quiet_tracked, quiet_refl].
    apply Nat.leb_le in Hn. split; [reflexivity |]. split; [auto |].
    unfold pending. wsimpl. destruct Hg as [Hg | (? & ? & ?)];
      [left; exact Hg | right]. repeat split; try assumption. lia.
  - (* an image has loaded *)
    split; [reflexivity |]. split; [| exact Hg].
    unfold race_won. intros H. apply orb_true_iff in H.
    destruct H as [H | H]; [| rewrite orb_true_iff; right; exact H].
    rewrite all_fulfilled_resolve by exact H. reflexivity.
  - (* an image has failed *)
    split; [reflexivity |]. split; [| exact Hg].
    unfold race_won. intros H. apply orb_true_iff in H.
    destruct H as [H | H]; [| rewrite orb_true_iff; right; exact H].
    rewrite all_fulfilled_resolve by exact H. reflexivity.
Qed.

(** The promise reactions settle the race when it has a winner. *)
Lemma jobs_gate w :
  raceP w = Some Pending \/ (raceP w = Some Fulfilled /\ race_won w = true) ->
  let w' := promise_jobs doc w in
  raceP w' = Some (if race_won w then Fulfilled else Pending)
  /\ signals w' = signals w /\ timeoutP w' = timeoutP w
  /\ pending is_race w' = pending is_race w /\ now w' = now w.
Proof.
  intros Hr w'. subst w'. destruct (promise_jobs_result doc w) as [Hi | Hp Hw Hl | el Hp Hw Hl Hh].
  - split; [| auto]. destruct Hr as [Hr | [-> ->]]; [| reflexivity].
    destruct Hi as [Hi | [Ha Ht]]; [congruence |].
    rewrite Hr. unfold race_won. rewrite Ha. cbn [orb].
    case_bool_decide; [congruence | reflexivity].
  - wsimpl. split; [| auto]. unfold race_won.
    destruct Hw as [-> | ->]; [reflexivity |].
    rewrite orb_true_r. reflexivity.
  - unfold pending. wsimpl. split.
    + unfold race_won. destruct Hw as [-> | ->]; [reflexivity |].
      rewrite orb_true_r. reflexivity.
    + repeat split. rewrite filter_app, filter_cons, filter_nil. cbn [snd is_race].
      destruct (decide _); [discriminate | apply app_nil_r].
Qed.

Lemma gate_inv_handle e w :
  queues_ok w -> gate_inv w -> gate_inv (handle doc e w).
Proof.
  intros Hq [Hr Hg]. unfold handle.
  destruct (dispatch_gate e w Hq Hg) as (Er & Hmono & Hg').
  set (w' := dispatch doc e w) in *.
  assert (raceP w' = Some Pending
          \/ (raceP w' = Some Fulfilled /\ race_won w' = true)) as Hpre.
  { rewrite Er, Hr. destruct (race_won w); auto. }
  destruct (jobs_gate w' Hpre) as (Jr & Js & Jt & Jp & Jn).
  split.
  - rewrite Jr, (race_won_same _ _ Js Jt). reflexivity.
  - rewrite Jt, Jp, Jn. exact Hg'.
Qed.

End Gate.

Section LoaderStart.
Variable doc : Document.

Lemma images_ready_nil : bgImgs doc = [] -> images_ready doc = true.
Proof. unfold images_ready. intros ->. reflexivity. Qed.

Lemma image_promises_nil : bgImgs doc = [] -> image_promises doc = [].
Proof. unfold image_promises. intros ->. reflexivity. Qed.

(** What [removeLoader] does to a page whose class lists are still those of
    the document. *)
Lemma removeLoader_at_load w :
  classes w = load_classes doc ->
  let w' := removeLoader doc w in
  now w' = now w /\ detached w' = detached w /\ timeoutP w' = timeoutP w
  /\ signals w' = signals w /\ raceP w' = raceP w
  /\ timers w' =
       timers w ++ (if loader_shown doc then [(now w + 900, TRemoveOverlay)] else [])
  /\ log w' =
       log w ++ match pageLoader doc with
                | Some el => if loader_shown doc
                             then [(now w, AddClass el "hidden")] else []
                | None => []
                end
  /\ (forall el, pageLoader doc = Some el -> "hidden" ∈ classList_of el w').
Proof.
  intros Hc w'. subst w'. unfold removeLoader, loader_shown, classList_contains.
  destruct (pageLoader doc) as [el |]; [| rewrite !app_nil_r; repeat split; discriminate].
  assert (classList_of el w = default [] (load_classes doc !! el)) as Hcl
    by (unfold classList_of; rewrite Hc; reflexivity).
  rewrite Hcl. case_bool_decide as Hh; cbn [negb].
  - rewrite !app_nil_r. repeat split. intros el' E. inversion E; subst.
    rewrite Hcl. exact Hh.
  - wsimpl. repeat split. intros el' E. inversion E; subst.
    apply (classList_add_has el' "hidden" w).
Qed.

Lemma times_of_nil k w : log w = [] -> times_of k w = [].
Proof. unfold times_of. intros ->. reflexivity. Qed.

Lemma times_of_hide_log w w' el :
  log w' = log w ++ (if loader_shown doc then [(now w, AddClass el "hidden")] else []) ->
  times_of is_hide w' =
    times_of is_hide w ++ (if loader_shown doc then [now w] else [])
  /\ times_of is_removal w' = times_of is_removal w
  /\ times_of is_sweep w' = times_of is_sweep w
  /\ times_of is_float w' = times_of is_float w.
Proof.
  destruct (loader_shown doc); intros Hl.
  - rewrite (times_of_snoc is_hide _ _ _ _ Hl),
      (times_of_snoc is_removal _ _ _ _ Hl),
      (times_of_snoc is_sweep _ _ _ _ Hl),
      (times_of_snoc is_float _ _ _ _ Hl). cbn. rewrite !app_nil_r. auto.
  - rewrite app_nil_r in Hl.
    rewrite !(times_of_same _ _ _ Hl), app_nil_r. auto.
Qed.

(** The rest of the handler after the loader section is quiet and leaves the
    class lists alone. *)
Lemma after_loader w :
  let w' := pointer_section doc (reveal_section doc (scroll_section doc w)) in
  same_tracked w w' /\ classes w' = classes w.
Proof.
  cbv zeta. split.
  - apply quiet_tracked.
    eapply quiet_trans; [| apply pointer_section_quiet].
    eapply quiet_trans; [| apply reveal_section_quiet].
    apply scroll_section_quiet.
  - rewrite pointer_section_classes, reveal_section_classes,
      scroll_section_classes. reflexivity.
Qed.

(** What the loader and the intro depend on, when the handler and its
    promise reactions are done. *)
Lemma init_tracked :
  let w := init doc in
  now w = 0 /\ detached w = ∅ /\ timeoutP w = Pending
  /\ signals w = image_promises doc
  /\ raceP w = match bgImgs doc with
               | [] => None
               | _ :: _ => Some (if images_ready doc then Fulfilled else Pending)
               end
  /\ timers w =
       (if hero_present doc then [(400, TShimmer)] else [])
       ++ match bgImgs doc with [] => [] | _ :: _ => [(1500, TRaceTimeout)] end
       ++ (if images_ready doc && loader_shown doc
           then [(900, TRemoveOverlay)] else [])
  /\ times_of is_hide w =
       (if images_ready doc && loader_shown doc then [0] else [])
  /\ times_of is_removal w = [] /\ times_of is_sweep w = []
  /\ times_of is_float w = []
  /\ (forall el, pageLoader doc = Some el ->
        "hidden" ∈ classList_of el w <->
        "hidden" ∈ default [] (load_classes doc !! el)
        \/ images_ready doc = true).
Proof.
  cbv zeta. unfold init, DOMContentLoaded.
  set (w2 := hero_section doc (state_section (boot doc))).
  destruct (hero_state_fields doc) as (N2 & C2 & L2 & T2 & S2 & P2 & R2 & D2).
  fold w2 in N2, C2, L2, T2, S2, P2, R2, D2.
  set (w3 := loader_section doc w2).
  destruct (after_loader w3) as (Htr & C6).
  set (w6 := pointer_section doc (reveal_section doc (scroll_section doc w3))) in *.
  destruct Htr as (T6 & N6 & P6 & R6 & S6 & D6 & H6 & M6 & W6 & F6).
  destruct (bgImgs doc) as [| img imgs] eqn:Hb.
  - (* no image: dismissed in the loader section *)
    assert (w3 = removeLoader doc w2) as E3
      by (subst w3; unfold loader_section; rewrite Hb; reflexivity).
    destruct (removeLoader_at_load w2 C2)
      as (N3 & D3 & P3 & S3 & R3 & T3 & L3 & Hh3).
    rewrite <- E3 in N3, D3, P3, S3, R3, T3, L3, Hh3.
    assert (promise_jobs doc w6 = w6) as ->
      by (unfold promise_jobs; rewrite R6, R3, R2; reflexivity).
    rewrite (images_ready_nil Hb), (image_promises_nil Hb). cbn [andb app].
    assert (exists el', log w3 = log w2 ++
              (if loader_shown doc then [(now w2, AddClass el' "hidden")] else []))
      as (el' & L3').
    { destruct (pageLoader doc) as [el |] eqn:Hpl; [exists el; exact L3 |].
      exists 0. rewrite L3.
      assert (loader_shown doc = false) as ->
        by (unfold loader_shown; rewrite Hpl; reflexivity).
      reflexivity. }
    destruct (times_of_hide_log w2 w3 el' L3') as (Hh & Hm & Hs & Hf).
    rewrite N6, N3, N2, D6, D3, D2, P6, P3, P2, S6, S3, S2, R6, R3, R2,
      T6, T3, T2, N2, H6, Hh, M6, Hm, W6, Hs, F6, Hf,
      !(times_of_nil _ _ L2), ?N2.
    repeat (split; [reflexivity |]).
    intros el Hp. split; [auto |]. intros _.
    unfold classList_of. rewrite C6. apply (Hh3 el Hp).
  - (* images: the race is on *)
    assert (w3 = (w2 |> set_signals (image_promises doc)
                     |> setTimeout TRaceTimeout 1500
                     |> set_raceP (Some Pending))) as E3
      by (subst w3; unfold loader_section; rewrite Hb; reflexivity).
    assert (now w6 = 0 /\ detached w6 = ∅ /\ timeoutP w6 = Pending
            /\ signals w6 = image_promises doc /\ raceP w6 = Some Pending
            /\ timers w6 = (if hero_present doc then [(400, TShimmer)] else [])
                           ++ [(1500, TRaceTimeout)]
            /\ classes w6 = load_classes doc
            /\ times_of is_hide w6 = [] /\ times_of is_removal w6 = []
            /\ times_of is_sweep w6 = [] /\ times_of is_float w6 = [])
      as (N & D & P & S & R & T & C & Hh & Hm & Hs & Hf).
    { assert (log w3 = []) as L3 by (rewrite E3; exact L2).
      rewrite N6, D6, P6, S6, R6, T6, C6, H6, M6, W6, F6,
        !(times_of_nil _ _ L3), E3. wsimpl.
      rewrite N2, D2, P2, T2, C2. auto 12. }
    clearbody w6. clear E3 T6 N6 P6 R6 S6 D6 H6 M6 W6 F6 C6.
    unfold promise_jobs. rewrite R.
    unfold race_won. rewrite (all_fulfilled_promises doc _ S), P.
    replace (bool_decide (Pending = Fulfilled)) with false by reflexivity.
    rewrite orb_false_r. destruct (images_ready doc) eqn:Hready; cbn [andb].
    + set (w7 := set_raceP (Some Fulfilled) w6).
      destruct (removeLoader_at_load w7 C)
        as (N7 & D7 & P7 & S7 & R7 & T7 & L7 & Hh7).
      assert (exists el', log (removeLoader doc w7) = log w7 ++
                (if loader_shown doc then [(now w7, AddClass el' "hidden")] else []))
        as (el' & L7').
      { destruct (pageLoader doc) as [el |] eqn:Hpl; [exists el; exact L7 |].
        exists 0. rewrite L7.
        assert (loader_shown doc = false) as ->
          by (unfold loader_shown; rewrite Hpl; reflexivity).
        reflexivity. }
      destruct (times_of_hide_log w7 _ el' L7') as (Hh' & Hm' & Hs' & Hf').
      assert (forall k, times_of k w7 = times_of k w6) as Hk7
        by (intros k; apply times_of_same; reflexivity).
      rewrite N7, D7, P7, S7, R7, T7, Hh', Hm', Hs', Hf', !Hk7, Hh, Hm, Hs, Hf.
      subst w7. wsimpl. rewrite N, D, P, S, T.
      repeat (split; [first [reflexivity | symmetry; apply List.app_assoc] |]).
      intros el Hp. split; [auto |]. intros _. apply (Hh7 el Hp).
    + rewrite N, D, P, S, R, T, Hh, Hm, Hs, Hf, app_nil_r.
      repeat (split; [reflexivity |]).
      intros el Hp. unfold classList_of. rewrite C.
      split; [auto |]. intros [H | H]; [exact H | discriminate].
Qed.

End LoaderStart.

Section GateRun.
Variable doc : Document.

Lemma gate_inv_init : bgImgs doc <> [] -> gate_inv (init doc).
Proof.
  intros Hb. destruct (init_tracked doc) as (_ & _ & P & S & R & T & _).
  unfold gate_inv, race_won.
  rewrite (all_fulfilled_promises doc _ S), P.
  replace (bool_decide (Pending = Fulfilled)) with false by reflexivity.
  rewrite orb_false_r. split.
  - rewrite R. destruct (bgImgs doc); [congruence | reflexivity].
  - left. split; [reflexivity |]. unfold pending. rewrite T.
    destruct (bgImgs doc); [congruence |].
    destruct (hero_present doc), (images_ready doc && loader_shown doc);
      reflexivity.
Qed.

Lemma gate_inv_run evs : bgImgs doc <> [] -> gate_inv (run doc evs (init doc)).
Proof.
  intros Hb.
  enough (queues_ok (run doc evs (init doc))
          /\ gate_inv (run doc evs (init doc))) as [_ H] by exact H.
  apply (run_invariant doc (λ w, queues_ok w /\ gate_inv w)).
  - split; [apply (queues_ok_run doc []) | apply gate_inv_init; exact Hb].
  - intros e w [Hq Hg]. split.
    + apply jobs_queues, dispatch_queues, Hq.
    + apply gate_inv_handle; assumption.
Qed.

Lemma jobs_signals w : signals (promise_jobs doc w) = signals w.
Proof. destruct (promise_jobs_result doc w); reflexivity. Qed.

Lemma dispatch_signals e w :
  queues_ok w ->
  signals (dispatch doc e w) =
    match e with
    | EvImgLoad img | EvImgError img => signals (resolve_image img w)
    | _ => signals w
    end.
Proof.
  intros Hq. pose proof (dispatch_quiet doc e w Hq) as Hquiet.
  destruct e;
    try (destruct Hquiet as (_ & _ & _ & _ & S & _); exact S);
    unfold dispatch.
  - destruct (fire_timer_split doc w Hq)
      as [[_ ->] | (d & t & l1 & l2 & _ & _ & _ & ->)]; [reflexivity |].
    destruct (run_task_promises doc t (w |> set_timers (l1 ++ l2) |> set_now d))
      as (-> & _). reflexivity.
  - unfold wait. destruct (_ && _); reflexivity.
  - reflexivity.
  - reflexivity.
Qed.

(** Each image promise is fulfilled exactly when the image was complete at
    the start or an event of the image, load or error, has arrived. *)
Lemma signals_run evs :
  signals (run doc evs (init doc)) =
    map (λ img, (img, if img_complete doc img || existsb (settles img) evs
                      then Fulfilled else Pending)) (bgImgs doc).
Proof.
  induction evs as [| e evs IH] using rev_ind.
  - destruct (init_tracked doc) as (_ & _ & _ & S & _). cbn [run fold_left].
    rewrite S. unfold image_promises. apply map_ext. intros img.
    cbn [existsb]. rewrite orb_false_r. reflexivity.
  - rewrite run_snoc. unfold handle.
    rewrite jobs_signals, dispatch_signals by apply queues_ok_run.
    assert (forall img0,
      signals (resolve_image img0 (run doc evs (init doc))) =
      map (λ img, (img, if img_complete doc img
                           || (existsb (settles img) evs
                               || bool_decide (img0 = img))
                        then Fulfilled else Pending)) (bgImgs doc)) as Hres.
    { intros img0. unfold resolve_image. wsimpl. rewrite IH, map_map.
      apply map_ext. intros img. cbn [fst].
      destruct (decide (img = img0)) as [-> | Hne].
      - rewrite !bool_decide_eq_true_2 by reflexivity.
        rewrite !orb_true_r. reflexivity.
      - rewrite (bool_decide_eq_false_2 (img = img0)) by exact Hne.
        rewrite (bool_decide_eq_false_2 (img0 = img)) by congruence.
        rewrite orb_false_r. reflexivity. }
    destruct e;
      try (rewrite IH; apply map_ext; intros img; rewrite existsb_app;
           cbn [existsb settles]; rewrite !orb_false_r; reflexivity).
    + rewrite Hres. apply map_ext. intros img'. rewrite existsb_app.
      cbn [existsb settles]. rewrite orb_false_r. reflexivity.
    + rewrite Hres. apply map_ext. intros img'. rewrite existsb_app.
      cbn [existsb settles]. rewrite orb_false_r. reflexivity.
Qed.

(** With images, the loader is hidden exactly when the race is settled. *)
Lemma hidden_run evs el :
  bgImgs doc <> [] -> pageLoader doc = Some el ->
  "hidden" ∉ default [] (load_classes doc !! el) ->
  "hidden" ∈ classList_of el (run doc evs (init doc)) <->
  raceP (run doc evs (init doc)) = Some Fulfilled.
Proof.
  intros Hb Hp Hl.
  enough ((queues_ok (run doc evs (init doc))
           /\ gate_inv (run doc evs (init doc)))
          /\ ("hidden" ∈ classList_of el (run doc evs (init doc)) <->
              raceP (run doc evs (init doc)) = Some Fulfilled)) as [_ H]
    by exact H.
  apply (run_invariant doc (λ w, (queues_ok w /\ gate_inv w)
           /\ ("hidden" ∈ classList_of el w <-> raceP w = Some Fulfilled))).
  - split; [split; [apply (queues_ok_run doc []) | apply gate_inv_init; exact Hb] |].
    destruct (init_tracked doc) as (_ & _ & _ & _ & R & _ & _ & _ & _ & _ & Hh).
    rewrite (Hh el Hp), R. destruct (bgImgs doc); [congruence |].
    destruct (images_ready doc); split; try tauto; try discriminate.
    intros [H | H]; [contradiction | discriminate].
  - intros e w [[Hq Hg] Hh]. split.
    { split; [apply jobs_queues, dispatch_queues, Hq
             | apply gate_inv_handle; assumption]. }
    unfold handle. destruct Hg as [_ Hg2].
    destruct (dispatch_gate doc e w Hq Hg2) as (Er & _ & _).
    pose proof (dispatch_hidden doc e w el) as Ec.
    set (w' := dispatch doc e w) in *.
    destruct (promise_jobs_result doc w') as [Hi | Hr Hw Hn | el' Hr Hw Hp' Hn].
    + rewrite Ec, Er. exact Hh.
    + wsimpl. split; [reflexivity |]. intros _.
      destruct Hn as [Hn | (el' & Hp' & Hin)]; [congruence |].
      rewrite Hp in Hp'. inversion Hp'; subst. exact Hin.
    + wsimpl. split; [reflexivity |]. intros _.
      rewrite Hp in Hp'. inversion Hp'; subst.
      apply (classList_add_has el' "hidden").
Qed.

Lemma no_gate_run evs : bgImgs doc = [] -> no_gate (run doc evs (init doc)).
Proof.
  intros Hb.
  enough (queues_ok (run doc evs (init doc))
          /\ no_gate (run doc evs (init doc))) as [_ H] by exact H.
  apply (run_invariant doc (λ w, queues_ok w /\ no_gate w)).
  - split; [apply (queues_ok_run doc []) |].
    destruct (init_tracked doc) as (_ & _ & P & _ & R & T & _).
    unfold no_gate, pending. rewrite P, R, T, Hb, (images_ready_nil doc Hb).
    destruct (hero_present doc), (loader_shown doc); auto.
  - intros e w [Hq (R & P & G)]. split; [apply jobs_queues, dispatch_queues, Hq |].
    unfold handle.
    assert (no_gate (dispatch doc e w)) as (R' & P' & G').
    { pose proof (dispatch_quiet doc e w Hq) as Hquiet. unfold no_gate.
      destruct e;
        try (apply quiet_tracked in Hquiet;
             rewrite (same_tracked_pending is_race _ _ Hquiet);
             destruct Hquiet as (_ & _ & -> & -> & _); auto);
        unfold dispatch.
      - destruct (fire_timer_split doc w Hq)
          as [[_ ->] | (d & t & l1 & l2 & Hts & _ & _ & ->)]; [auto |].
        set (w1 := w |> set_timers (l1 ++ l2) |> set_now d).
        destruct (run_task_promises doc t w1) as (_ & Er & Et).
        assert (timers (run_task doc t w1) = (l1 ++ l2) ++ spawned doc t w1)
          as Ht' by (rewrite run_task_timers; reflexivity).
        destruct (pending_fired is_race w (run_task doc t w1) d t l1 l2 _ Hts Ht')
          as (Pn & _ & Pne).
        destruct (is_race t) eqn:Hr; [exfalso; apply (Pne eq_refl); exact G |].
        rewrite Er, Et, (Pn eq_refl), G, spawned_pending by reflexivity.
        auto.
      - unfold wait. destruct (_ && _); auto.
      - auto.
      - auto. }
    unfold promise_jobs. rewrite R'. unfold no_gate. auto.
Qed.

End GateRun.

(** C5.  On a page with background images, each image promise is fulfilled
    exactly when the image was complete at the start or a load or error event
    of it has arrived; the 1500ms timer is pending until it fires, at 1500;
    the race is settled exactly when all image promises or the timeout
    promise are fulfilled; and a loader that was shown is hidden exactly when
    the race is settled.  On a page without images the loader section is a
    direct call of [removeLoader], the loader is hidden when the handler
    returns, at time 0, and there is neither a race nor a 1500ms timer. *)
Theorem loader_gate (doc : Document) (evs : list event) :
  let w := run doc evs (init doc) in
  (bgImgs doc <> [] ->
     signals w =
       map (λ img, (img, if img_complete doc img || existsb (settles img) evs
                         then Fulfilled else Pending)) (bgImgs doc)
     /\ ((timeoutP w = Pending /\ pending is_race w = [(1500, TRaceTimeout)]
          /\ now w <= 1500)
         \/ (timeoutP w = Fulfilled /\ pending is_race w = []
             /\ 1500 <= now w))
     /\ raceP w =
          Some (if all_fulfilled w || bool_decide (timeoutP w = Fulfilled)
                then Fulfilled else Pending)
     /\ (forall el, pageLoader doc = Some el ->
           "hidden" ∉ default [] (load_classes doc !! el) ->
           "hidden" ∈ classList_of el w <-> raceP w = Some Fulfilled))
  /\ (bgImgs doc = [] ->
      (forall w0, loader_section doc w0 = removeLoader doc w0)
      /\ times_of is_hide (init doc) = (if loader_shown doc then [0] else [])
      /\ (forall el, pageLoader doc = Some el -> "hidden" ∈ classList_of el w)
      /\ raceP w = None /\ timeoutP w = Pending /\ pending is_race w = []).
Proof.
  intros w. subst w. split; intros Hb.
  - split; [apply signals_run |].
    destruct (gate_inv_run doc evs Hb) as [Hr Hg].
    destruct (queues_ok_run doc evs) as [Hfut _].
    split; [| split; [exact Hr | intros el; apply hidden_run; exact Hb]].
    destruct Hg as [[Ht Hp] | Hg]; [left | right; exact Hg].
    repeat split; try assumption.
    assert ((1500, TRaceTimeout) ∈ pending is_race (run doc evs (init doc)))
      as Hin by (rewrite Hp; apply list_elem_of_here).
    unfold pending in Hin. apply list_elem_of_filter in Hin.
    destruct Hin as [_ Hin]. rewrite Forall_forall in Hfut.
    apply (Hfut _ Hin).
  - split; [intros w0; unfold loader_section; rewrite Hb; reflexivity |].
    destruct (init_tracked doc) as (_ & _ & _ & _ & _ & _ & Hh & _ & _ & _ & Hc).
    rewrite (images_ready_nil doc Hb) in Hh, Hc. cbn [andb] in Hh.
    split; [exact Hh |]. split.
    + intros el Hp. destruct (run_grow doc evs (init doc) el "hidden") as [Hm _].
      apply Hm. apply (Hc el Hp). right. reflexivity.
    + apply no_gate_run. exact Hb.
Qed.

Lemma loader_gate_witness :
  let w := run sample_page [EvImgError 5] (init sample_page) in
  signals w = [(4, Fulfilled); (5, Fulfilled)]
  /\ raceP w = Some Fulfilled
  /\ "hidden" ∈ classList_of 3 w
  /\ raceP (run bare_page [] (init bare_page)) = None.
Proof.
  intros w.
  destruct (loader_gate sample_page [EvImgError 5]) as (H1 & _).
  destruct (loader_gate bare_page []) as (_ & H2).
  destruct H1 as (Hs & _ & Hr & Hh); [discriminate |].
  destruct (H2 eq_refl) as (_ & _ & _ & Hn & _).
  assert (raceP w = Some Fulfilled) as Hr'.
  { subst w. rewrite Hr. unfold all_fulfilled. rewrite Hs. reflexivity. }
  split; [exact Hs |]. split; [exact Hr' |]. split; [| exact Hn].
  apply (Hh 3 eq_refl); [| exact Hr'].
  cbn. apply not_elem_of_nil.
Defined.

(** ** Dismissal and removal of the loader *)

Section Removal.
Variable doc : Document.

(** The writes of a callback that is not a frame callback. *)
Lemma run_task_log t w :
  is_frame_task t = false ->
  log (run_task doc t w) = log w ++ map (λ m, (now w, m)) (task_writes doc t).
Proof.
  destruct t; try discriminate; intros _; cbn [run_task task_writes].
  - destruct (titleText doc); [reflexivity | symmetry; apply app_nil_r].
  - destruct (titleText doc); [reflexivity | symmetry; apply app_nil_r].
  - destruct (pageLoader doc); [reflexivity | symmetry; apply app_nil_r].
  - symmetry. apply app_nil_r.
Qed.

Lemma times_of_app k w w' new :
  log w' = log w ++ new ->
  times_of k w' =
    times_of k w ++ map fst (filter (λ x, k (snd x) = true) new).
Proof.
  intros Hl. unfold times_of. rewrite Hl, filter_app, map_app. reflexivity.
Qed.

(** The tracked writes of any callback. *)
Lemma run_task_times k t w :
  (forall m, untracked m = true -> k m = false) ->
  times_of k (run_task doc t w) =
    times_of k w ++
    map fst (filter (λ x, k (snd x) = true)
               (map (λ m, (now w, m)) (task_writes doc t))).
Proof.
  intros Hk. destruct (is_frame_task t) eqn:Hf.
  - rewrite (quiet_times_of k _ _ Hk (frame_task_quiet doc t w Hf)).
    destruct t; try discriminate; cbn; rewrite app_nil_r; reflexivity.
  - apply times_of_app. apply run_task_log. exact Hf.
Qed.

Lemma run_task_detached t w :
  detached (run_task doc t w) =
    match t, pageLoader doc with
    | TRemoveOverlay, Some el => {[el]} ∪ detached w
    | _, _ => detached w
    end.
Proof.
  destruct t as [| | | | | | e]; cbn [run_task].
  - destruct (titleEl doc), (pageLoader doc); reflexivity.
  - destruct (titleText doc), (pageLoader doc); reflexivity.
  - destruct (titleText doc), (pageLoader doc); reflexivity.
  - destruct (pageLoader doc); reflexivity.
  - destruct (pageLoader doc); reflexivity.
  - destruct (updateVisuals_quiet doc w) as (_ & _ & _ & _ & _ & -> & _).
    destruct (pageLoader doc); reflexivity.
  - destruct (moveOrbs_quiet doc e w) as (_ & _ & _ & _ & _ & -> & _).
    destruct (pageLoader doc); reflexivity.
Qed.

Lemma removeLoader_idem w :
  removeLoader doc (removeLoader doc w) = removeLoader doc w.
Proof.
  destruct (removeLoader_cases doc w) as [E | (el & Hp & Hh & E)];
    [rewrite !E; reflexivity |].
  rewrite E. unfold removeLoader at 1. rewrite Hp.
  unfold classList_contains.
  replace (classList_of el (setTimeout TRemoveOverlay 900
                              (classList_add el "hidden" w)))
    with (classList_of el (classList_add el "hidden" w)) by reflexivity.
  rewrite bool_decide_eq_true_2 by apply classList_add_has. reflexivity.
Qed.

Lemma removeLoader_first w el :
  pageLoader doc = Some el -> "hidden" ∉ classList_of el w ->
  removeLoader doc w =
    (w |> classList_add el "hidden" |> setTimeout TRemoveOverlay 900).
Proof.
  intros Hp Hh. unfold removeLoader, classList_contains. rewrite Hp.
  rewrite bool_decide_eq_false_2 by exact Hh. reflexivity.
Qed.

Lemma removeLoader_hidden w el :
  pageLoader doc = Some el -> "hidden" ∈ classList_of el w ->
  removeLoader doc w = w.
Proof.
  intros Hp Hh. unfold removeLoader, classList_contains. rewrite Hp.
  rewrite bool_decide_eq_true_2 by exact Hh. reflexivity.
Qed.

Lemma removal_inv_init : removal_inv doc (init doc).
Proof.
  destruct (init_tracked doc)
    as (_ & D & _ & _ & _ & T & Hh & Hm & _ & _ & Hc).
  unfold removal_inv, pending. rewrite Hh, Hm, D, T.
  destruct (images_ready doc && loader_shown doc) eqn:Hd.
  - right. apply andb_true_iff in Hd. destruct Hd as [Hr Hs].
    unfold loader_shown in Hs.
    destruct (pageLoader doc) as [el |] eqn:Hp; [| discriminate].
    exists 0, el. split; [reflexivity |]. split; [reflexivity |].
    split; [apply (Hc el eq_refl); right; exact Hr |]. left.
    destruct (hero_present doc), (bgImgs doc); auto.
  - left. destruct (hero_present doc), (bgImgs doc); auto.
Qed.

Lemma removal_inv_jobs w : removal_inv doc w -> removal_inv doc (promise_jobs doc w).
Proof.
  intros Hinv.
  destruct (promise_jobs_result doc w) as [Hi | Hr Hw Hn | el Hr Hw Hp Hn].
  - exact Hinv.
  - exact Hinv.
  - set (w3 := w |> set_raceP (Some Fulfilled) |> classList_add el "hidden"
                 |> setTimeout TRemoveOverlay 900).
    assert (log w3 = log w ++ [(now w, AddClass el "hidden")]) as El
      by reflexivity.
    assert (timers w3 = timers w ++ [(now w + 900, TRemoveOverlay)]) as Et
      by reflexivity.
    destruct Hinv as [(Hh & Hpend & Hm & Hd) | (t & el' & Hp' & _ & Hin & _)].
    + right. exists (now w), el. split; [exact Hp |].
      split; [rewrite (times_of_snoc is_hide w w3 _ _ El), Hh; reflexivity |].
      split; [apply (classList_add_has el "hidden") |]. left.
      split; [rewrite (pending_snoc is_remove w w3 _ _ Et), Hpend; reflexivity |].
      split; [| exact Hd].
      rewrite (times_of_snoc is_removal w w3 _ _ El), Hm. reflexivity.
    + rewrite Hp in Hp'. inversion Hp'; subst. contradiction.
Qed.

Lemma removal_inv_dispatch e w :
  queues_ok w -> removal_inv doc w -> removal_inv doc (dispatch doc e w).
Proof.
  intros Hq Hinv.
  assert (forall w', same_tracked w w' -> classes_grow ["visible"; "floaty"] w w' ->
            removal_inv doc w') as Hsame.
  { intros w' Hs Hg. pose proof (same_tracked_pending is_remove _ _ Hs) as Hp.
    destruct Hs as (_ & _ & _ & _ & _ & D & Hh & Hm & _).
    unfold removal_inv. rewrite D, Hh, Hm, Hp.
    destruct Hinv as [H | (t & el & Hpl & Ht & Hin & H)]; [left; exact H |].
    right. exists t, el. repeat (split; [assumption |]).
    split; [apply (Hg el "hidden"); exact Hin | exact H]. }
  pose proof (dispatch_quiet doc e w Hq) as Hquiet.
  pose proof (dispatch_grow doc e w) as Hgrow.
  destruct e; try (apply Hsame; [apply quiet_tracked, Hquiet | exact Hgrow]);
    clear Hquiet; unfold dispatch in *.
  - (* the next timer *)
    destruct (fire_timer_split doc w Hq)
      as [[_ E] | (d & t & l1 & l2 & Hts & _ & Hd & E)];
      rewrite E in *; clear E; [exact Hinv |].
    set (w1 := w |> set_timers (l1 ++ l2) |> set_now d) in *.
    assert (timers (run_task doc t w1) = (l1 ++ l2) ++ spawned doc t w1) as Ht'
      by (rewrite run_task_timers; reflexivity).
    destruct (pending_fired is_remove w (run_task doc t w1) d t l1 l2 _ Hts Ht')
      as (Pn & Py & Pne).
    rewrite spawned_pending in Pn, Py by reflexivity.
    pose proof (run_task_times is_hide t w1 untracked_not_hide) as Eh.
    pose proof (run_task_times is_removal t w1 untracked_not_removal) as Em.
    pose proof (run_task_detached t w1) as Ed.
    rewrite (times_of_same is_hide w w1 eq_refl) in Eh.
    rewrite (times_of_same is_removal w w1 eq_refl) in Em.
    change (detached w1) with (detached w) in Ed.
    change (now w1) with d in Eh, Em.
    unfold removal_inv. rewrite Eh, Em, Ed. clear Eh Em Ed.
    destruct (is_remove t) eqn:Hr.
    + destruct t; try discriminate. cbn [task_writes].
      destruct Hinv as [(_ & Hp & _) | (t0 & el & Hpl & Hh & Hin & H)];
        [exfalso; apply (Pne eq_refl); exact Hp |].
      destruct H as [(Hp & Hm & Hdet) | (Hp & _)];
        [| exfalso; apply (Pne eq_refl); exact Hp].
      destruct (Py eq_refl _ Hp) as (Ex & ->). inversion Ex; subst d.
      right. exists t0, el. rewrite Hpl, Hh, Hm, Hdet. cbn.
      repeat (split; [reflexivity |]).
      split; [apply (Hgrow el "hidden"); exact Hin |]. right.
      rewrite union_empty_r_L. auto.
    + rewrite (Pn eq_refl), app_nil_r.
      assert (map fst (filter (λ x, is_hide (snd x) = true)
                (map (λ m, (d, m)) (task_writes doc t))) = []
              /\ map fst (filter (λ x, is_removal (snd x) = true)
                   (map (λ m, (d, m)) (task_writes doc t))) = []) as [-> ->].
      { destruct t; try discriminate; cbn [task_writes];
          try destruct (titleText doc); auto. }
      rewrite !app_nil_r.
      replace (match t with
               | TRemoveOverlay => match pageLoader doc with
                                   | Some el => {[el]} ∪ detached w
                                   | None => detached w
                                   end
               | _ => detached w
               end) with (detached w)
        by (destruct t; try discriminate; reflexivity).
      destruct Hinv as [H | (t0 & el & Hpl & Ht & Hin & H)]; [left; exact H |].
      right. exists t0, el. repeat (split; [assumption |]).
      split; [apply (Hgrow el "hidden"); exact Hin | exact H].
  - (* time passes *)
    unfold wait. destruct (_ && _); exact Hinv.
  - exact Hinv.
  - exact Hinv.
Qed.

Lemma removal_inv_run evs : removal_inv doc (run doc evs (init doc)).
Proof.
  enough (queues_ok (run doc evs (init doc))
          /\ removal_inv doc (run doc evs (init doc))) as [_ H] by exact H.
  apply (run_invariant doc (λ w, queues_ok w /\ removal_inv doc w)).
  - split; [apply (queues_ok_run doc []) | apply removal_inv_init].
  - intros e w [Hq Hr]. split; [apply jobs_queues, dispatch_queues, Hq |].
    apply removal_inv_jobs, removal_inv_dispatch; assumption.
Qed.

End Removal.

(** C6.  Dismissal is idempotent: a second call of [removeLoader] changes
    nothing, so any run after two calls is the run after one.  The first
    call on a loader that is not hidden adds the class [hidden] at once and
    starts one 900ms timer, whose callback removes the loader; a call on a
    hidden loader does nothing.  Along every run the loader is hidden at
    most once, say at time [t], and removed at most once, at [t + 900]. *)
Theorem removeLoader_idempotent (doc : Document) :
  (forall w, removeLoader doc (removeLoader doc w) = removeLoader doc w)
  /\ (forall w evs,
        run doc evs (removeLoader doc (removeLoader doc w)) =
        run doc evs (removeLoader doc w))
  /\ (forall w el,
        pageLoader doc = Some el -> "hidden" ∉ classList_of el w ->
        let w' := removeLoader doc w in
        "hidden" ∈ classList_of el w'
        /\ log w' = log w ++ [(now w, AddClass el "hidden")]
        /\ timers w' = timers w ++ [(now w + 900, TRemoveOverlay)]
        /\ detached w' = detached w)
  /\ (forall w el,
        pageLoader doc = Some el -> "hidden" ∈ classList_of el w ->
        removeLoader doc w = w)
  /\ (forall w el,
        pageLoader doc = Some el ->
        run_task doc TRemoveOverlay w = node_remove el w)
  /\ (forall evs, removal_inv doc (run doc evs (init doc))).
Proof.
  split; [apply removeLoader_idem |].
  split; [intros w evs; rewrite removeLoader_idem; reflexivity |].
  split.
  { intros w el Hp Hh w'. subst w'. rewrite (removeLoader_first doc w el Hp Hh).
    split; [apply (classList_add_has el "hidden") |]. auto. }
  split; [apply removeLoader_hidden |].
  split; [intros w el Hp; cbn [run_task]; rewrite Hp; reflexivity |].
  apply removal_inv_run.
Qed.

Lemma removeLoader_idempotent_witness :
  let w := boot sample_page in
  "hidden" ∈ classList_of 3 (removeLoader sample_page w)
  /\ removeLoader sample_page (removeLoader sample_page w) =
     removeLoader sample_page w.
Proof.
  intros w.
  destruct (removeLoader_idempotent sample_page) as (H1 & _ & H3 & _).
  split; [| apply H1].
  assert ("hidden" ∉ classList_of 3 w) as Hh.
  { change (classList_of 3 w) with (@nil string). apply not_elem_of_nil. }
  destruct (H3 w 3 eq_refl Hh) as (Hin & _). exact Hin.
Defined.

(** ** The intro sequence *)

Section Intro.
Variable doc : Document.

Lemma event_timer_dec (e : event) : e = EvTimer \/ e <> EvTimer.
Proof. destruct e; auto; right; discriminate. Qed.

Lemma hero_present_spec :
  hero_present doc = true <->
  exists t x, titleEl doc = Some t /\ titleText doc = Some x.
Proof.
  unfold hero_present. destruct (titleEl doc), (titleText doc); split;
    try discriminate; eauto; intros (t & x & ? & ?); discriminate.
Qed.

Lemma intro_init :
  if hero_present doc then intro_inv (init doc) else no_intro (init doc).
Proof.
  destruct (init_tracked doc) as (_ & _ & _ & _ & _ & T & _ & _ & Hs & Hf & _).
  unfold intro_inv, no_intro, pending. rewrite T, Hs, Hf.
  destruct (hero_present doc), (bgImgs doc),
    (images_ready doc && loader_shown doc); auto 10.
Qed.

(** The promise reactions start no intro timer and write nothing of the
    intro. *)
Lemma jobs_intro w :
  pending is_shimmer (promise_jobs doc w) = pending is_shimmer w
  /\ pending is_floaty (promise_jobs doc w) = pending is_floaty w
  /\ times_of is_sweep (promise_jobs doc w) = times_of is_sweep w
  /\ times_of is_float (promise_jobs doc w) = times_of is_float w.
Proof.
  destruct (promise_jobs_result doc w) as [Hi | Hr Hw Hn | el Hr Hw Hp Hn];
    [auto | auto |].
  set (w3 := w |> set_raceP (Some Fulfilled) |> classList_add el "hidden"
               |> setTimeout TRemoveOverlay 900).
  assert (log w3 = log w ++ [(now w, AddClass el "hidden")]) as El
    by reflexivity.
  assert (timers w3 = timers w ++ [(now w + 900, TRemoveOverlay)]) as Et
    by reflexivity.
  rewrite (pending_snoc is_shimmer w w3 _ _ Et),
    (pending_snoc is_floaty w w3 _ _ Et),
    (times_of_snoc is_sweep w w3 _ _ El),
    (times_of_snoc is_float w w3 _ _ El). cbn. rewrite !app_nil_r. auto.
Qed.

(** The intro part of a task of the browser that is not a timer. *)
Lemma dispatch_intro_other e w :
  queues_ok w -> e <> EvTimer ->
  pending is_shimmer (dispatch doc e w) = pending is_shimmer w
  /\ pending is_floaty (dispatch doc e w) = pending is_floaty w
  /\ times_of is_sweep (dispatch doc e w) = times_of is_sweep w
  /\ times_of is_float (dispatch doc e w) = times_of is_float w.
Proof.
  intros Hq He. pose proof (dispatch_quiet doc e w Hq) as Hquiet.
  assert (forall w', same_tracked w w' ->
            pending is_shimmer w' = pending is_shimmer w
            /\ pending is_floaty w' = pending is_floaty w
            /\ times_of is_sweep w' = times_of is_sweep w
            /\ times_of is_float w' = times_of is_float w) as Hsame.
  { intros w' Hs. rewrite !(same_tracked_pending _ _ _ Hs).
    destruct Hs as (_ & _ & _ & _ & _ & _ & _ & _ & -> & ->). auto. }
  destruct e; try congruence;
    try (apply Hsame, quiet_tracked, Hquiet); unfold dispatch.
  - unfold wait. destruct (_ && _); auto.
  - auto.
  - auto.
Qed.

Lemma intro_inv_handle e w :
  hero_present doc = true ->
  queues_ok w -> intro_inv w -> intro_inv (handle doc e w).
Proof.
  intros Hhero Hq Hinv. unfold handle.
  destruct (jobs_intro (dispatch doc e w)) as (J1 & J2 & J3 & J4).
  unfold intro_inv. rewrite J1, J2, J3, J4. clear J1 J2 J3 J4.
  destruct (event_timer_dec e) as [-> | Hne];
    [| destruct (dispatch_intro_other e w Hq Hne) as (-> & -> & -> & ->);
       exact Hinv].
  unfold dispatch.
  destruct (fire_timer_split doc w Hq)
    as [[_ ->] | (d & t & l1 & l2 & Hts & _ & Hd & ->)]; [exact Hinv |].
  set (w1 := w |> set_timers (l1 ++ l2) |> set_now d).
  assert (timers (run_task doc t w1) = (l1 ++ l2) ++ spawned doc t w1) as Ht'
    by (rewrite run_task_timers; reflexivity).
  destruct (pending_fired is_shimmer w (run_task doc t w1) d t l1 l2 _ Hts Ht')
    as (Sn & Sy & Sne).
  destruct (pending_fired is_floaty w (run_task doc t w1) d t l1 l2 _ Hts Ht')
    as (Fn & Fy & Fne).
  rewrite spawned_pending in Sn, Sy by reflexivity.
  pose proof (run_task_times doc is_sweep t w1 untracked_not_sweep) as Es.
  pose proof (run_task_times doc is_float t w1 untracked_not_float) as Ef.
  rewrite (times_of_same is_sweep w w1 eq_refl) in Es.
  rewrite (times_of_same is_float w w1 eq_refl) in Ef.
  change (now w1) with d in Es, Ef. rewrite Es, Ef. clear Es Ef.
  apply hero_present_spec in Hhero. destruct Hhero as (tt & x & Htt & Hx).
  unfold spawned, task_writes in *. rewrite Hx in *. change (now w1) with d in *.
  destruct t as [| | | | | | ev].
  - (* a frame callback *)
    rewrite (Sn eq_refl), (Fn eq_refl). cbn. rewrite !app_nil_r. exact Hinv.
  - (* the sweep *)
    destruct Hinv as [(Hs & Hf & Hw & Hl) | [(Hs & _) | (Hs & _)]];
      [| exfalso; apply (Sne eq_refl); exact Hs
       | exfalso; apply (Sne eq_refl); exact Hs].
    destruct (Sy eq_refl _ Hs) as (Ex & ->). inversion Ex; subst d.
    rewrite (Fn eq_refl), Hf, Hw, Hl. right. left. cbn. auto.
  - (* the float *)
    destruct Hinv as [(_ & Hf & _) | [(Hs & Hf & Hw & Hl) | (_ & Hf & _)]];
      [exfalso; apply (Fne eq_refl); exact Hf |
       | exfalso; apply (Fne eq_refl); exact Hf].
    destruct (Fy eq_refl _ Hf) as (Ex & ->). inversion Ex; subst d.
    rewrite (Sn eq_refl), Hs, Hw, Hl. right. right. cbn. auto.
  - rewrite (Sn eq_refl), (Fn eq_refl). cbn. rewrite !app_nil_r.
    destruct (pageLoader doc); cbn; rewrite ?app_nil_r; exact Hinv.
  - rewrite (Sn eq_refl), (Fn eq_refl). cbn. rewrite !app_nil_r. exact Hinv.
  - rewrite (Sn eq_refl), (Fn eq_refl). cbn. rewrite !app_nil_r. exact Hinv.
  - rewrite (Sn eq_refl), (Fn eq_refl). cbn. rewrite !app_nil_r. exact Hinv.
Qed.

Lemma no_intro_handle e w :
  queues_ok w -> no_intro w -> no_intro (handle doc e w).
Proof.
  intros Hq Hinv. unfold handle.
  destruct (jobs_intro (dispatch doc e w)) as (J1 & J2 & J3 & J4).
  unfold no_intro. rewrite J1, J2, J3, J4. clear J1 J2 J3 J4.
  destruct (event_timer_dec e) as [-> | Hne];
    [| destruct (dispatch_intro_other e w Hq Hne) as (-> & -> & -> & ->);
       exact Hinv].
  unfold dispatch.
  destruct (fire_timer_split doc w Hq)
    as [[_ ->] | (d & t & l1 & l2 & Hts & _ & Hd & ->)]; [exact Hinv |].
  set (w1 := w |> set_timers (l1 ++ l2) |> set_now d).
  assert (timers (run_task doc t w1) = (l1 ++ l2) ++ spawned doc t w1) as Ht'
    by (rewrite run_task_timers; reflexivity).
  destruct (pending_fired is_shimmer w (run_task doc t w1) d t l1 l2 _ Hts Ht')
    as (Sn & _ & Sne).
  destruct (pending_fired is_floaty w (run_task doc t w1) d t l1 l2 _ Hts Ht')
    as (Fn & _ & Fne).
  rewrite spawned_pending in Sn by reflexivity.
  pose proof (run_task_times doc is_sweep t w1 untracked_not_sweep) as Es.
  pose proof (run_task_times doc is_float t w1 untracked_not_float) as Ef.
  rewrite (times_of_same is_sweep w w1 eq_refl) in Es.
  rewrite (times_of_same is_float w w1 eq_refl) in Ef.
  rewrite Es, Ef. clear Es Ef.
  destruct Hinv as (Hs & Hf & Hw & Hl).
  destruct (is_shimmer t) eqn:H1; [exfalso; apply (Sne eq_refl); exact Hs |].
  destruct (is_floaty t) eqn:H2; [exfalso; apply (Fne eq_refl); exact Hf |].
  rewrite (Sn eq_refl), (Fn eq_refl), Hs, Hf, Hw, Hl.
  unfold spawned, task_writes.
  destruct t; try discriminate; cbn; try destruct (pageLoader doc);
    try destruct (titleText doc); cbn; auto.
Qed.

Lemma intro_run evs :
  if hero_present doc then intro_inv (run doc evs (init doc))
  else no_intro (run doc evs (init doc)).
Proof.
  pose proof intro_init as Hi. destruct (hero_present doc) eqn:Hh.
  - enough (queues_ok (run doc evs (init doc))
            /\ intro_inv (run doc evs (init doc))) as [_ H] by exact H.
    apply (run_invariant doc (λ w, queues_ok w /\ intro_inv w)).
    + split; [apply (queues_ok_run doc []) | exact Hi].
    + intros e w [Hq Hr]. split; [apply jobs_queues, dispatch_queues, Hq |].
      apply intro_inv_handle; assumption.
  - enough (queues_ok (run doc evs (init doc))
            /\ no_intro (run doc evs (init doc))) as [_ H] by exact H.
    apply (run_invariant doc (λ w, queues_ok w /\ no_intro w)).
    + split; [apply (queues_ok_run doc []) | exact Hi].
    + intros e w [Hq Hr]. split; [apply jobs_queues, dispatch_queues, Hq |].
      apply no_intro_handle; assumption.
Qed.

End Intro.

Section Title.
Variable doc : Document.

Lemma run_tasks_grow l w :
  classes_grow ["visible"; "floaty"] w (fold_left (λ w t, run_task doc t w) l w).
Proof.
  apply (fold_left_inv (classes_grow ["visible"; "floaty"] w));
    [apply classes_grow_refl |].
  intros w' t H. eapply classes_grow_trans; [exact H | apply run_task_grow].
Qed.

(** A frame whose queue holds the title callback makes the title visible. *)
Lemma frame_title l w t :
  titleEl doc = Some t -> In TTitleVisible l ->
  "visible" ∈ classList_of t (fold_left (λ w t, run_task doc t w) l w).
Proof.
  intros Ht. revert w. induction l as [| a l IH]; intros w Hin; [destruct Hin |].
  cbn [fold_left]. destruct Hin as [-> | Hin]; [| apply IH; exact Hin].
  apply (run_tasks_grow l). cbn [run_task]. rewrite Ht.
  apply classList_add_has.
Qed.

Lemma handle_raf_frame rects w : raf (handle doc (EvFrame rects) w) = [].
Proof.
  unfold handle. destruct (jobs_scroll_fields doc (dispatch doc (EvFrame rects) w))
    as (_ & -> & _).
  unfold dispatch, animation_frame.
  match goal with |- context [fold_left ?g ?l ?w0] =>
    destruct (run_tasks_shape doc l w0)
      as (C & D & S & M & P & T & L & K & ->) end.
  reflexivity.
Qed.

Lemma handle_raf_other e w :
  is_frame e = false ->
  List.filter is_title (raf (handle doc e w)) = List.filter is_title (raf w).
Proof.
  intros Hf. unfold handle.
  destruct (jobs_scroll_fields doc (dispatch doc e w)) as (_ & -> & _).
  destruct e; try discriminate; unfold dispatch.
  - unfold onScroll. cbv zeta. destruct (attached OnScroll _); [| reflexivity].
    destruct (negb _); wsimpl; [| reflexivity].
    rewrite List.filter_app. apply app_nil_r.
  - destruct (attached OnResize _); reflexivity.
  - unfold onMouseMove. destruct (attached OnMouseMove w); [| reflexivity].
    destruct (negb _); wsimpl; [| reflexivity].
    rewrite List.filter_app. apply app_nil_r.
  - destruct (fire_timer_cases doc w) as [-> | (d & t & rest & _ & _ & ->)];
      [reflexivity |]. rewrite run_task_raf. reflexivity.
  - unfold wait. destruct (_ && _); reflexivity.
  - reflexivity.
  - reflexivity.
  - unfold deliver. destruct (observed w); [| reflexivity].
    match goal with |- context [observer_callback ?es ?w0] =>
      destruct (observer_callback_shape es w0) as (C & O & L & ->) end.
    reflexivity.
Qed.

Lemma handle_frame_title rects w t :
  titleEl doc = Some t -> In TTitleVisible (raf w) ->
  "visible" ∈ classList_of t (handle doc (EvFrame rects) w).
Proof.
  intros Ht Hin. unfold handle.
  apply (jobs_grow doc). unfold dispatch, animation_frame.
  apply frame_title; assumption.
Qed.

(** The title callback waits for the first frame, which makes the title
    visible. *)
Lemma title_run evs :
  let w := run doc evs (init doc) in
  if hero_present doc
  then (if existsb is_frame evs
        then List.filter is_title (raf w) = []
             /\ (forall t, titleEl doc = Some t -> "visible" ∈ classList_of t w)
        else List.filter is_title (raf w) = [TTitleVisible])
  else List.filter is_title (raf w) = [].
Proof.
  cbv zeta. induction evs as [| e evs IH] using rev_ind.
  - cbn [run fold_left existsb].
    destruct (init_fields doc) as (_ & -> & _).
    destruct (hero_present doc); reflexivity.
  - rewrite run_snoc, existsb_app. cbn [existsb]. rewrite orb_false_r.
    set (w := run doc evs (init doc)) in *.
    destruct (is_frame e) eqn:Hf.
    + rewrite orb_true_r. destruct e; try discriminate.
      rewrite handle_raf_frame.
      destruct (hero_present doc); [| reflexivity].
      split; [reflexivity |]. intros t Ht.
      destruct (existsb is_frame evs).
      * destruct IH as [_ IH].
        apply (handle_grow doc (EvFrame rects) w). apply IH. exact Ht.
      * apply handle_frame_title; [exact Ht |].
        assert (In TTitleVisible (List.filter is_title (raf w))) as Hin
          by (rewrite IH; left; reflexivity).
        apply List.filter_In in Hin. apply Hin.
    + rewrite orb_false_r, (handle_raf_other e w Hf).
      destruct (hero_present doc); [| exact IH].
      destruct (existsb is_frame evs); [| exact IH].
      destruct IH as [IH1 IH2]. split; [exact IH1 |].
      intros t Ht. apply (handle_grow doc e w). apply IH2. exact Ht.
Qed.

End Title.

(** C9.  With both title elements on the page the intro makes three staged
    changes: the title callback waits in the frame queue for the first frame,
    which adds the class [visible] to the title; the background position is
    written once, at 400, by a timer that then starts the float timer; and
    the class [floaty] is added once, at 400 + 1600 = 2000.  With a title
    element missing no callback and no timer of the intro ever exists and
    nothing of the intro is written. *)
Theorem intro_sequence (doc : Document) (evs : list event) :
  let w := run doc evs (init doc) in
  (forall t x, titleEl doc = Some t -> titleText doc = Some x ->
     (if existsb is_frame evs
      then List.filter is_title (raf w) = [] /\ "visible" ∈ classList_of t w
      else List.filter is_title (raf w) = [TTitleVisible])
     /\ ((pending is_shimmer w = [(400, TShimmer)] /\ pending is_floaty w = []
          /\ times_of is_sweep w = [] /\ times_of is_float w = []
          /\ now w <= 400)
         \/ (pending is_shimmer w = []
             /\ pending is_floaty w = [(400 + 1600, TFloaty)]
             /\ times_of is_sweep w = [400] /\ times_of is_float w = []
             /\ now w <= 2000)
         \/ (pending is_shimmer w = [] /\ pending is_floaty w = []
             /\ times_of is_sweep w = [400]
             /\ times_of is_float w = [400 + 1600]))
     /\ (forall w0, run_task doc TTitleVisible w0 = classList_add t "visible" w0)
     /\ (forall w0, run_task doc TShimmer w0 =
           (w0 |> style_set x "backgroundPosition" (CssText "120% 0")
               |> setTimeout TFloaty 1600))
     /\ (forall w0, run_task doc TFloaty w0 = classList_add x "floaty" w0))
  /\ (titleEl doc = None \/ titleText doc = None ->
      List.filter is_title (raf w) = []
      /\ pending is_shimmer w = [] /\ pending is_floaty w = []
      /\ times_of is_sweep w = [] /\ times_of is_float w = []).
Proof.
  intros w. subst w.
  pose proof (title_run doc evs) as Ht. pose proof (intro_run doc evs) as Hi.
  destruct (queues_ok_run doc evs) as [Hfut _]. rewrite Forall_forall in Hfut.
  cbv zeta in Ht. split.
  - intros t x Et Ex.
    assert (hero_present doc = true) as Hh
      by (unfold hero_present; rewrite Et, Ex; reflexivity).
    rewrite Hh in Ht, Hi. split.
    { destruct (existsb is_frame evs); [| exact Ht].
      destruct Ht as [H1 H2]. split; [exact H1 | apply H2; exact Et]. }
    split.
    { destruct Hi as [(Hs & Hf & Hw & Hl) | [(Hs & Hf & Hw & Hl) | H]].
      - left. repeat (split; [assumption |]).
        assert ((400, TShimmer) ∈ pending is_shimmer (run doc evs (init doc)))
          as Hin by (rewrite Hs; apply list_elem_of_here).
        unfold pending in Hin. apply list_elem_of_filter in Hin.
        apply (Hfut _ (proj2 Hin)).
      - right. left. repeat (split; [assumption |]).
        assert ((2000, TFloaty) ∈ pending is_floaty (run doc evs (init doc)))
          as Hin by (rewrite Hf; apply list_elem_of_here).
        unfold pending in Hin. apply list_elem_of_filter in Hin.
        apply (Hfut _ (proj2 Hin)).
      - right. right. exact H. }
    cbn [run_task]. rewrite Et, Ex. auto.
  - intros Hn.
    assert (hero_present doc = false) as Hh.
    { unfold hero_present. destruct Hn as [-> | ->];
        [| destruct (titleEl doc)]; reflexivity. }
    rewrite Hh in Ht, Hi. split; [exact Ht | exact Hi].
Qed.

Lemma intro_sequence_witness :
  let w := run sample_page [] (init sample_page) in
  List.filter is_title (raf w) = [TTitleVisible]
  /\ (forall w0, run_task sample_page TFloaty w0 = classList_add 2 "floaty" w0)
  /\ pending is_shimmer (run bare_page [EvTimer] (init bare_page)) = [].
Proof.
  intros w.
  destruct (intro_sequence sample_page []) as (H1 & _).
  destruct (intro_sequence bare_page [EvTimer]) as (_ & H2).
  destruct (H1 1 2 eq_refl eq_refl) as (Ht & _ & _ & _ & Hf).
  destruct (H2 (or_introl eq_refl)) as (_ & Hs & _).
  split; [exact Ht |]. split; [exact Hf | exact Hs].
Defined.

(** ** The reveal trigger *)

Section Reveal.
Variable doc : Document.

Lemma unobserve_observing el x w :
  observing el (unobserve x w) <-> observing el w /\ el <> x.
Proof.
  unfold observing, unobserve. destruct (observed w) as [l |] eqn:E; wsimpl.
  - split.
    + intros (l' & Hl & Hin). inversion Hl; subst.
      apply list_elem_of_filter in Hin. destruct Hin as [Hne Hin]. eauto.
    + intros [(l' & Hl & Hin) Hne]. inversion Hl; subst.
      eexists. split; [reflexivity |]. apply list_elem_of_filter. auto.
  - rewrite E. split; [intros (l' & Hl & _) | intros [(l' & Hl & _) _]];
      discriminate.
Qed.

Lemma observing_dec el w : observing el w \/ ~ observing el w.
Proof.
  unfold observing. destruct (observed w) as [l |].
  - destruct (decide (el ∈ l)) as [Hin | Hn]; [left; eauto |].
    right. intros (l' & E & Hin). inversion E; subst. contradiction.
  - right. intros (l' & E & _). discriminate.
Qed.

Lemma observing_same el w w' : observed w' = observed w ->
  observing el w' <-> observing el w.
Proof. unfold observing. intros ->. reflexivity. Qed.

(** One entry of a delivery. *)
Lemma entry_step entry w el :
  let w' := if isIntersecting entry
            then w |> classList_add (target entry) "visible"
                   |> unobserve (target entry)
            else w in
  (observing el w' -> observing el w)
  /\ (isIntersecting entry = true ->
      "visible" ∈ classList_of (target entry) w'
      /\ ~ observing (target entry) w')
  /\ ((target entry = el -> isIntersecting entry = false) ->
      classList_of el w' = classList_of el w
      /\ writes_to el w' = writes_to el w
      /\ (observing el w -> observing el w')).
Proof.
  cbv zeta. destruct (isIntersecting entry).
  - set (w1 := classList_add (target entry) "visible" w).
    assert (forall x, observing x w1 <-> observing x w) as Ho
      by (intros x; apply observing_same; reflexivity).
    split; [intros H; apply unobserve_observing in H; apply Ho, H |].
    split.
    + intros _. split.
      * replace (classList_of (target entry) (unobserve (target entry) w1))
          with (classList_of (target entry) w1)
          by (unfold unobserve; destruct (observed w1); reflexivity).
        apply classList_add_has.
      * intros H. apply unobserve_observing in H. destruct H as [_ H].
        apply H. reflexivity.
    + intros Hne'.
      assert (target entry <> el) as Hne
        by (intros E; specialize (Hne' E); discriminate).
      assert (classes (unobserve (target entry) w1) = classes w1
              /\ log (unobserve (target entry) w1) = log w1) as [Ec El]
        by (unfold unobserve; destruct (observed w1); auto).
      split.
      { unfold classList_of at 1. rewrite Ec.
        fold (classList_of el w1). subst w1. rewrite classList_of_add.
        destruct (decide (target entry = el)); [contradiction | reflexivity]. }
      split.
      { unfold writes_to. rewrite El. subst w1. wsimpl.
        rewrite filter_app, filter_cons, filter_nil. cbn [snd written].
        destruct (decide (target entry = el)); [contradiction |].
        apply app_nil_r. }
      intros H. apply unobserve_observing. split; [apply Ho, H | congruence].
  - split; [auto |]. split; [discriminate | auto].
Qed.

(** A delivery: what is observed after was observed before; an intersecting
    entry makes its target visible and takes it out of observation; an
    element with no entry is left alone. *)
Lemma observer_callback_spec es w el :
  let w' := observer_callback es w in
  (observing el w' -> observing el w)
  /\ ((exists entry, In entry es /\ target entry = el
                     /\ isIntersecting entry = true) ->
      "visible" ∈ classList_of el w' /\ ~ observing el w')
  /\ ((forall entry, In entry es -> target entry = el ->
                      isIntersecting entry = false) ->
      classList_of el w' = classList_of el w
      /\ writes_to el w' = writes_to el w
      /\ (observing el w -> observing el w')).
Proof.
  cbv zeta. unfold observer_callback. revert w.
  induction es as [| entry es IH]; intros w; cbn [fold_left].
  - split; [auto |]. split; [intros (entry & [] & _) | auto].
  - match goal with |- context [fold_left ?g es ?w1] =>
      set (w1' := w1); destruct (IH w1') as (I1 & I2 & I3) end.
    destruct (entry_step entry w el) as (S1 & _ & S3). cbv zeta in S1, S3.
    fold w1' in S1, S3.
    split; [intros H; apply S1, I1, H |]. split.
    + intros (en & [<- | Hin] & Ht & Hi).
      * destruct (entry_step entry w el) as (_ & S2 & _). cbv zeta in S2.
        fold w1' in S2. rewrite Ht in S2. destruct (S2 Hi) as [Hv Hn].
        split.
        -- apply (observer_callback_grow es w1'). exact Hv.
        -- intros H. apply Hn, I1, H.
      * apply I2. eauto.
    + intros Hall.
      destruct (S3 (Hall entry (or_introl eq_refl))) as (E1 & E2 & E3).
      destruct I3 as (J1 & J2 & J3); [intros en Hin; apply Hall; right; exact Hin |].
      rewrite J1, J2, E1, E2. auto.
Qed.

Lemma jobs_observed w : observed (promise_jobs doc w) = observed w.
Proof. destruct (promise_jobs_result doc w); reflexivity. Qed.

(** Only a delivery changes what is observed. *)
Lemma handle_observed e w :
  observed (handle doc e w) =
    match e with
    | EvIntersect es => observed (deliver es w)
    | _ => observed w
    end.
Proof.
  unfold handle. rewrite jobs_observed. destruct e; unfold dispatch.
  - unfold onScroll. cbv zeta. destruct (attached OnScroll _); [| reflexivity].
    destruct (negb _); reflexivity.
  - destruct (attached OnResize _); reflexivity.
  - unfold onMouseMove. destruct (attached OnMouseMove w); [| reflexivity].
    destruct (negb _); reflexivity.
  - unfold animation_frame.
    match goal with |- context [fold_left ?g ?l ?w0] =>
      destruct (run_tasks_shape doc l w0)
        as (C & D & S & M & P & T & L & K & ->) end.
    reflexivity.
  - destruct (fire_timer_cases doc w) as [-> | (d & t & rest & _ & _ & ->)];
      [reflexivity |].
    destruct (run_task_shape doc t (w |> set_timers rest
                                      |> set_now (Nat.max (now w) d)))
      as (C & D & S & M & P & T & L & K & ->).
    reflexivity.
  - unfold wait. destruct (_ && _); reflexivity.
  - reflexivity.
  - reflexivity.
  - reflexivity.
Qed.

Lemma deliver_observing es w el :
  observing el (deliver es w) -> observing el w.
Proof.
  unfold deliver. destruct (observed w) as [l |] eqn:E; [| auto].
  apply observer_callback_spec.
Qed.

(** An element out of observation stays out. *)
Lemma handle_observing e w el :
  observing el (handle doc e w) -> observing el w.
Proof.
  intros H. assert (observing el (match e with
                                  | EvIntersect es => deliver es w
                                  | _ => w
                                  end)) as H'.
  { destruct H as (l & Hl & Hin). rewrite handle_observed in Hl.
    exists l. split; [| exact Hin]. destruct e; exact Hl. }
  destruct e; try exact H'. apply (deliver_observing _ _ _ H').
Qed.

Lemma run_observing evs w el :
  observing el (run doc evs w) -> observing el w.
Proof.
  induction evs as [| e evs IH] using rev_ind; [auto |].
  rewrite run_snoc. intros H. apply IH. apply (handle_observing _ _ _ H).
Qed.

End Reveal.

Section RevealRun.
Variable doc : Document.

Lemma observe_all l w acc :
  observed w = Some acc ->
  exists acc', observed (fold_left (λ w t, observe t w) l w) = Some acc'
    /\ (forall el, el ∈ acc' <-> el ∈ acc \/ el ∈ l).
Proof.
  revert w acc. induction l as [| t l IH]; intros w acc Hw; cbn [fold_left].
  - exists acc. split; [exact Hw |]. intros el. rewrite elem_of_nil. tauto.
  - unfold observe at 2. rewrite Hw. case_bool_decide as Hin.
    + destruct (IH w acc Hw) as (acc' & Ho & Hel). exists acc'.
      split; [exact Ho |]. intros el. rewrite Hel, elem_of_cons.
      split; [tauto |]. intros [H | [-> | H]]; auto.
    + destruct (IH (set_observed (Some (acc ++ [t])) w) (acc ++ [t]) eq_refl)
        as (acc' & Ho & Hel). exists acc'. split; [exact Ho |].
      intros el. rewrite Hel, elem_of_app, list_elem_of_singleton, elem_of_cons.
      tauto.
Qed.

(** After the handler the observer observes the reveal targets. *)
Lemma init_observing el : observing el (init doc) <-> el ∈ revealTargets doc.
Proof.
  unfold init, DOMContentLoaded.
  set (w4 := scroll_section doc
               (loader_section doc (hero_section doc (state_section (boot doc))))).
  assert (observed w4 = None) as H4.
  { subst w4. unfold scroll_section.
    assert (forall w, observed (updateVisuals doc w) = observed w) as Hu.
    { intros w.
      destruct (updateVisuals_shape doc w) as (C & D & S & M & P & T & L & K & ->).
      reflexivity. }
    assert (forall w, observed (loader_section doc w) = observed w) as Hl.
    { intros w. unfold loader_section. destruct (bgImgs doc); [| reflexivity].
      destruct (removeLoader_cases doc w) as [-> | (el' & _ & _ & ->)];
        reflexivity. }
    assert (forall w, observed (hero_section doc w) = observed w) as Hh.
    { intros w. unfold hero_section.
      destruct (titleEl doc), (titleText doc); reflexivity. }
    destruct (sunrise doc), (sunset doc); rewrite ?Hu; wsimpl;
      rewrite Hl, Hh; reflexivity. }
  unfold observing at 1.
  assert (observed (promise_jobs doc (pointer_section doc (reveal_section doc w4)))
          = observed (reveal_section doc w4)) as E.
  { rewrite jobs_observed. unfold pointer_section.
    destruct (_ && _); reflexivity. }
  rewrite E. clear E. unfold reveal_section.
  destruct (revealTargets doc) as [| t l] eqn:Hr.
  - rewrite H4. split; [intros (l' & Hl & _); discriminate |].
    intros H. apply elem_of_nil in H. destruct H.
  - destruct (observe_all (t :: l) (set_observed (Some []) w4) [] eq_refl)
      as (acc' & -> & Hel).
    split.
    + intros (l' & Hl & Hin). inversion Hl; subst.
      apply Hel in Hin. destruct Hin as [Hin | Hin]; [| exact Hin].
      apply elem_of_nil in Hin. destruct Hin.
    + intros Hin. exists acc'. split; [reflexivity |]. apply Hel. auto.
Qed.

(** A delivery to an observed element with an intersecting entry for it. *)
Lemma handle_reveal entries w el :
  observing el w ->
  (exists entry, In entry entries /\ target entry = el
                 /\ isIntersecting entry = true) ->
  "visible" ∈ classList_of el (handle doc (EvIntersect entries) w)
  /\ ~ observing el (handle doc (EvIntersect entries) w).
Proof.
  intros (l & Hl & Hin) (entry & He & Ht & Hi).
  unfold handle, dispatch, deliver. rewrite Hl.
  set (es := filter (λ entry, bool_decide (target entry ∈ l)) entries).
  assert (exists entry, In entry es /\ target entry = el
                        /\ isIntersecting entry = true) as Hex.
  { exists entry. split; [| auto]. apply list_elem_of_In.
    apply list_elem_of_filter. split; [| apply list_elem_of_In; exact He].
    apply bool_decide_pack. rewrite Ht. exact Hin. }
  destruct (observer_callback_spec es w el) as (_ & S2 & _).
  destruct (S2 Hex) as [Hv Hn]. split.
  - apply (jobs_grow doc). exact Hv.
  - intros Ho. apply Hn. apply (observing_same el _ _ (jobs_observed doc _)).
    exact Ho.
Qed.

(** A delivery leaves an element that is not observed alone. *)
Lemma deliver_unobserved entries w el :
  ~ observing el w ->
  classList_of el (dispatch doc (EvIntersect entries) w) = classList_of el w
  /\ writes_to el (dispatch doc (EvIntersect entries) w) = writes_to el w.
Proof.
  intros Hn. unfold dispatch, deliver.
  destruct (observed w) as [l |] eqn:Hl; [| auto].
  set (es := filter (λ entry, bool_decide (target entry ∈ l)) entries).
  destruct (observer_callback_spec es w el) as (_ & _ & S3).
  destruct S3 as (E1 & E2 & _); [| auto].
  intros entry Hin Ht. exfalso. apply Hn. exists l. split; [exact Hl |].
  apply list_elem_of_In in Hin. apply list_elem_of_filter in Hin.
  destruct Hin as [Hin _]. apply bool_decide_unpack in Hin.
  rewrite <- Ht. exact Hin.
Qed.

(** A delivery takes an element out of observation only by revealing it. *)
Lemma handle_unobserved e w el :
  observing el w -> ~ observing el (handle doc e w) ->
  "visible" ∈ classList_of el (handle doc e w).
Proof.
  intros Ho Hn.
  assert (forall w', observed w' = observed w -> observing el w') as Hsame
    by (intros w' E; apply (observing_same el _ _ E); exact Ho).
  destruct e; try (exfalso; apply Hn, Hsame; rewrite handle_observed; reflexivity).
  destruct Ho as (l & Hl & Hin).
  set (es := filter (λ entry, bool_decide (target entry ∈ l)) entries).
  destruct (existsb (λ en, bool_decide (target en = el) && isIntersecting en) es)
    eqn:Hex.
  - apply existsb_exists in Hex. destruct Hex as (en & Hen & Hb).
    apply andb_true_iff in Hb. destruct Hb as [Hb1 Hb2].
    apply bool_decide_eq_true in Hb1.
    apply (handle_reveal entries w el); [exists l; auto |].
    exists en. split; [| auto]. subst es. apply list_elem_of_In in Hen.
    apply list_elem_of_filter in Hen. apply list_elem_of_In. apply Hen.
  - exfalso. apply Hn.
    apply (observing_same el _ _ (jobs_observed doc _)).
    unfold dispatch, deliver. rewrite Hl. fold es.
    destruct (observer_callback_spec es w el) as (_ & _ & S3).
    destruct S3 as (_ & _ & S3); [| apply S3; exists l; auto].
    intros en Hen Ht. destruct (isIntersecting en) eqn:Hi; [| reflexivity].
    assert (existsb (λ en, bool_decide (target en = el) && isIntersecting en) es
            = true) as Hc.
    { apply existsb_exists. exists en. split; [exact Hen |].
      rewrite Hi, andb_true_r. apply bool_decide_eq_true_2. exact Ht. }
    congruence.
Qed.

(** A reveal target that is not observed any more is visible. *)
Lemma unobserved_visible evs el :
  el ∈ revealTargets doc -> ~ observing el (run doc evs (init doc)) ->
  "visible" ∈ classList_of el (run doc evs (init doc)).
Proof.
  intros Hel. induction evs as [| e evs IH] using rev_ind.
  - intros Hn. exfalso. apply Hn. apply init_observing. exact Hel.
  - rewrite run_snoc. intros Hn.
    destruct (observing_dec el (run doc evs (init doc))) as [Ho | Ho].
    + apply handle_unobserved; assumption.
    + apply (handle_grow doc e). apply IH. exact Ho.
Qed.

End RevealRun.

(** C8.  The observer observes the reveal targets.  For every element, at
    every point of every run: once it has the class [visible] it keeps it;
    a delivery with an intersecting entry for it while it is observed gives
    it the class and takes it out of observation; once out of observation it
    stays out, and no delivery changes its class list or writes to it
    again; and a reveal target is out of observation only when it is
    visible. *)
Theorem reveal_once (doc : Document) (evs : list event) (el : node) :
  let w := run doc evs (init doc) in
  (observing el (init doc) <-> el ∈ revealTargets doc)
  /\ (forall more, "visible" ∈ classList_of el w ->
        "visible" ∈ classList_of el (run doc more w))
  /\ (forall entries, observing el w ->
        (exists entry, In entry entries /\ target entry = el
                       /\ isIntersecting entry = true) ->
        "visible" ∈ classList_of el (handle doc (EvIntersect entries) w)
        /\ ~ observing el (handle doc (EvIntersect entries) w))
  /\ (forall more, ~ observing el w -> ~ observing el (run doc more w))
  /\ (forall entries, ~ observing el w ->
        classList_of el (dispatch doc (EvIntersect entries) w) = classList_of el w
        /\ writes_to el (dispatch doc (EvIntersect entries) w) = writes_to el w)
  /\ (el ∈ revealTargets doc -> ~ observing el w ->
      "visible" ∈ classList_of el w).
Proof.
  intros w. subst w.
  split; [apply init_observing |].
  split; [intros more H; apply (run_grow doc more); exact H |].
  split; [intros entries; apply handle_reveal |].
  split; [intros more Hn Ho; apply Hn; apply (run_observing doc more _ _ Ho) |].
  split; [intros entries; apply deliver_unobserved |].
  apply unobserved_visible.
Qed.

Lemma reveal_once_witness :
  let w := run sample_page [] (init sample_page) in
  "visible" ∈ classList_of 9
    (handle sample_page (EvIntersect [mkEntry 9 true]) w)
  /\ ~ observing 9 (handle sample_page (EvIntersect [mkEntry 9 true]) w).
Proof.
  intros w.
  destruct (reveal_once sample_page [] 9) as (H1 & _ & H3 & _).
  apply H3.
  - apply H1. apply list_elem_of_here.
  - exists (mkEntry 9 true). split; [left; reflexivity | auto].
Defined.

(** ** The pointer follower *)

Section Pointer.
Variable doc : Document.

Lemma orb_updates_calls w w' : calls w' = calls w -> orb_updates w' = orb_updates w.
Proof. unfold orb_updates. intros ->. reflexivity. Qed.

Lemma run_task_pointer t w :
  orb_updates (run_task doc t w) =
    orb_updates w ++ match move_event t with
                     | Some e => [(now w, e)]
                     | None => []
                     end
  /\ mouseTicking (run_task doc t w) =
       (if is_move t then false else mouseTicking w).
Proof.
  destruct t as [| | | | | | e]; cbn [run_task move_event is_move];
    rewrite ?app_nil_r.
  - destruct (titleEl doc); auto.
  - destruct (titleText doc); auto.
  - destruct (titleText doc); auto.
  - destruct (pageLoader doc); auto.
  - auto.
  - destruct (updateVisuals_shape doc w) as (C & D & S & M & P & T & L & K & E).
    unfold updateVisuals, orb_updates. cbv zeta.
    destruct (Rle_dec _ _);
      [wsimpl; rewrite omap_app; cbn; rewrite app_nil_r; auto |].
    destruct (sunrise doc), (sunset doc), (bgOverlay doc); wsimpl;
      rewrite omap_app; cbn; rewrite app_nil_r; auto.
  - destruct (moveOrbs_shape doc e w) as (L & ->). unfold orb_updates. wsimpl.
    rewrite omap_app. auto.
Qed.

Lemma spawned_not_move t w :
  Forall (λ x, is_move (snd x) = false) (spawned doc t w).
Proof. unfold spawned. destruct t, (titleText doc); forall_list. Qed.

(** A frame runs [moveOrbs] once for each of its callbacks in the queue,
    with the event the callback was made with. *)
Lemma run_tasks_pointer l w :
  let w' := fold_left (λ w t, run_task doc t w) l w in
  orb_updates w' =
    orb_updates w ++ map (λ e, (now w, e)) (omap move_event l)
  /\ mouseTicking w' = (if existsb is_move l then false else mouseTicking w).
Proof.
  revert w. induction l as [| t l IH]; intros w; cbn [fold_left].
  - cbn. rewrite app_nil_r. auto.
  - destruct (IH (run_task doc t w)) as (I1 & I2).
    destruct (run_task_pointer t w) as (E1 & E2).
    rewrite run_task_now in I1. rewrite I1, I2, E1, E2. cbn [omap existsb].
    destruct t; cbn [move_event is_move orb]; rewrite ?app_nil_r; auto.
    split; [rewrite <- app_assoc; reflexivity |].
    destruct (existsb is_move l); reflexivity.
Qed.

Lemma jobs_pointer w :
  raf (promise_jobs doc w) = raf w
  /\ mouseTicking (promise_jobs doc w) = mouseTicking w
  /\ calls (promise_jobs doc w) = calls w.
Proof. destruct (promise_jobs_result doc w); auto. Qed.

Lemma pointer_inv_handle e w : pointer_inv w -> pointer_inv (handle doc e w).
Proof.
  intros [H1 H2]. unfold handle.
  destruct (jobs_pointer (dispatch doc e w)) as (Jr & Jm & _).
  destruct (jobs_scroll_fields doc (dispatch doc e w))
    as (_ & _ & _ & _ & _ & Jt).
  enough (pointer_inv (dispatch doc e w)) as [K1 K2].
  { split; [rewrite Jr, Jm; exact K1 |].
    destruct Jt as [-> | ->]; [exact K2 |].
    apply Forall_app. split; [exact K2 | forall_list]. }
  clear Jr Jm Jt. destruct e; unfold dispatch, pointer_inv.
  - unfold onScroll. cbv zeta. destruct (attached OnScroll _); [| auto].
    destruct (negb _); wsimpl; [| auto].
    rewrite List.filter_app, List.length_app, H1. cbn. rewrite Nat.add_0_r. auto.
  - destruct (attached OnResize _); auto.
  - unfold onMouseMove. destruct (attached OnMouseMove w); [| auto].
    destruct (mouseTicking w) eqn:Hm; cbn [negb]; wsimpl.
    + rewrite Hm. auto.
    + rewrite List.filter_app, List.length_app, H1. auto.
  - unfold animation_frame.
    match goal with |- context [fold_left ?g ?l ?w0] =>
      destruct (run_tasks_pointer l w0) as (_ & F2);
      destruct (run_tasks_shape doc l w0)
        as (C & D & S & M & P & T & L & K & E);
      assert (Forall (λ x, is_move (snd x) = false)
                (timers (fold_left g l w0))) as F3
    end.
    { apply (fold_left_inv (λ w', Forall (λ x, is_move (snd x) = false)
                                    (timers w'))); [exact H2 |].
      intros w' t Hw. rewrite run_task_timers. apply Forall_app.
      split; [exact Hw | apply spawned_not_move]. }
    split; [| exact F3]. rewrite F2. rewrite E. wsimpl.
    destruct (existsb is_move (raf w)) eqn:Hex; [reflexivity |].
    destruct (mouseTicking w); [| reflexivity]. exfalso.
    destruct (List.filter is_move (raf w)) as [| t l] eqn:Hf; [discriminate |].
    assert (In t (List.filter is_move (raf w))) as Hin
      by (rewrite Hf; left; auto).
    apply List.filter_In in Hin. destruct Hin as [Hin Hu].
    assert (existsb is_move (raf w) = true) as Hex'
      by (apply existsb_exists; eauto).
    congruence.
  - destruct (fire_timer_cases doc w) as [-> | (d & t & rest & Hp & _ & ->)];
      [auto |].
    assert (is_move t = false /\ Forall (λ x, is_move (snd x) = false) rest)
      as [Hu Hrest].
    { rewrite Hp in H2. inversion H2; subst. auto. }
    destruct (run_task_pointer t (w |> set_timers rest
                                    |> set_now (Nat.max (now w) d)))
      as (_ & Em).
    rewrite Em, Hu, run_task_raf, run_task_timers. split; [exact H1 |].
    apply Forall_app. split; [exact Hrest | apply spawned_not_move].
  - unfold wait. destruct (_ && _); auto.
  - auto.
  - auto.
  - unfold deliver. destruct (observed w); [| auto].
    match goal with |- context [observer_callback ?es ?w0] =>
      destruct (observer_callback_shape es w0) as (C & O & L & ->) end.
    auto.
Qed.

Lemma pointer_inv_run evs : pointer_inv (run doc evs (init doc)).
Proof.
  apply run_invariant; [| apply pointer_inv_handle].
  destruct (init_fields doc) as (_ & Hr & Ht & _).
  split.
  - rewrite Hr.
    assert (mouseTicking (init doc) = false) as ->.
    { unfold init. destruct (jobs_pointer (DOMContentLoaded doc (boot doc)))
        as (_ & -> & _).
      unfold DOMContentLoaded, pointer_section.
      match goal with |- context [reveal_section doc ?w0] =>
        destruct (reveal_section_shape doc w0) as (O & ->) end.
      destruct (_ && _); [reflexivity |]. wsimpl.
      match goal with |- context [scroll_section doc ?w0] =>
        assert (mouseTicking (scroll_section doc w0) = mouseTicking w0) as ->
      end.
      { unfold scroll_section. destruct (sunrise doc), (sunset doc);
          try reflexivity.
        match goal with |- context [updateVisuals doc ?w0] =>
          destruct (run_task_pointer TUpdateVisuals w0) as (_ & E) end.
        cbn [run_task is_move] in E. rewrite E. reflexivity. }
      unfold loader_section. destruct (bgImgs doc).
      - match goal with |- context [removeLoader doc ?w0] =>
          destruct (removeLoader_cases doc w0) as [-> | (el' & _ & _ & ->)] end;
          unfold hero_section; destruct (titleEl doc), (titleText doc);
          reflexivity.
      - unfold hero_section; destruct (titleEl doc), (titleText doc);
          reflexivity. }
    destruct (hero_present doc); reflexivity.
  - eapply Forall_impl; [exact Ht |].
    intros x [-> | [-> | ->]]; reflexivity.
Qed.

Lemma omap_move_length l :
  length (omap move_event l) = length (List.filter is_move l).
Proof.
  induction l as [| t l IH]; [reflexivity |].
  change (t :: l) with ([t] ++ l).
  rewrite omap_app, List.filter_app, !List.length_app, IH.
  destruct t; reflexivity.
Qed.

Lemma attached_move_init :
  attached OnMouseMove (init doc) = pointer_present doc.
Proof.
  unfold attached. destruct (init_fields doc) as (_ & _ & _ & _ & -> & _).
  destruct (layers_present doc), (pointer_present doc); reflexivity.
Qed.

(** One pass of [moveOrbs] writes both variables of every orb, from the
    event it was called with. *)
Lemma moveOrbs_writes e w :
  log (moveOrbs doc e w) =
    log w ++ flat_map (orb_writes e (boundingRect w) (now w)) (orbs doc).
Proof.
  unfold moveOrbs. cbv zeta. wsimpl.
  match goal with |- context [fold_left ?g ?l ?w0] =>
    enough (forall l' w', boundingRect w' = boundingRect w -> now w' = now w ->
              log (fold_left g l' w') =
                log w' ++ flat_map (orb_writes e (boundingRect w) (now w)) l'
              )
      as H by (rewrite (H l w0); reflexivity)
  end.
  induction l' as [| btn l' IH]; intros w' Hb Hn; cbn [fold_left flat_map].
  - rewrite app_nil_r. reflexivity.
  - rewrite IH by (wsimpl; assumption). wsimpl. unfold orb_writes.
    rewrite Hb, Hn, <- !app_assoc. reflexivity.
Qed.

(** The first pointer move after an update schedules a frame callback that
    holds this event. *)
Lemma handle_move_first e w :
  attached OnMouseMove w = true -> pointer_inv w -> mouseTicking w = false ->
  mouseTicking (handle doc (EvMouseMove e) w) = true
  /\ omap move_event (raf (handle doc (EvMouseMove e) w)) = [e].
Proof.
  intros Ha [H1 _] Hm. unfold handle.
  destruct (jobs_pointer (dispatch doc (EvMouseMove e) w)) as (-> & -> & _).
  unfold dispatch. rewrite Ha. unfold onMouseMove. rewrite Hm. cbn [negb].
  wsimpl. split; [reflexivity |]. rewrite omap_app.
  rewrite Hm in H1. rewrite <- omap_move_length in H1.
  destruct (omap move_event (raf w)); [reflexivity | discriminate].
Qed.

(** While that callback is pending, no event short of the frame changes the
    event it holds: later pointer moves are dropped. *)
Lemma handle_move_kept ev e w :
  is_frame ev = false -> pointer_inv w -> mouseTicking w = true ->
  omap move_event (raf w) = [e] ->
  mouseTicking (handle doc ev w) = true
  /\ omap move_event (raf (handle doc ev w)) = [e].
Proof.
  intros Hf [_ H2] Hm He. unfold handle.
  destruct (jobs_pointer (dispatch doc ev w)) as (-> & -> & _).
  destruct ev; try discriminate; unfold dispatch.
  - unfold onScroll. cbv zeta. destruct (attached OnScroll _); [| auto].
    destruct (negb _); wsimpl; [| auto]. rewrite omap_app, He. auto.
  - destruct (attached OnResize _); auto.
  - unfold onMouseMove. destruct (attached OnMouseMove w); [| auto].
    rewrite Hm. auto.
  - destruct (fire_timer_cases doc w) as [-> | (d & t & rest & Hp & _ & ->)];
      [auto |].
    assert (is_move t = false) as Hu.
    { rewrite Hp in H2. inversion H2; subst. auto. }
    destruct (run_task_pointer t (w |> set_timers rest
                                    |> set_now (Nat.max (now w) d)))
      as (_ & Em).
    rewrite Em, Hu, run_task_raf. auto.
  - unfold wait. destruct (_ && _); auto.
  - auto.
  - auto.
  - unfold deliver. destruct (observed w); [| auto].
    match goal with |- context [observer_callback ?es ?w0] =>
      destruct (observer_callback_shape es w0) as (C & O & L & ->) end.
    auto.
Qed.

Lemma run_move_kept evs e w :
  Forall (λ ev, is_frame ev = false) evs -> pointer_inv w ->
  mouseTicking w = true -> omap move_event (raf w) = [e] ->
  pointer_inv (run doc evs w) /\ mouseTicking (run doc evs w) = true
  /\ omap move_event (raf (run doc evs w)) = [e].
Proof.
  intros Hf. revert w. induction Hf as [| ev evs Hev _ IH]; intros w Hi Hm He.
  - auto.
  - destruct (handle_move_kept ev e w Hev Hi Hm He) as [Hm' He'].
    apply (IH (handle doc ev w)); auto using pointer_inv_handle.
Qed.

(** The frame runs one update, with the event the callback holds. *)
Lemma handle_frame_move rects e w :
  omap move_event (raf w) = [e] ->
  orb_updates (handle doc (EvFrame rects) w) = orb_updates w ++ [(now w, e)].
Proof.
  intros He. unfold handle.
  destruct (jobs_pointer (dispatch doc (EvFrame rects) w)) as (_ & _ & Hc).
  rewrite (orb_updates_calls _ _ Hc). unfold dispatch, animation_frame.
  match goal with |- context [fold_left ?g ?l ?w0] =>
    destruct (run_tasks_pointer l w0) as (-> & _) end.
  rewrite He. reflexivity.
Qed.

(** What the follower does with a burst of pointer moves.  When no update is
    pending and the pointer moves, the next frame runs exactly one update,
    and it is made with the event of that first move, whatever moves (or
    other events) come between it and the frame. *)
Lemma pointer_follower_first_event evs e1 others rects :
  pointer_present doc = true ->
  Forall (λ ev, is_frame ev = false) others ->
  let w0 := run doc evs (init doc) in
  mouseTicking w0 = false ->
  let w1 := run doc (EvMouseMove e1 :: others) w0 in
  orb_updates (handle doc (EvFrame rects) w1) =
    orb_updates w1 ++ [(now w1, e1)].
Proof.
  intros Hp Hf w0 Hm w1. apply handle_frame_move.
  assert (pointer_inv w0) as Hi by apply pointer_inv_run.
  assert (attached OnMouseMove w0 = true) as Ha.
  { unfold w0. rewrite attached_run, attached_move_init. exact Hp. }
  destruct (handle_move_first e1 w0 Ha Hi Hm) as [Hm' He'].
  unfold w1. cbn [run fold_left].
  apply (run_move_kept others e1 (handle doc (EvMouseMove e1) w0)); auto.
  apply pointer_inv_handle, Hi.
Qed.

End Pointer.

(** C4. Two pointer moves within one frame, at (10, 10) and then at (50, 50),
    on a page with one orb and a precise pointer: the frame runs exactly one
    update, and it is made with the coordinates of the first move, (10, 10),
    not with those of the last one. *)
Theorem pointer_follower_stale_event :
  let w := run bare_page
             [EvMouseMove (mkMouse 10 10); EvMouseMove (mkMouse 50 50);
              EvFrame (λ _, mkRect 0 0)] (init bare_page) in
  orb_updates w = [(0, mkMouse 10 10)]
  /\ style_writes 11 w = [("--mx"%string, CssPx (10 - 0));
                          ("--my"%string, CssPx (10 - 0))]
  /\ mkMouse 10 10 <> mkMouse 50 50.
Proof.
  split; [vm_compute; reflexivity |].
  split; [vm_compute; reflexivity |].
  intros H. injection H as H _. lra.
Qed.

(** ** More on the numbers the engine writes *)

(** Case analysis on an innermost comparison of the goal. *)
Ltac inner_le :=
  match goal with
  | |- context [Rle_dec ?a ?b] =>
      lazymatch a with
      | context [Rle_dec _ _] => fail
      | _ => lazymatch b with
             | context [Rle_dec _ _] => fail
             | _ => destruct (Rle_dec a b)
             end
      end
  end.

Section NumberBounds.
Local Open Scope R_scope.

(** X1.  [clamp] with ordered bounds returns a value between them: the value
    itself when it lies between them, the nearer bound otherwise, and
    clamping twice is clamping once.  With the bounds the wrong way round it
    returns the upper bound, whatever the value. *)
Theorem clamp_between (v lo hi : R) :
  (lo <= hi ->
     lo <= clamp v lo hi <= hi
     /\ (lo <= v <= hi -> clamp v lo hi = v)
     /\ (v <= lo -> clamp v lo hi = lo)
     /\ (hi <= v -> clamp v lo hi = hi)
     /\ clamp (clamp v lo hi) lo hi = clamp v lo hi)
  /\ (hi < lo -> clamp v lo hi = hi).
Proof.
  unfold clamp, Rmin, Rmax. split; intros H.
  - repeat split; intros; repeat inner_le; lra.
  - repeat inner_le; lra.
Qed.






End NumberBounds.

Section RecomputationBounds.
Local Open Scope R_scope.
Variable doc : Document.


End RecomputationBounds.

Lemma clamp_between_witness :
  (0 <= clamp 3 0 1 <= 1)%R /\ clamp 3 1 0 = 0%R.
Proof.
  destruct (clamp_between 3 0 1) as [H _].
  destruct (clamp_between 3 1 0) as [_ H'].
  split; [apply H; lra | apply H'; lra].
Defined.


(** ** The cached height and the listeners *)

Section Resize.
Local Open Scope R_scope.
Variable doc : Document.

(** Between tasks no promise reaction is waiting. *)
Lemma jobs_at_rest w :
  raceP w <> Some Pending \/ race_won w = false -> promise_jobs doc w = w.
Proof.
  unfold promise_jobs, race_won. intros [H | H].
  - destruct (raceP w) as [[|] |]; congruence.
  - rewrite H. destruct (raceP w) as [[|] |]; reflexivity.
Qed.

Lemma idle_run evs :
  let w := run doc evs (init doc) in
  raceP w <> Some Pending \/ race_won w = false.
Proof.
  intros w. destruct (bgImgs doc) eqn:Hb.
  - destruct (no_gate_run doc evs Hb) as (Hr & _). fold w in Hr.
    left. congruence.
  - assert (bgImgs doc <> []) as Hne by congruence.
    destruct (gate_inv_run doc evs Hne) as (Hr & _). fold w in Hr.
    destruct (race_won w); [left; congruence | right; reflexivity].
Qed.

Lemma attached_resize_run evs :
  attached OnResize (run doc evs (init doc)) = true.
Proof.
  rewrite attached_run. unfold attached.
  destruct (init_fields doc) as (_ & _ & _ & _ & -> & _).
  apply bool_decide_eq_true_2. apply list_elem_of_here.
Qed.

(** What a resize event does to a world of a run: the handler caches the
    new height, and nothing else happens. *)
Lemma handle_resize evs sh ih :
  let w := run doc evs (init doc) in
  handle doc (EvResize sh ih) w =
    w |> set_scrollHeight sh |> set_innerHeight ih |> set_docHeight (sh - ih).
Proof.
  intros w. unfold handle, dispatch.
  assert (attached OnResize (w |> set_scrollHeight sh |> set_innerHeight ih)
          = true) as ->.
  { pose proof (attached_resize_run evs) as Ha. fold w in Ha.
    unfold attached in *. wsimpl. exact Ha. }
  unfold onResize. wsimpl. apply jobs_at_rest.
  destruct (idle_run evs) as [H | H]; fold w in H; [left | right].
  - wsimpl. exact H.
  - rewrite <- H. apply race_won_same; reflexivity.
Qed.

(** Only a resize event changes the cached height. *)
Lemma handle_docHeight e w :
  scroll_inv w -> is_resize e = false ->
  docHeight (state (handle doc e w)) = docHeight (state w).
Proof.
  intros [H1 H2] Hr. unfold handle.
  destruct (jobs_scroll_fields doc (dispatch doc e w)) as (-> & _).
  destruct e; try discriminate; unfold dispatch.
  - unfold onScroll. cbv zeta. destruct (attached OnScroll _); [| auto].
    wsimpl. destruct (ticking (state w)); cbn [negb]; wsimpl; auto.
  - unfold onMouseMove. destruct (attached OnMouseMove w); [| auto].
    destruct (mouseTicking w); cbn [negb]; wsimpl; auto.
  - unfold animation_frame.
    match goal with |- context [fold_left ?g ?l ?w0] =>
      destruct (run_tasks_scroll doc l w0) as (_ & _ & -> & _) end;
      [exact H2 | reflexivity].
  - destruct (fire_timer_cases doc w) as [-> | (d & t & rest & Hp & _ & ->)];
      [auto |].
    assert (is_update t = false) as Hu.
    { rewrite Hp in H2. inversion H2; subst. auto. }
    destruct (run_task_idle doc t (w |> set_timers rest
                                     |> set_now (Nat.max (now w) d)) Hu)
      as (-> & _). auto.
  - unfold wait. destruct (_ && _); auto.
  - auto.
  - auto.
  - unfold deliver. destruct (observed w); [| auto].
    match goal with |- context [observer_callback ?es ?w0] =>
      destruct (observer_callback_shape es w0) as (C & O & L & ->) end.
    auto.
Qed.

Lemma run_docHeight evs w :
  scroll_inv w -> Forall (λ e, is_resize e = false) evs ->
  scroll_inv (run doc evs w)
  /\ docHeight (state (run doc evs w)) = docHeight (state w).
Proof.
  intros Hi Hf. revert w Hi. induction Hf as [| e evs He _ IH]; intros w Hi.
  - auto.
  - cbn [run fold_left].
    destruct (IH (handle doc e w) (scroll_inv_handle doc e w Hi)) as [I1 I2].
    split; [exact I1 |].
    unfold run in I2. rewrite I2. apply handle_docHeight; assumption.
Qed.

End Resize.

(** X3.  A resize event caches the new scrollable height and does nothing
    else: the cached offset, the pending-frame flag, the frame queue, the
    timers and the page are as before, and no recomputation runs.  The
    cached height then stays until the next resize event, and a later
    frame recomputes with it if a callback is pending. *)
Theorem resize_caches_height (doc : Document) (evs : list event) (sh ih : R) :
  let w := run doc evs (init doc) in
  let w' := handle doc (EvResize sh ih) w in
  docHeight (state w') = (sh - ih)%R
  /\ scrollY (state w') = scrollY (state w)
  /\ ticking (state w') = ticking (state w)
  /\ raf w' = raf w /\ timers w' = timers w /\ now w' = now w
  /\ log w' = log w /\ classes w' = classes w
  /\ recomputations w' = recomputations w
  /\ (forall others rects,
        Forall (λ e, is_resize e = false) others ->
        let w1 := run doc others w' in
        docHeight (state w1) = (sh - ih)%R
        /\ recomputations (handle doc (EvFrame rects) w1) =
             recomputations w1 ++
             (if ticking (state w1)
              then [(now w1, (scrollY (state w1), (sh - ih)%R))] else [])).
Proof.
  intros w w'. pose proof (handle_resize doc evs sh ih) as E.
  cbv zeta in E. fold w in E. subst w'. rewrite E.
  repeat (split; [reflexivity |]).
  intros others rects Hf w1.
  assert (scroll_inv w) as Hi by apply scroll_inv_run.
  assert (scroll_inv (w |> set_scrollHeight sh |> set_innerHeight ih
                        |> set_docHeight (sh - ih))) as Hi' by exact Hi.
  destruct (run_docHeight doc others _ Hi' Hf) as [I1 I2]. fold w1 in I1, I2.
  split; [exact I2 |].
  destruct (handle_frame_scroll doc rects w1 I1) as (-> & _).
  rewrite I2. reflexivity.
Qed.

(** X4.  The handler registers the resize listener on every page, the
    scroll listener exactly when both layers are on the page, and the
    mousemove listener exactly when the pointer is precise and there is an
    orb; no event adds or removes a listener afterwards. *)
Theorem listeners_fixed (doc : Document) (evs : list event) :
  listeners (run doc evs (init doc)) =
    [OnResize]
    ++ (if layers_present doc then [OnScroll] else [])
    ++ (if pointer_fine doc && negb (bool_decide (orbs doc = []))
        then [OnMouseMove] else []).
Proof.
  rewrite run_listeners.
  destruct (init_fields doc) as (_ & _ & _ & _ & -> & _). reflexivity.
Qed.

(** ** The frame queue *)

Section Frames.
Variable doc : Document.

Lemma frame_tasks_count l :
  Forall (λ t, is_frame_task t = true) l ->
  length l = length (List.filter is_title l)
             + length (List.filter is_update l)
             + length (List.filter is_move l).
Proof.
  induction 1 as [| t l Ht _ IH]; [reflexivity |].
  destruct t; try discriminate; cbn [List.filter is_title is_update is_move length];
    lia.
Qed.

Lemma title_pending evs :
  length (List.filter is_title (raf (run doc evs (init doc)))) <= 1.
Proof.
  pose proof (title_run doc evs) as H. cbv zeta in H.
  destruct (hero_present doc).
  - destruct (existsb is_frame evs).
    + destruct H as [-> _]. cbn. lia.
    + rewrite H. cbn. lia.
  - rewrite H. cbn. lia.
Qed.

End Frames.

(** X5.  At every point of every run the frame queue holds at most one
    callback of each kind, so at most three: the scroll engine's exactly
    when [state.ticking] is set, the pointer follower's exactly when
    [mouseTicking] is set, and the title's.  No timer runs
    [updateVisuals] or [moveOrbs], and no timer is overdue.  A frame empties
    the queue and leaves both flags cleared, so the next scroll or pointer
    event schedules a callback again. *)
Theorem frame_queue_bounded (doc : Document) (evs : list event) :
  let w := run doc evs (init doc) in
  length (List.filter is_update (raf w)) = (if ticking (state w) then 1 else 0)
  /\ length (List.filter is_move (raf w)) = (if mouseTicking w then 1 else 0)
  /\ length (List.filter is_title (raf w)) <= 1
  /\ length (raf w) <= 3
  /\ Forall (λ x, is_update (snd x) = false /\ is_move (snd x) = false
                  /\ now w <= fst x) (timers w)
  /\ (forall rects,
        let w' := handle doc (EvFrame rects) w in
        raf w' = [] /\ ticking (state w') = false /\ mouseTicking w' = false).
Proof.
  intros w.
  destruct (scroll_inv_run doc evs) as [S1 S2].
  destruct (pointer_inv_run doc evs) as [P1 P2].
  destruct (queues_ok_run doc evs) as [Q1 Q2].
  pose proof (title_pending doc evs) as T.
  fold w in S1, S2, P1, P2, Q1, Q2, T.
  split; [exact S1 |]. split; [exact P1 |]. split; [exact T |].
  split.
  { rewrite (frame_tasks_count _ Q2), S1, P1.
    destruct (ticking (state w)), (mouseTicking w); lia. }
  split.
  { apply Forall_and. split; [exact S2 |].
    apply Forall_and. split; [exact P2 | exact Q1]. }
  intros rects w'.
  assert (raf w' = []) as Hr by apply handle_raf_frame.
  destruct (scroll_inv_handle doc (EvFrame rects) w (conj S1 S2)) as [S1' _].
  destruct (pointer_inv_handle doc (EvFrame rects) w (conj P1 P2)) as [P1' _].
  fold w' in S1', P1'. rewrite Hr in S1', P1'. cbn in S1', P1'.
  split; [exact Hr |].
  destruct (ticking (state w')), (mouseTicking w'); auto; discriminate.
Qed.

(** ** Who writes what *)

Section Ownership.
Variable doc : Document.

(** [owned doc m = true] for a write [m] given the facts in the context. *)
Ltac owned_true :=
  unfold owned;
  repeat match goal with
         | H : ?b = true |- context [?b] => rewrite H
         | |- context [bool_decide ?P] =>
             first [ rewrite (bool_decide_eq_true_2 P)
                       by first [assumption | reflexivity | in_classes]
                   | rewrite (bool_decide_eq_false_2 P) by discriminate ]
         end;
  rewrite ?andb_true_l, ?andb_true_r, ?orb_true_l, ?orb_true_r,
    ?andb_false_l, ?orb_false_l;
  reflexivity.

Lemma writes_owned_refl w : writes_owned doc w w.
Proof. exists []. rewrite app_nil_r. split; [reflexivity | constructor]. Qed.

Lemma writes_owned_same w w' : log w' = log w -> writes_owned doc w w'.
Proof.
  intros E. exists []. rewrite app_nil_r. split; [exact E | constructor].
Qed.

Lemma writes_owned_trans w1 w2 w3 :
  writes_owned doc w1 w2 -> writes_owned doc w2 w3 -> writes_owned doc w1 w3.
Proof.
  intros (n1 & E1 & F1) (n2 & E2 & F2). exists (n1 ++ n2).
  rewrite E2, E1, app_assoc. split; [reflexivity |].
  apply Forall_app. split; assumption.
Qed.

Lemma writes_owned_one m w w' :
  owned doc m = true -> log w' = log w ++ [(now w, m)] ->
  writes_owned doc w w'.
Proof.
  intros Ho E. exists [(now w, m)]. split; [exact E |].
  apply List.Forall_cons; [exact Ho | apply List.Forall_nil].
Qed.

Lemma writes_owned_log w w' :
  writes_owned doc w w' ->
  Forall (λ x, owned doc (snd x) = true) (log w) ->
  Forall (λ x, owned doc (snd x) = true) (log w').
Proof.
  intros (new & -> & F) H. apply Forall_app. split; assumption.
Qed.

Lemma layers_present_spec :
  layers_present doc = true ->
  exists a b, sunrise doc = Some a /\ sunset doc = Some b.
Proof.
  unfold layers_present. destruct (sunrise doc), (sunset doc);
    try discriminate. eauto.
Qed.

Lemma updateVisuals_owned w :
  layers_present doc = true -> writes_owned doc w (updateVisuals doc w).
Proof.
  intros Hl. destruct (layers_present_spec Hl) as (a & b & Ha & Hb).
  unfold updateVisuals. cbv zeta. rewrite Ha, Hb.
  destruct (Rle_dec _ _); [apply writes_owned_same; reflexivity |].
  destruct (bgOverlay doc) as [o |] eqn:Ho; unfold writes_owned; wsimpl.
  - eexists. split; [rewrite <- !app_assoc; reflexivity |].
    repeat (apply List.Forall_cons; [cbn [snd]; owned_true |]).
    apply List.Forall_nil.
  - eexists. split; [rewrite <- !app_assoc; reflexivity |].
    repeat (apply List.Forall_cons; [cbn [snd]; owned_true |]).
    apply List.Forall_nil.
Qed.

Lemma moveOrbs_owned e w :
  pointer_present doc = true -> writes_owned doc w (moveOrbs doc e w).
Proof.
  intros Hp. eexists. split; [apply moveOrbs_writes |].
  apply Forall_forall. intros x Hx. apply list_elem_of_In in Hx.
  apply in_flat_map in Hx. destruct Hx as (btn & Hb & Hx).
  apply list_elem_of_In in Hb.
  destruct Hx as [<- | [<- | []]]; cbn [snd]; owned_true.
Qed.

Lemma task_writes_owned t :
  task_enabled doc t = true ->
  Forall (λ m, owned doc m = true) (task_writes doc t).
Proof.
  intros He. destruct t; cbn [task_writes task_enabled] in *;
    try apply List.Forall_nil.
  - destruct (titleText doc) eqn:Hx; [apply List.Forall_cons; [owned_true | apply List.Forall_nil] | apply List.Forall_nil].
  - destruct (titleText doc) eqn:Hx; [apply List.Forall_cons; [owned_true | apply List.Forall_nil] | apply List.Forall_nil].
  - destruct (pageLoader doc) eqn:Hx; [apply List.Forall_cons; [owned_true | apply List.Forall_nil] | apply List.Forall_nil].
Qed.

Lemma run_task_owned t w :
  task_enabled doc t = true -> writes_owned doc w (run_task doc t w).
Proof.
  intros He. destruct (is_frame_task t) eqn:Hf.
  - destruct t; try discriminate; cbn [run_task task_enabled] in *.
    + pose proof He as Hh. apply hero_present_spec in He.
      destruct He as (el & x & Hel & _). rewrite Hel.
      apply (writes_owned_one (AddClass el "visible")); [| reflexivity].
      owned_true.
    + apply updateVisuals_owned, He.
    + apply moveOrbs_owned, He.
  - eexists. split; [apply run_task_log, Hf |].
    apply List.Forall_map. apply task_writes_owned, He.
Qed.

Lemma spawned_enabled t w :
  task_enabled doc t = true ->
  Forall (λ x, task_enabled doc (snd x) = true) (spawned doc t w).
Proof.
  intros He. unfold spawned.
  destruct t, (titleText doc); try apply List.Forall_nil.
  apply List.Forall_cons; [exact He | apply List.Forall_nil].
Qed.

(** A callback of a component the page has adds writes of that component
    and timers of it only. *)
Lemma run_task_core t w :
  task_enabled doc t = true ->
  Forall (λ x, owned doc (snd x) = true) (log w) ->
  Forall (λ x, task_enabled doc (snd x) = true) (timers w) ->
  Forall (λ x, owned doc (snd x) = true) (log (run_task doc t w))
  /\ Forall (λ x, task_enabled doc (snd x) = true) (timers (run_task doc t w)).
Proof.
  intros He Hl Ht. split.
  - eapply writes_owned_log; [apply run_task_owned, He | exact Hl].
  - rewrite run_task_timers. apply Forall_app.
    split; [exact Ht | apply spawned_enabled, He].
Qed.

Lemma run_tasks_core l w :
  Forall (λ t, task_enabled doc t = true) l ->
  Forall (λ x, owned doc (snd x) = true) (log w) ->
  Forall (λ x, task_enabled doc (snd x) = true) (timers w) ->
  let w' := fold_left (λ w t, run_task doc t w) l w in
  Forall (λ x, owned doc (snd x) = true) (log w')
  /\ Forall (λ x, task_enabled doc (snd x) = true) (timers w').
Proof.
  intros Hf. revert w. induction Hf as [| t l He _ IH]; intros w Hl Ht.
  - split; assumption.
  - cbn [fold_left]. destruct (run_task_core t w He Hl Ht) as [Hl' Ht'].
    apply IH; assumption.
Qed.

(** The observer writes to the targets of the entries it is given. *)
Lemma observer_callback_owned es w :
  Forall (λ entry, target entry ∈ revealTargets doc) es ->
  writes_owned doc w (observer_callback es w).
Proof.
  intros Hf. revert w. induction Hf as [| entry es He _ IH]; intros w.
  - apply writes_owned_refl.
  - unfold observer_callback. cbn [fold_left].
    eapply writes_owned_trans; [| apply IH].
    destruct (isIntersecting entry); [| apply writes_owned_refl].
    apply (writes_owned_one (AddClass (target entry) "visible")).
    + owned_true.
    + unfold unobserve. wsimpl. destruct (observed w); reflexivity.
Qed.

Lemma removeLoader_owned w : writes_owned doc w (removeLoader doc w).
Proof.
  destruct (removeLoader_cases doc w) as [-> | (el & Hel & _ & ->)].
  - apply writes_owned_refl.
  - apply (writes_owned_one (AddClass el "hidden")); [owned_true | reflexivity].
Qed.

Lemma jobs_owned w : writes_owned doc w (promise_jobs doc w).
Proof.
  destruct (promise_jobs_result doc w) as [_ | _ _ _ | el _ _ Hel _].
  - apply writes_owned_refl.
  - apply writes_owned_same. reflexivity.
  - apply (writes_owned_one (AddClass el "hidden")); [owned_true | reflexivity].
Qed.

Lemma loader_section_owned w : writes_owned doc w (loader_section doc w).
Proof.
  unfold loader_section. destruct (bgImgs doc).
  - apply removeLoader_owned.
  - apply writes_owned_same. reflexivity.
Qed.

Lemma scroll_section_owned w : writes_owned doc w (scroll_section doc w).
Proof.
  unfold scroll_section.
  destruct (sunrise doc) eqn:Ha; [| apply writes_owned_refl].
  destruct (sunset doc) eqn:Hb; [| apply writes_owned_refl].
  eapply writes_owned_trans; [| apply updateVisuals_owned].
  - apply writes_owned_same. reflexivity.
  - unfold layers_present. rewrite Ha, Hb. reflexivity.
Qed.

Lemma reveal_section_owned w : writes_owned doc w (reveal_section doc w).
Proof.
  apply writes_owned_same.
  destruct (reveal_section_shape doc w) as (O & ->). reflexivity.
Qed.

Lemma pointer_section_owned w : writes_owned doc w (pointer_section doc w).
Proof.
  apply writes_owned_same. unfold pointer_section.
  destruct (_ && _); reflexivity.
Qed.

Lemma init_owned : Forall (λ x, owned doc (snd x) = true) (log (init doc)).
Proof.
  unfold init, DOMContentLoaded.
  eapply writes_owned_log; [apply jobs_owned |].
  eapply writes_owned_log; [apply pointer_section_owned |].
  eapply writes_owned_log; [apply reveal_section_owned |].
  eapply writes_owned_log; [apply scroll_section_owned |].
  eapply writes_owned_log; [apply loader_section_owned |].
  destruct (hero_state_fields doc) as (_ & _ & -> & _). apply List.Forall_nil.
Qed.

Lemma components_inv_init : components_inv doc (init doc).
Proof.
  split; [apply init_owned |].
  destruct (init_fields doc) as (_ & Hr & _).
  destruct (init_tracked doc) as (_ & _ & _ & _ & _ & Ht & _).
  split.
  { rewrite Hr. destruct (hero_present doc) eqn:Hh;
      [apply List.Forall_cons; [exact Hh |] |]; apply List.Forall_nil. }
  split.
  { rewrite Ht. apply Forall_app. split.
    { destruct (hero_present doc) eqn:Hh;
        [apply List.Forall_cons; [exact Hh |] |]; apply List.Forall_nil. }
    apply Forall_app. split.
    - destruct (bgImgs doc); forall_list.
    - destruct (_ && _); forall_list. }
  split.
  { intros l el Hl Hel. apply init_observing. exists l. auto. }
  split.
  - rewrite attached_scroll_init. auto.
  - rewrite attached_move_init. auto.
Qed.

(** The log, the frame queue and the timers after a task. *)
Lemma dispatch_core e w :
  components_inv doc w ->
  Forall (λ x, owned doc (snd x) = true) (log (dispatch doc e w))
  /\ Forall (λ t, task_enabled doc t = true) (raf (dispatch doc e w))
  /\ Forall (λ x, task_enabled doc (snd x) = true) (timers (dispatch doc e w)).
Proof.
  intros (Hl & Hr & Ht & Ho & Hs & Hm). destruct e; unfold dispatch.
  - unfold onScroll. cbv zeta.
    destruct (attached OnScroll _) eqn:Ha; [| auto]. wsimpl.
    destruct (ticking (state w)); cbn [negb]; wsimpl; [auto |].
    split; [exact Hl |]. split; [| exact Ht].
    apply Forall_app. split; [exact Hr |].
    apply List.Forall_cons; [apply Hs; reflexivity | apply List.Forall_nil].
  - destruct (attached OnResize _); unfold onResize; wsimpl; auto.
  - unfold onMouseMove. destruct (attached OnMouseMove w) eqn:Ha; [| auto].
    destruct (mouseTicking w); cbn [negb]; wsimpl; [auto |].
    split; [exact Hl |]. split; [| exact Ht].
    apply Forall_app. split; [exact Hr |].
    apply List.Forall_cons; [apply Hm; reflexivity | apply List.Forall_nil].
  - unfold animation_frame.
    match goal with |- context [fold_left ?g ?l ?w0] =>
      destruct (run_tasks_core l w0 Hr Hl Ht) as [Hl' Ht'];
      destruct (run_tasks_shape doc l w0)
        as (C & D & S & M & P & T & L & K & E)
    end.
    split; [exact Hl' |]. split; [| exact Ht'].
    rewrite E. apply List.Forall_nil.
  - destruct (fire_timer_cases doc w) as [-> | (d & t & rest & Hp & _ & ->)];
      [auto |].
    rewrite Hp in Ht. inversion Ht as [| x l He Hrest]; subst.
    destruct (run_task_core t (w |> set_timers rest
                                 |> set_now (Nat.max (now w) d)) He Hl Hrest)
      as [Hl' Ht'].
    split; [exact Hl' |]. split; [| exact Ht'].
    rewrite run_task_raf. exact Hr.
  - unfold wait. destruct (_ && _); auto.
  - auto.
  - auto.
  - unfold deliver. destruct (observed w) as [l |] eqn:Hobs; [| auto].
    match goal with |- context [observer_callback ?es ?w0] =>
      assert (writes_owned doc w0 (observer_callback es w0)) as Hw;
      [| destruct (observer_callback_shape es w0) as (C & O & L & E) ]
    end.
    { apply observer_callback_owned. apply Forall_forall.
      intros entry Hin. apply list_elem_of_filter in Hin.
      destruct Hin as [Hin _]. apply bool_decide_unpack in Hin.
      eapply Ho; eauto. }
    split; [eapply writes_owned_log; [exact Hw | exact Hl] |].
    rewrite E. auto.
Qed.

Lemma components_inv_handle e w :
  components_inv doc w -> components_inv doc (handle doc e w).
Proof.
  intros Hi. destruct (dispatch_core e w Hi) as (Dl & Dr & Dt).
  destruct Hi as (Hl & Hr & Ht & Ho & Hs & Hm).
  destruct (jobs_scroll_fields doc (dispatch doc e w))
    as (_ & Jr & _ & _ & _ & Jt).
  split; [eapply writes_owned_log; [apply jobs_owned | exact Dl] |].
  split; [unfold handle; rewrite Jr; exact Dr |].
  split.
  { unfold handle. destruct Jt as [-> | ->]; [exact Dt |].
    apply Forall_app. split; [exact Dt | forall_list]. }
  split.
  { intros l el Hobs Hel.
    assert (observing el (handle doc e w)) as Hg by (exists l; auto).
    apply handle_observing in Hg. destruct Hg as (l0 & H0 & Hel0). eauto. }
  unfold attached in *. rewrite handle_listeners. auto.
Qed.

Lemma components_inv_run evs : components_inv doc (run doc evs (init doc)).
Proof.
  apply run_invariant; [apply components_inv_init |].
  intros e w. apply components_inv_handle.
Qed.


End Ownership.


(** ** The pointer follower: what a frame writes *)

Section PointerWrites.
Variable doc : Document.

Lemma orb_log_app w w' new :
  log w' = log w ++ new ->
  orb_log w' = orb_log w ++ List.filter (λ x, is_orb_write (snd x)) new.
Proof. unfold orb_log. intros ->. apply List.filter_app. Qed.

Lemma orb_log_same w w' : log w' = log w -> orb_log w' = orb_log w.
Proof. unfold orb_log. intros ->. reflexivity. Qed.

Lemma updateVisuals_orb_log w : orb_log (updateVisuals doc w) = orb_log w.
Proof.
  unfold updateVisuals, orb_log. cbv zeta.
  destruct (Rle_dec _ _); [reflexivity |].
  destruct (sunrise doc), (sunset doc), (bgOverlay doc); wsimpl;
    rewrite ?List.filter_app; cbn; rewrite ?app_nil_r; reflexivity.
Qed.

Lemma orb_writes_kept e rects t l :
  List.filter (λ x, is_orb_write (snd x)) (flat_map (orb_writes e rects t) l)
  = flat_map (orb_writes e rects t) l.
Proof.
  induction l as [| btn l IH]; [reflexivity |].
  cbn [flat_map]. rewrite List.filter_app, IH. reflexivity.
Qed.

Lemma run_task_orb_log t w :
  is_frame_task t = true ->
  orb_log (run_task doc t w) =
    orb_log w ++ match move_event t with
                 | Some e => flat_map (orb_writes e (boundingRect w) (now w))
                               (orbs doc)
                 | None => []
                 end.
Proof.
  intros Hf. destruct t; try discriminate; cbn [run_task move_event].
  - rewrite app_nil_r. destruct (titleEl doc); [| reflexivity].
    unfold orb_log. wsimpl. rewrite List.filter_app. cbn.
    rewrite app_nil_r. reflexivity.
  - rewrite app_nil_r. apply updateVisuals_orb_log.
  - rewrite (orb_log_app _ _ _ (moveOrbs_writes doc e w)).
    rewrite orb_writes_kept. reflexivity.
Qed.

Lemma run_task_rects t w :
  boundingRect (run_task doc t w) = boundingRect w.
Proof.
  destruct (run_task_shape doc t w) as (C & D & S & M & P & T & L & K & ->).
  reflexivity.
Qed.

(** A frame writes, for every pointer callback in the queue, both variables
    of every orb, from the event of the callback and the boxes of the
    frame. *)
Lemma run_tasks_orb_log l w :
  Forall (λ t, is_frame_task t = true) l ->
  orb_log (fold_left (λ w t, run_task doc t w) l w) =
    orb_log w ++
    flat_map (λ e, flat_map (orb_writes e (boundingRect w) (now w)) (orbs doc))
      (omap move_event l).
Proof.
  intros Hf. revert w. induction Hf as [| t l Ht _ IH]; intros w.
  - cbn. rewrite app_nil_r. reflexivity.
  - cbn [fold_left]. rewrite IH, run_task_orb_log by exact Ht.
    rewrite run_task_rects, run_task_now, <- app_assoc. f_equal.
    change (t :: l) with ([t] ++ l). rewrite omap_app, flat_map_app. f_equal.
    destruct t; cbn; rewrite ?app_nil_r; reflexivity.
Qed.

Lemma jobs_orb_log w : orb_log (promise_jobs doc w) = orb_log w.
Proof.
  destruct (promise_jobs_result doc w).
  - reflexivity.
  - reflexivity.
  - unfold orb_log. wsimpl. rewrite List.filter_app. cbn.
    rewrite app_nil_r. reflexivity.
Qed.

Lemma handle_frame_orb_log rects w :
  Forall (λ t, is_frame_task t = true) (raf w) ->
  orb_log (handle doc (EvFrame rects) w) =
    orb_log w ++
    flat_map (λ e, flat_map (orb_writes e rects (now w)) (orbs doc))
      (omap move_event (raf w)).
Proof.
  intros Hf. unfold handle. rewrite jobs_orb_log.
  unfold dispatch, animation_frame. rewrite run_tasks_orb_log by exact Hf.
  reflexivity.
Qed.

Lemma handle_frame_flag rects w :
  pointer_inv w -> mouseTicking (handle doc (EvFrame rects) w) = false.
Proof.
  intros Hi. destruct (pointer_inv_handle doc (EvFrame rects) w Hi) as [H _].
  rewrite handle_raf_frame in H. cbn in H.
  destruct (mouseTicking _); [discriminate | reflexivity].
Qed.

End PointerWrites.

(** X7.  When no update of the pointer follower is pending and the pointer
    moves, the next frame runs exactly one update, made with the event of
    that first move whatever events come between it and the frame: the
    frame writes [--mx] and [--my] of every orb, in document order, as the
    event's coordinates less the left and top of the orb's box at the frame,
    and clears [mouseTicking]. *)
Theorem pointer_follower_update (doc : Document) (evs : list event)
    (e1 : MouseEvent) (others : list event) (rects : node -> DOMRect) :
  pointer_present doc = true ->
  Forall (λ ev, is_frame ev = false) others ->
  let w0 := run doc evs (init doc) in
  mouseTicking w0 = false ->
  let w1 := run doc (EvMouseMove e1 :: others) w0 in
  let w2 := handle doc (EvFrame rects) w1 in
  orb_updates w2 = orb_updates w1 ++ [(now w1, e1)]
  /\ orb_log w2 =
       orb_log w1 ++ flat_map (orb_writes e1 rects (now w1)) (orbs doc)
  /\ mouseTicking w2 = false.
Proof.
  intros Hp Hf w0 Hm w1 w2.
  assert (pointer_inv w0) as Hi by apply pointer_inv_run.
  assert (attached OnMouseMove w0 = true) as Ha.
  { unfold w0. rewrite attached_run, attached_move_init. exact Hp. }
  destruct (handle_move_first doc e1 w0 Ha Hi Hm) as [Hm' He'].
  destruct (run_move_kept doc others e1 (handle doc (EvMouseMove e1) w0) Hf
              (pointer_inv_handle doc _ _ Hi) Hm' He') as (Hi1 & Hm1 & He1).
  change (run doc others (handle doc (EvMouseMove e1) w0)) with w1
    in Hi1, Hm1, He1.
  split; [apply handle_frame_move, He1 |].
  split; [| apply handle_frame_flag, Hi1].
  unfold w2. rewrite handle_frame_orb_log.
  - rewrite He1. cbn [flat_map]. rewrite app_nil_r. reflexivity.
  - unfold w1, w0. rewrite <- run_app. apply queues_ok_run.
Qed.

Lemma pointer_follower_update_witness :
  let w1 := run bare_page [EvMouseMove (mkMouse 10 10);
                           EvMouseMove (mkMouse 50 50)]
              (run bare_page [] (init bare_page)) in
  let w2 := handle bare_page (EvFrame (λ _, mkRect 0 0)) w1 in
  orb_updates w2 = orb_updates w1 ++ [(now w1, mkMouse 10 10)]
  /\ orb_log w2 =
       orb_log w1 ++
       flat_map (orb_writes (mkMouse 10 10) (λ _, mkRect 0 0) (now w1))
         (orbs bare_page)
  /\ mouseTicking w2 = false.
Proof.
  apply (pointer_follower_update bare_page [] (mkMouse 10 10)
           [EvMouseMove (mkMouse 50 50)] (λ _, mkRect 0 0)).
  - reflexivity.
  - apply List.Forall_cons; [reflexivity | apply List.Forall_nil].
  - reflexivity.
Defined.

(** ** Components the handler does not start *)

Section Disabled.
Variable doc : Document.

Lemma orb_updates_init : orb_updates (init doc) = [].
Proof.
  unfold init, DOMContentLoaded.
  destruct (jobs_pointer doc
              (pointer_section doc (reveal_section doc (scroll_section doc
                 (loader_section doc (hero_section doc
                    (state_section (boot doc)))))))) as (_ & _ & Hc).
  rewrite (orb_updates_calls _ _ Hc).
  match goal with |- context [pointer_section doc ?w0] =>
    destruct (pointer_section_loop doc w0) as (_ & _ & _ & Hc' & _) end.
  rewrite (orb_updates_calls _ _ Hc').
  match goal with |- context [reveal_section doc ?w0] =>
    destruct (reveal_section_shape doc w0) as (O & ->) end.
  match goal with |- context [scroll_section doc ?w0] =>
    assert (orb_updates (scroll_section doc w0) = orb_updates w0) as Hs end.
  { unfold scroll_section. destruct (sunrise doc), (sunset doc);
      try reflexivity.
    match goal with |- context [updateVisuals doc ?w0] =>
      destruct (run_task_pointer doc TUpdateVisuals w0) as (E & _) end.
    cbn [run_task move_event] in E. rewrite E, app_nil_r. reflexivity. }
  change (orb_updates (set_observed O ?w)) with (orb_updates w).
  rewrite Hs.
  match goal with |- context [loader_section doc ?w0] =>
    destruct (loader_section_loop doc w0) as (_ & _ & _ & Hc1 & _) end.
  rewrite (orb_updates_calls _ _ Hc1).
  match goal with |- context [hero_section doc ?w0] =>
    destruct (hero_section_loop doc w0) as (_ & _ & _ & Hc2 & _) end.
  rewrite (orb_updates_calls _ _ Hc2).
  destruct (state_section_loop (boot doc)) as (_ & _ & _ & Hc3 & _).
  rewrite (orb_updates_calls _ _ Hc3). reflexivity.
Qed.

(** Only a frame with a pointer callback in its queue runs [moveOrbs]. *)
Lemma handle_orb_updates e w :
  pointer_inv w -> omap move_event (raf w) = [] ->
  orb_updates (handle doc e w) = orb_updates w.
Proof.
  intros [_ H2] Hr. unfold handle.
  destruct (jobs_pointer doc (dispatch doc e w)) as (_ & _ & Hc).
  rewrite (orb_updates_calls _ _ Hc). destruct e; unfold dispatch.
  - unfold onScroll. cbv zeta. destruct (attached OnScroll _); [| auto].
    destruct (negb _); reflexivity.
  - destruct (attached OnResize _); reflexivity.
  - unfold onMouseMove. destruct (attached OnMouseMove w); [| auto].
    destruct (negb _); reflexivity.
  - unfold animation_frame.
    match goal with |- context [fold_left ?g ?l ?w0] =>
      destruct (run_tasks_pointer doc l w0) as (-> & _) end.
    rewrite Hr. cbn. rewrite app_nil_r. reflexivity.
  - destruct (fire_timer_cases doc w) as [-> | (d & t & rest & Hp & _ & ->)];
      [auto |].
    assert (is_move t = false) as Hu.
    { rewrite Hp in H2. inversion H2; subst. auto. }
    destruct (run_task_pointer doc t (w |> set_timers rest
                                        |> set_now (Nat.max (now w) d)))
      as (-> & _).
    destruct t; try discriminate; cbn; rewrite app_nil_r; reflexivity.
  - unfold wait. destruct (_ && _); auto.
  - auto.
  - auto.
  - unfold deliver. destruct (observed w); [| auto].
    match goal with |- context [observer_callback ?es ?w0] =>
      destruct (observer_callback_shape es w0) as (C & O & L & ->) end.
    auto.
Qed.

Lemma no_moves_queued evs :
  pointer_present doc = false ->
  omap move_event (raf (run doc evs (init doc))) = [].
Proof.
  intros Hp. destruct (components_inv_run doc evs) as (_ & Hr & _).
  induction Hr as [| t l Ht _ IH]; [reflexivity |].
  destruct t; cbn [task_enabled] in Ht; try exact IH. congruence.
Qed.

Lemma no_orb_updates evs :
  pointer_present doc = false -> orb_updates (run doc evs (init doc)) = [].
Proof.
  intros Hp. induction evs as [| e evs IH] using rev_ind.
  - apply orb_updates_init.
  - rewrite run_snoc, handle_orb_updates; auto using pointer_inv_run,
      no_moves_queued.
Qed.

Lemma orb_write_owned m :
  is_orb_write m = true -> owned doc m = true -> pointer_present doc = true.
Proof.
  destruct m as [el p v | |]; try discriminate. cbn [is_orb_write owned].
  intros Hp Ho. apply orb_true_iff in Hp.
  assert (p = "--mx" \/ p = "--my")%string as Hp'
    by (destruct Hp as [Hp | Hp]; apply String.eqb_eq in Hp; auto).
  repeat match goal with
         | H : _ || _ = true |- _ => apply orb_true_iff in H; destruct H
         | H : _ && _ = true |- _ => apply andb_true_iff in H; destruct H
         | H : bool_decide _ = true |- _ => apply bool_decide_eq_true in H
         end; auto;
    try (destruct Hp' as [-> | ->]; discriminate).
  all: exfalso; destruct Hp' as [-> | ->];
    match goal with H : _ ∈ _ |- _ =>
      apply list_elem_of_In in H; cbn in H; intuition discriminate end.
Qed.

Lemma observed_init :
  revealTargets doc = [] -> observed (init doc) = None.
Proof.
  intros Hr. unfold init. rewrite jobs_observed.
  unfold DOMContentLoaded, pointer_section, reveal_section. rewrite Hr.
  assert (forall w, observed (scroll_section doc w) = observed w) as Hs.
  { intros w. unfold scroll_section. destruct (sunrise doc), (sunset doc);
      try reflexivity.
    match goal with |- context [updateVisuals doc ?w0] =>
      destruct (updateVisuals_shape doc w0)
        as (C & D & S & M & P & T & L & K & ->) end. reflexivity. }
  assert (forall w, observed (loader_section doc w) = observed w) as Hl.
  { intros w. unfold loader_section. destruct (bgImgs doc); [| reflexivity].
    destruct (removeLoader_cases doc w) as [-> | (el & _ & _ & ->)];
      reflexivity. }
  assert (forall w, observed (hero_section doc w) = observed w) as Hh.
  { intros w. unfold hero_section. destruct (titleEl doc), (titleText doc);
      reflexivity. }
  destruct (_ && _); wsimpl; rewrite Hs, Hl, Hh; reflexivity.
Qed.

End Disabled.

(** X8.  On a page whose pointer is not precise or that has no orb the
    pointer follower is never started: the mousemove listener is not
    attached, a pointer move changes nothing, and along every run no update
    is pending, none has run and [--mx] and [--my] were never written. *)
Theorem pointer_follower_disabled (doc : Document) (evs : list event) :
  pointer_fine doc = false \/ orbs doc = [] ->
  let w := run doc evs (init doc) in
  attached OnMouseMove w = false
  /\ (forall e, handle doc (EvMouseMove e) w = w)
  /\ mouseTicking w = false
  /\ List.filter is_move (raf w) = []
  /\ orb_updates w = []
  /\ orb_log w = [].
Proof.
  intros Hd w.
  assert (pointer_present doc = false) as Hp.
  { unfold pointer_present. destruct Hd as [-> | ->]; [reflexivity |].
    rewrite bool_decide_eq_true_2 by reflexivity. apply andb_false_r. }
  assert (attached OnMouseMove w = false) as Ha.
  { unfold w. rewrite attached_run, attached_move_init. exact Hp. }
  destruct (pointer_inv_run doc evs) as [P1 _]. fold w in P1.
  pose proof (no_moves_queued doc evs Hp) as Hq. fold w in Hq.
  assert (List.filter is_move (raf w) = []) as Hf.
  { pose proof (omap_move_length (raf w)) as Hlen. rewrite Hq in Hlen.
    destruct (List.filter is_move (raf w)); [reflexivity | discriminate]. }
  split; [exact Ha |]. split.
  { intros e. unfold handle, dispatch. rewrite Ha.
    apply jobs_at_rest. apply idle_run. }
  split.
  { rewrite Hf in P1. destruct (mouseTicking w); [discriminate | reflexivity]. }
  split; [exact Hf |]. split; [apply no_orb_updates, Hp |].
  destruct (components_inv_run doc evs) as (Hl & _). fold w in Hl.
  unfold orb_log. induction Hl as [| x l Hx _ IH]; [reflexivity |].
  cbn [List.filter]. destruct (is_orb_write (snd x)) eqn:Ho; [| exact IH].
  pose proof (orb_write_owned doc (snd x) Ho Hx). congruence.
Qed.

Lemma pointer_follower_disabled_witness :
  let w := run touch_page
             [EvMouseMove (mkMouse 10 10); EvFrame (λ _, mkRect 0 0)]
             (init touch_page) in
  orb_updates w = [] /\ orb_log w = [].
Proof.
  intros w.
  destruct (pointer_follower_disabled touch_page
              [EvMouseMove (mkMouse 10 10); EvFrame (λ _, mkRect 0 0)]
              (or_introl eq_refl)) as (_ & _ & _ & _ & H1 & H2).
  split; [exact H1 | exact H2].
Defined.

(** X9.  On a page without reveal targets no observer is created: along
    every run nothing is observed, an intersection notification changes
    nothing, and the class [visible] is only ever added to the title. *)
Theorem reveal_disabled (doc : Document) (evs : list event) :
  revealTargets doc = [] ->
  let w := run doc evs (init doc) in
  observed w = None
  /\ (forall entries, handle doc (EvIntersect entries) w = w)
  /\ (forall t el, In (t, AddClass el "visible") (log w) ->
        titleEl doc = Some el).
Proof.
  intros Hr w.
  assert (observed w = None) as Ho.
  { unfold w. clear w. induction evs as [| e evs IH] using rev_ind.
    - apply observed_init, Hr.
    - rewrite run_snoc, handle_observed.
      destruct e; try exact IH. unfold deliver. rewrite IH. exact IH. }
  split; [exact Ho |]. split.
  { intros entries. unfold handle, dispatch, deliver. rewrite Ho.
    apply jobs_at_rest. apply idle_run. }
  intros t el Hin.
  destruct (components_inv_run doc evs) as (Hl & _). fold w in Hl.
  rewrite Forall_forall in Hl. apply list_elem_of_In in Hin.
  specialize (Hl _ Hin). cbn [snd owned] in Hl. rewrite Hr in Hl.
  repeat match goal with
         | H : _ || _ = true |- _ => apply orb_true_iff in H; destruct H
         | H : _ && _ = true |- _ => apply andb_true_iff in H; destruct H
         | H : bool_decide _ = true |- _ => apply bool_decide_eq_true in H
         end; auto; try discriminate.
  exfalso. match goal with H : _ ∈ [] |- _ => inversion H end.
Qed.

Lemma reveal_disabled_witness :
  let w := run bare_page [EvIntersect [mkEntry 9 true]] (init bare_page) in
  observed w = None.
Proof.
  intros w.
  destruct (reveal_disabled bare_page [EvIntersect [mkEntry 9 true]] eq_refl)
    as (H & _).
  exact H.
Defined.

(** ** The loader: deadlines *)

Section LoaderDeadline.
Variable doc : Document.

Lemma dispatch_raceP e w :
  queues_ok w -> raceP (dispatch doc e w) = raceP w.
Proof.
  intros Hq. pose proof (dispatch_quiet doc e w Hq) as Hquiet.
  destruct e;
    try (destruct Hquiet as (_ & _ & _ & Hr & _); exact Hr); unfold dispatch.
  - destruct (fire_timer_cases doc w) as [-> | (d & t & rest & _ & _ & ->)];
      [reflexivity |].
    destruct (run_task_promises doc t (w |> set_timers rest
                                         |> set_now (Nat.max (now w) d)))
      as (_ & -> & _). reflexivity.
  - unfold wait. destruct (_ && _); reflexivity.
  - reflexivity.
  - reflexivity.
Qed.

Lemma dispatch_hide_times e w :
  queues_ok w -> times_of is_hide (dispatch doc e w) = times_of is_hide w.
Proof.
  intros Hq. pose proof (dispatch_quiet doc e w Hq) as Hquiet.
  destruct e;
    try (apply (quiet_times_of is_hide _ _ untracked_not_hide Hquiet));
    unfold dispatch.
  - destruct (fire_timer_split doc w Hq)
      as [[_ ->] | (d & t & l1 & l2 & _ & _ & _ & ->)]; [reflexivity |].
    rewrite (run_task_times doc is_hide t _ untracked_not_hide).
    replace (map fst (filter (λ x, is_hide (snd x) = true)
               (map (λ m, (now (w |> set_timers (l1 ++ l2) |> set_now d), m))
                  (task_writes doc t)))) with (@nil nat).
    + rewrite app_nil_r. reflexivity.
    + destruct t; cbn [task_writes]; try reflexivity;
        [destruct (titleText doc) | destruct (titleText doc)
        | destruct (pageLoader doc)]; reflexivity.
  - unfold wait. destruct (_ && _); reflexivity.
  - reflexivity.
  - reflexivity.
Qed.


(** What a task and its reactions do to the loader's class [hidden]: nothing,
    or the race was pending and the reaction hides a loader that was not
    hidden, at the time of the task. *)
Lemma handle_hide e w :
  queues_ok w ->
  (times_of is_hide (handle doc e w) = times_of is_hide w
   /\ (forall el, "hidden" ∈ classList_of el (handle doc e w) <->
                  "hidden" ∈ classList_of el w))
  \/ (raceP w = Some Pending
      /\ (exists el, pageLoader doc = Some el /\ "hidden" ∉ classList_of el w)
      /\ times_of is_hide (handle doc e w) =
           times_of is_hide w ++ [now (dispatch doc e w)]).
Proof.
  intros Hq. unfold handle.
  pose proof (dispatch_hide_times e w Hq) as Ht.
  pose proof (dispatch_raceP e w Hq) as Hr.
  destruct (promise_jobs_result doc (dispatch doc e w))
    as [_ | _ _ _ | el Hp _ Hel Hn].
  - left. split; [exact Ht |]. intros el. apply dispatch_hidden.
  - left. split; [exact Ht |]. intros el. apply (dispatch_hidden doc e w el).
  - right. split; [congruence |]. split.
    + exists el. split; [exact Hel |]. rewrite <- (dispatch_hidden doc e w el).
      exact Hn.
    + rewrite <- Ht.
      apply (times_of_snoc is_hide (dispatch doc e w) _
               (now (dispatch doc e w)) (AddClass el "hidden")).
      reflexivity.
Qed.




End LoaderDeadline.



(** X11.  A loader that is absent, or that already has the class [hidden]
    when the handler runs, is left alone: along every run the script never
    adds [hidden], never starts the 900ms timer and never removes
    anything. *)
Theorem loader_left_alone (doc : Document) (evs : list event) :
  loader_shown doc = false ->
  let w := run doc evs (init doc) in
  times_of is_hide w = [] /\ pending is_remove w = []
  /\ times_of is_removal w = [] /\ detached w = ∅.
Proof.
  intros Hs w.
  enough (times_of is_hide w = []) as Hh.
  { split; [exact Hh |].
    pose proof (removal_inv_run doc evs) as Hr. fold w in Hr.
    destruct Hr as [(_ & H) | (t & el & _ & Ht & _)]; [exact H |].
    rewrite Hh in Ht. discriminate. }
  enough (times_of is_hide w = []
          /\ forall el, pageLoader doc = Some el -> "hidden" ∈ classList_of el w)
    as [H _] by exact H.
  unfold w. clear w. induction evs as [| e evs IH] using rev_ind.
  - cbn [run fold_left].
    destruct (init_tracked doc) as (_ & _ & _ & _ & _ & _ & Hh & _ & _ & _ & Hc).
    split; [rewrite Hh, Hs, andb_false_r; reflexivity |].
    intros el Hel. apply (Hc el Hel). left.
    unfold loader_shown in Hs. rewrite Hel in Hs.
    apply negb_false_iff, bool_decide_eq_true in Hs. exact Hs.
  - rewrite run_snoc. set (w := run doc evs (init doc)) in *.
    destruct IH as [IH1 IH2].
    assert (queues_ok w) as Hq by apply queues_ok_run.
    destruct (handle_hide doc e w Hq) as [[-> Hc] | (_ & (el & Hel & Hn) & _)].
    + split; [exact IH1 |]. intros el Hel. apply Hc, IH2, Hel.
    + exfalso. apply Hn, IH2, Hel.
Qed.

Lemma loader_left_alone_witness :
  let w := run empty_page [EvTimer; EvWait 3000] (init empty_page) in
  times_of is_hide w = [] /\ detached w = ∅.
Proof.
  intros w.
  destruct (loader_left_alone empty_page [EvTimer; EvWait 3000] eq_refl)
    as (H1 & _ & _ & H2).
  split; [exact H1 | exact H2].
Defined.

(** ** Classes, and the blend along a run *)

(** X12.  The script never removes a class: through any events, from any
    state, an element keeps every class it has, and the only classes it can
    gain are [visible], [floaty] and [hidden]. *)
Theorem classes_only_grow (doc : Document) (evs : list event) (w : World)
    (el : node) (c : string) :
  (c ∈ classList_of el w -> c ∈ classList_of el (run doc evs w))
  /\ (c ∈ classList_of el (run doc evs w) ->
      c ∈ classList_of el w \/ c = "visible"%string \/ c = "floaty"%string
      \/ c = "hidden"%string).
Proof.
  destruct (run_grow doc evs w el c) as [H1 H2]. split; [exact H1 |].
  intros H. destruct (H2 H) as [? | Hin]; [left; assumption | right].
  apply list_elem_of_In in Hin. cbn in Hin. intuition.
Qed.

Section Blend.
Local Open Scope R_scope.
Variable doc : Document.

Lemma blend_log_app w w' new :
  log w' = log w ++ new ->
  blend_log w' = blend_log w ++ List.filter (λ x, is_blend_write (snd x)) new.
Proof. unfold blend_log. intros ->. apply List.filter_app. Qed.

(** A recomputation with a height of zero or less adds nothing to the
    blend. *)
Lemma updateVisuals_blend_none w :
  docHeight (state w) <= 0 -> blend_log (updateVisuals doc w) = blend_log w.
Proof.
  intros Hh. unfold updateVisuals, blend_log. cbv zeta. wsimpl.
  destruct (Rle_dec _ _); [reflexivity | lra].
Qed.

Lemma moveOrbs_blend e w : blend_log (moveOrbs doc e w) = blend_log w.
Proof.
  rewrite (blend_log_app _ _ _ (moveOrbs_writes doc e w)).
  replace (List.filter _ _) with (@nil (nat * mutation));
    [apply app_nil_r |].
  induction (orbs doc) as [| btn l IH]; [reflexivity |].
  cbn [flat_map]. rewrite List.filter_app, <- IH. reflexivity.
Qed.

Lemma run_task_blend_none t w :
  docHeight (state w) <= 0 ->
  blend_log (run_task doc t w) = blend_log w
  /\ docHeight (state (run_task doc t w)) = docHeight (state w).
Proof.
  intros Hh. destruct t; cbn [run_task].
  - destruct (titleEl doc); [| auto]. split; [| reflexivity].
    unfold blend_log. wsimpl. rewrite List.filter_app. cbn.
    apply app_nil_r.
  - destruct (titleText doc); [| auto]. split; [| reflexivity].
    unfold blend_log. wsimpl. rewrite List.filter_app. cbn.
    apply app_nil_r.
  - destruct (titleText doc); [| auto]. split; [| reflexivity].
    unfold blend_log. wsimpl. rewrite List.filter_app. cbn.
    apply app_nil_r.
  - destruct (pageLoader doc); [| auto]. split; [| reflexivity].
    unfold blend_log. wsimpl. rewrite List.filter_app. cbn.
    apply app_nil_r.
  - auto.
  - split; [apply updateVisuals_blend_none, Hh |].
    destruct (updateVisuals_fields doc w) as (-> & _). reflexivity.
  - split; [apply moveOrbs_blend |].
    destruct (moveOrbs_shape doc e w) as (L & ->). reflexivity.
Qed.

Lemma run_tasks_blend_none l w :
  docHeight (state w) <= 0 ->
  blend_log (fold_left (λ w t, run_task doc t w) l w) = blend_log w.
Proof.
  revert w. induction l as [| t l IH]; intros w Hh; [reflexivity |].
  cbn [fold_left]. destruct (run_task_blend_none t w Hh) as [E1 E2].
  rewrite IH by (rewrite E2; exact Hh). exact E1.
Qed.

Lemma jobs_blend w : blend_log (promise_jobs doc w) = blend_log w.
Proof.
  destruct (promise_jobs_result doc w).
  - reflexivity.
  - reflexivity.
  - unfold blend_log. wsimpl. rewrite List.filter_app. cbn.
    apply app_nil_r.
Qed.

Lemma observer_callback_blend es w :
  blend_log (observer_callback es w) = blend_log w.
Proof.
  revert w. induction es as [| entry es IH]; intros w; [reflexivity |].
  unfold observer_callback. cbn [fold_left].
  fold (observer_callback es). rewrite IH.
  destruct (isIntersecting entry); [| reflexivity].
  unfold blend_log, unobserve. wsimpl.
  destruct (observed w); wsimpl; rewrite List.filter_app; cbn;
    apply app_nil_r.
Qed.

(** While the cached height is zero or less no event adds to the blend. *)
Lemma handle_blend_none e w :
  docHeight (state w) <= 0 -> is_resize e = false ->
  blend_log (handle doc e w) = blend_log w.
Proof.
  intros Hh Hr. unfold handle. rewrite jobs_blend.
  destruct e; try discriminate; unfold dispatch.
  - unfold onScroll. cbv zeta. destruct (attached OnScroll _); [| auto].
    destruct (negb _); reflexivity.
  - unfold onMouseMove. destruct (attached OnMouseMove w); [| auto].
    destruct (negb _); reflexivity.
  - unfold animation_frame. rewrite run_tasks_blend_none by exact Hh.
    reflexivity.
  - destruct (fire_timer_cases doc w) as [-> | (d & t & rest & _ & _ & ->)];
      [reflexivity |].
    apply (run_task_blend_none t (w |> set_timers rest
                                    |> set_now (Nat.max (now w) d)) Hh).
  - unfold wait. destruct (_ && _); reflexivity.
  - reflexivity.
  - reflexivity.
  - unfold deliver. destruct (observed w); [| reflexivity].
    apply observer_callback_blend.
Qed.

(** The blend written by the handler itself is that of its one call of
    [updateVisuals]. *)
Lemma scroll_section_blend w w' :
  state w' = state w -> now w' = now w -> blend_log w' = blend_log w ->
  blend_log (scroll_section doc w') = blend_log (scroll_section doc w).
Proof.
  intros Es En Eb. unfold scroll_section.
  destruct (sunrise doc) eqn:Ha, (sunset doc) eqn:Hb; try exact Eb.
  unfold updateVisuals, blend_log in *. cbv zeta. rewrite Ha, Hb. wsimpl.
  rewrite Es.
  destruct (Rle_dec _ _); wsimpl; [exact Eb |].
  destruct (bgOverlay doc); wsimpl; rewrite ?En, !List.filter_app, Eb;
    reflexivity.
Qed.

Lemma blend_log_init :
  blend_log (init doc) =
    blend_log (scroll_section doc (state_section (boot doc))).
Proof.
  unfold init, DOMContentLoaded. rewrite jobs_blend.
  assert (forall w, blend_log (pointer_section doc w) = blend_log w) as Hp.
  { intros w. unfold pointer_section. destruct (_ && _); reflexivity. }
  assert (forall w, blend_log (reveal_section doc w) = blend_log w) as Hv.
  { intros w. destruct (reveal_section_shape doc w) as (O & ->). reflexivity. }
  rewrite Hp, Hv.
  match goal with |- context [loader_section doc ?w0] =>
    destruct (loader_section_loop doc w0) as (Ln & _ & _ & _ & Ls & _);
    assert (blend_log (loader_section doc w0) = blend_log w0) as Lb
  end.
  { unfold loader_section. destruct (bgImgs doc); [| reflexivity].
    match goal with |- context [removeLoader doc ?w0] =>
      destruct (removeLoader_cases doc w0) as [-> | (el & _ & _ & ->)] end;
      [reflexivity |].
    unfold blend_log. wsimpl. rewrite List.filter_app. cbn.
    apply app_nil_r. }
  rewrite (scroll_section_blend _ _ Ls Ln Lb).
  apply scroll_section_blend; unfold hero_section;
    destruct (titleEl doc), (titleText doc); reflexivity.
Qed.

Lemma blend_write_owned m :
  is_blend_write m = true -> owned doc m = true -> layers_present doc = true.
Proof.
  destruct m as [el p v | |]; try discriminate. cbn [is_blend_write owned].
  intros Hp Ho. apply orb_true_iff in Hp.
  assert (p = "opacity" \/ p = "transform")%string as Hp'
    by (destruct Hp as [Hp | Hp]; apply String.eqb_eq in Hp; auto).
  repeat match goal with
         | H : _ || _ = true |- _ => apply orb_true_iff in H; destruct H
         | H : _ && _ = true |- _ => apply andb_true_iff in H; destruct H
         | H : bool_decide _ = true |- _ => apply bool_decide_eq_true in H
         end; auto;
    try (destruct Hp' as [-> | ->]; discriminate).
  all: exfalso; destruct Hp' as [-> | ->];
    match goal with H : _ ∈ _ |- _ =>
      apply list_elem_of_In in H; cbn in H; intuition discriminate end.
Qed.

End Blend.


(** X14.  No opacity and no transform is ever written on a page that lacks
    one of the two layers, nor on a page whose scrollable height at load is
    zero or less for as long as no resize event arrives. *)
Theorem blend_never (doc : Document) (evs : list event) :
  sunrise doc = None \/ sunset doc = None
  \/ ((load_scrollHeight doc - load_innerHeight doc <= 0)%R
      /\ Forall (λ e, is_resize e = false) evs) ->
  blend_log (run doc evs (init doc)) = [].
Proof.
  intros H.
  assert (layers_present doc = false
          \/ ((load_scrollHeight doc - load_innerHeight doc <= 0)%R
              /\ Forall (λ e, is_resize e = false) evs)) as [Hl | [Hh Hf]].
  { unfold layers_present. destruct H as [-> | [-> | H]]; auto.
    destruct (sunrise doc); auto. }
  - destruct (components_inv_run doc evs) as (Hl' & _). unfold blend_log.
    induction Hl' as [| x l Hx _ IH]; [reflexivity |].
    cbn [List.filter]. destruct (is_blend_write (snd x)) eqn:Ho; [| exact IH].
    pose proof (blend_write_owned doc (snd x) Ho Hx). congruence.
  - enough ((docHeight (state (run doc evs (init doc))) <= 0)%R
            /\ blend_log (run doc evs (init doc)) = []) as [_ E] by exact E.
    induction evs as [| e evs IH] using rev_ind.
    + cbn [run fold_left]. destruct (init_fields doc) as (_ & _ & _ & -> & _).
      split; [exact Hh |]. rewrite blend_log_init. unfold scroll_section.
      destruct (sunrise doc), (sunset doc); try reflexivity.
      apply updateVisuals_blend_none. exact Hh.
    + apply Forall_app in Hf. destruct Hf as [Hf He].
      inversion He as [| ? ? He' _]; subst.
      rewrite run_snoc. destruct (IH (or_intror (or_intror (conj Hh Hf))) Hf)
        as [I1 I2].
      rewrite handle_blend_none by assumption. split; [| exact I2].
      rewrite handle_docHeight; [exact I1 | | exact He'].
      apply scroll_inv_run.
Qed.


Lemma blend_never_witness :
  blend_log (run empty_page [EvScroll 40%R; EvFrame (λ _, mkRect 0 0)]
               (init empty_page)) = [].
Proof.
  apply blend_never. left. reflexivity.
Defined.

(** ** Throttling *)

Section Throttle.
Variable doc : Document.

Lemma run_task_calls t w :
  is_update t = false -> is_move t = false ->
  calls (run_task doc t w) = calls w.
Proof.
  intros Hu Hm. destruct t; try discriminate; cbn [run_task];
    try destruct (titleEl doc); try destruct (titleText doc);
    try destruct (pageLoader doc); reflexivity.
Qed.

(** Only a frame calls [updateVisuals] or [moveOrbs]. *)
Lemma handle_calls_other e w :
  is_frame e = false -> scroll_inv w -> pointer_inv w ->
  calls (handle doc e w) = calls w.
Proof.
  intros Hf [_ S2] [_ P2]. unfold handle.
  destruct (jobs_scroll_fields doc (dispatch doc e w)) as (_ & _ & -> & _).
  destruct e; try discriminate; unfold dispatch.
  - unfold onScroll. cbv zeta. destruct (attached OnScroll _); [| auto].
    destruct (negb _); reflexivity.
  - destruct (attached OnResize _); reflexivity.
  - unfold onMouseMove. destruct (attached OnMouseMove w); [| auto].
    destruct (negb _); reflexivity.
  - destruct (fire_timer_cases doc w) as [-> | (d & t & rest & Hp & _ & ->)];
      [auto |].
    rewrite Hp in S2, P2. inversion S2; subst. inversion P2; subst.
    rewrite run_task_calls by assumption. reflexivity.
  - unfold wait. destruct (_ && _); auto.
  - auto.
  - auto.
  - unfold deliver. destruct (observed w); [| auto].
    match goal with |- context [observer_callback ?es ?w0] =>
      destruct (observer_callback_shape es w0) as (C & O & L & ->) end.
    auto.
Qed.

(** Only a pointer move sets [mouseTicking]. *)
Lemma handle_flag_other e w :
  is_frame e = false -> is_mouse e = false -> pointer_inv w ->
  mouseTicking (handle doc e w) = mouseTicking w.
Proof.
  intros Hf Hm [_ P2]. unfold handle.
  destruct (jobs_pointer doc (dispatch doc e w)) as (_ & -> & _).
  destruct e; try discriminate; unfold dispatch.
  - unfold onScroll. cbv zeta. destruct (attached OnScroll _); [| auto].
    destruct (negb _); reflexivity.
  - destruct (attached OnResize _); reflexivity.
  - destruct (fire_timer_cases doc w) as [-> | (d & t & rest & Hp & _ & ->)];
      [auto |].
    rewrite Hp in P2. inversion P2 as [| ? ? Hu _]; subst. cbn [snd] in Hu.
    destruct (run_task_pointer doc t (w |> set_timers rest
                                        |> set_now (Nat.max (now w) d)))
      as (_ & ->).
    rewrite Hu. reflexivity.
  - unfold wait. destruct (_ && _); auto.
  - auto.
  - auto.
  - unfold deliver. destruct (observed w); [| auto].
    match goal with |- context [observer_callback ?es ?w0] =>
      destruct (observer_callback_shape es w0) as (C & O & L & ->) end.
    auto.
Qed.

(** A frame runs [moveOrbs] once if a callback is pending and not at all
    otherwise. *)
Lemma handle_frame_updates rects w :
  pointer_inv w ->
  length (orb_updates (handle doc (EvFrame rects) w)) =
    length (orb_updates w) + (if mouseTicking w then 1 else 0).
Proof.
  intros [P1 _]. unfold handle.
  destruct (jobs_pointer doc (dispatch doc (EvFrame rects) w)) as (_ & _ & Hc).
  rewrite (orb_updates_calls _ _ Hc). unfold dispatch, animation_frame.
  match goal with |- context [fold_left ?g ?l ?w0] =>
    destruct (run_tasks_pointer doc l w0) as (-> & _) end.
  rewrite List.length_app, List.length_map, omap_move_length, P1. reflexivity.
Qed.

Lemma mouseTicking_init : mouseTicking (init doc) = false.
Proof.
  destruct (pointer_inv_run doc []) as [P1 _]. cbn [run fold_left] in P1.
  destruct (init_fields doc) as (_ & Hr & _). rewrite Hr in P1.
  destruct (mouseTicking (init doc)); [| reflexivity].
  destruct (hero_present doc); discriminate.
Qed.

End Throttle.

(** X15.  Updates are throttled by frames and caused by events.  Along every
    run the scroll engine has recomputed at most once per frame besides its
    pass at load, and the pointer follower has updated at most once per
    frame; and the recomputations made or pending are at most one more than
    the scroll events, the pointer updates made or pending at most the
    pointer moves. *)
Theorem updates_throttled (doc : Document) (evs : list event) :
  let w := run doc evs (init doc) in
  length (recomputations w) <= 1 + length (List.filter is_frame evs)
  /\ length (recomputations w) + (if ticking (state w) then 1 else 0)
     <= 1 + length (List.filter is_scroll evs)
  /\ length (orb_updates w) <= length (List.filter is_frame evs)
  /\ length (orb_updates w) + (if mouseTicking w then 1 else 0)
     <= length (List.filter is_mouse evs).
Proof.
  cbv zeta. induction evs as [| e evs IH] using rev_ind.
  - cbn [run fold_left List.filter length].
    destruct (init_fields doc) as (_ & _ & _ & -> & _ & ->).
    rewrite orb_updates_init, mouseTicking_init. cbn [ticking length].
    destruct (layers_present doc); cbn [length]; lia.
  - rewrite run_snoc, !List.filter_app, !List.length_app.
    set (w := run doc evs (init doc)) in *.
    assert (scroll_inv w) as Si by apply scroll_inv_run.
    assert (pointer_inv w) as Pi by apply pointer_inv_run.
    destruct IH as (I1 & I2 & I3 & I4).
    destruct (is_frame e) eqn:Hf.
    + destruct e; try discriminate. cbn [List.filter is_frame is_scroll
        is_mouse length].
      destruct (handle_frame_scroll doc rects w Si) as (-> & -> & _).
      rewrite (handle_frame_updates doc rects w Pi).
      rewrite (handle_frame_flag doc rects w Pi).
      rewrite List.length_app.
      destruct (ticking (state w)), (mouseTicking w); cbn [length]; lia.
    + pose proof (handle_calls_other doc e w Hf Si Pi) as Hc.
      rewrite (recomputations_calls _ _ Hc), (orb_updates_calls _ _ Hc).
      assert (length (List.filter is_frame [e]) = 0) as ->
        by (cbn; rewrite Hf; reflexivity).
      split; [lia |]. split; [| split; [lia |]].
      * destruct (is_scroll e) eqn:Hs.
        -- assert (length (List.filter is_scroll [e]) = 1) as ->
             by (cbn; rewrite Hs; reflexivity).
           destruct (ticking (state (handle doc e w))),
             (ticking (state w)); lia.
        -- destruct (handle_state_other doc e w Si Hf (or_introl Hs))
             as (_ & -> & _). lia.
      * destruct (is_mouse e) eqn:Hm.
        -- assert (length (List.filter is_mouse [e]) = 1) as ->
             by (cbn; rewrite Hm; reflexivity).
           destruct (mouseTicking (handle doc e w)), (mouseTicking w); lia.
        -- rewrite (handle_flag_other doc e w Hf Hm Pi). lia.
Qed.

(** ** The blend a frame writes *)

Section FrameBlend.
Local Open Scope R_scope.
Variable doc : Document.
Variable a : node.
Variable b : node.
Hypothesis Ha : sunrise doc = Some a.
Hypothesis Hb : sunset doc = Some b.





End FrameBlend.


